(** * DisasterLink: access scoping and affiliation lifecycle

    A shallow embedding of the Supabase schema (tables, row-level-security
    policies, PL/pgSQL functions) and of the TypeScript services that call
    it, followed by the properties established about them.

    Conventions
    - a SQL value that may be NULL is an [option]; a SQL boolean is an
      [option bool] and goes through three-valued logic until it is used
      by WHERE, USING, WITH CHECK or IF, which all take NULL as "not true";
    - a table with a PRIMARY KEY is a [gmap] from the key to the row;
    - [now()], [gen_random_uuid()] and [auth.uid()] are read from an
      explicit execution context;
    - a statement that raises aborts the transaction: the caller sees
      [Raise] and the database it started from. *)

From Stdlib Require Import ZArith NArith Ascii String.
From stdpp Require Import base decidable option list gmap strings sorting.

Local Open Scope string_scope.

(* ===================================================================== *)
(** ** SQL values and three-valued logic *)
(* ===================================================================== *)

Module Sql.

Definition sql_eq {A} `{EqDecision A} (a b : option A) : option bool :=
  match a, b with
  | Some x, Some y => Some (bool_decide (x = y))
  | _, _ => None
  end.

Definition sql_ne {A} `{EqDecision A} (a b : option A) : option bool :=
  negb <$> sql_eq a b.

Definition sql_not (a : option bool) : option bool := negb <$> a.

Definition sql_and (a b : option bool) : option bool :=
  match a, b with
  | Some false, _ | _, Some false => Some false
  | Some true, Some true => Some true
  | _, _ => None
  end.

Definition sql_or (a b : option bool) : option bool :=
  match a, b with
  | Some true, _ | _, Some true => Some true
  | Some false, Some false => Some false
  | _, _ => None
  end.

(** [x IN (v1, ..., vn)] over non-NULL literals. *)
Definition sql_in {A} `{EqDecision A} (a : option A) (l : list A) : option bool :=
  match a with
  | Some x => Some (bool_decide (x ∈ l))
  | None => None
  end.

Definition sql_not_in {A} `{EqDecision A} (a : option A) (l : list A) : option bool :=
  sql_not (sql_in a l).

Definition is_null {A} (a : option A) : bool :=
  match a with None => true | Some _ => false end.

Definition is_not_null {A} (a : option A) : bool := negb (is_null a).

Definition coalesce {A} (a : option A) (d : A) : A := default d a.

(** [NULLIF(a, v)]. *)
Definition nullif {A} `{EqDecision A} (a : option A) (v : A) : option A :=
  match a with
  | Some x => if bool_decide (x = v) then None else Some x
  | None => None
  end.

(** How WHERE, USING, WITH CHECK and PL/pgSQL's IF read a condition. *)
Definition holds (c : option bool) : bool :=
  match c with Some true => true | _ => false end.

Inductive sql_error :=
| not_null_violation
| check_violation
| unique_violation
| foreign_key_violation
| rls_violation
| cardinality_violation.

Inductive result (A : Type) :=
| Ok (a : A)
| Raise (e : sql_error).
Global Arguments Ok {A} a.
Global Arguments Raise {A} e.

Definition bind {A B} (m : result A) (k : A -> result B) : result B :=
  match m with
  | Ok a => k a
  | Raise e => Raise e
  end.

Definition require (b : bool) (e : sql_error) : result unit :=
  if b then Ok tt else Raise e.

End Sql.
Import Sql.

Global Instance result_ret : MRet result := fun _ a => Ok a.
Global Instance result_bind : MBind result := fun _ _ k m => Sql.bind m k.

Global Instance sql_error_eq_dec : EqDecision sql_error.
Proof. solve_decision. Defined.

(* ===================================================================== *)
(** ** Text: trimming and the two form patterns *)
(* ===================================================================== *)

Module Text.

(** Characters are bytes, read as Latin-1 code units. *)
Definition code (c : ascii) : N := N_of_ascii c.

(** SQL's [TRIM(s)] strips spaces only. *)
Definition is_space (c : ascii) : bool := (code c =? 32)%N.

(** JavaScript's [\s] and [String.prototype.trim] strip white space and
    line terminators: TAB, LF, VT, FF, CR, SP and NBSP in this range. *)
Definition is_js_space (c : ascii) : bool :=
  ((9 <=? code c) && (code c <=? 13) || (code c =? 32) || (code c =? 160))%N.

Definition is_digit (c : ascii) : bool :=
  ((48 <=? code c) && (code c <=? 57))%N.

Fixpoint ltrim (ws : ascii -> bool) (s : string) : string :=
  match s with
  | EmptyString => EmptyString
  | String c s' => if ws c then ltrim ws s' else s
  end.

Fixpoint rtrim (ws : ascii -> bool) (s : string) : string :=
  match s with
  | EmptyString => EmptyString
  | String c s' =>
      match rtrim ws s' with
      | EmptyString => if ws c then EmptyString else String c EmptyString
      | t => String c t
      end
  end.

Definition trim (ws : ascii -> bool) (s : string) : string :=
  rtrim ws (ltrim ws s).

Definition sql_trim : string -> string := trim is_space.
Definition js_trim : string -> string := trim is_js_space.

(** [s.replace(/[\s-]/g, '')]. *)
Fixpoint remove_chars (p : ascii -> bool) (s : string) : string :=
  match s with
  | EmptyString => EmptyString
  | String c s' => if p c then remove_chars p s' else String c (remove_chars p s')
  end.

(** A JavaScript string is falsy exactly when it is empty. *)
Definition truthy (s : string) : bool :=
  match s with EmptyString => false | _ => true end.

(** Regular expressions, matched by derivatives. *)
Inductive regex :=
| Void
| Eps
| Class (p : ascii -> bool)
| Seq (r1 r2 : regex)
| Alt (r1 r2 : regex)
| Star (r : regex).

Definition Plus (r : regex) : regex := Seq r (Star r).

Fixpoint Times (n : nat) (r : regex) : regex :=
  match n with
  | O => Eps
  | S n' => Seq r (Times n' r)
  end.

Definition Lit (c : ascii) : regex := Class (fun x => bool_decide (x = c)).

Fixpoint nullable (r : regex) : bool :=
  match r with
  | Void => false
  | Eps => true
  | Class _ => false
  | Seq r1 r2 => nullable r1 && nullable r2
  | Alt r1 r2 => nullable r1 || nullable r2
  | Star _ => true
  end.

Fixpoint deriv (c : ascii) (r : regex) : regex :=
  match r with
  | Void => Void
  | Eps => Void
  | Class p => if p c then Eps else Void
  | Seq r1 r2 =>
      if nullable r1
      then Alt (Seq (deriv c r1) r2) (deriv c r2)
      else Seq (deriv c r1) r2
  | Alt r1 r2 => Alt (deriv c r1) (deriv c r2)
  | Star r1 => Seq (deriv c r1) (Star r1)
  end.

(** [/^r$/.test(s)]. *)
Fixpoint test (r : regex) (s : string) : bool :=
  match s with
  | EmptyString => nullable r
  | String c s' => test (deriv c r) s'
  end.

(** [[^\s@]]. *)
Definition not_space_at (c : ascii) : bool :=
  negb (is_js_space c || bool_decide (c = "@"%char)).

(** [/^[^\s@]+@[^\s@]+\.[^\s@]+$/]. *)
Definition email_pattern : regex :=
  Seq (Plus (Class not_space_at))
    (Seq (Lit "@")
      (Seq (Plus (Class not_space_at))
        (Seq (Lit ".") (Plus (Class not_space_at))))).

(** [/^(09\d{9}|\+639\d{9})$/]. *)
Definition ph_phone_pattern : regex :=
  Alt (Seq (Lit "0") (Seq (Lit "9") (Times 9 (Class is_digit))))
      (Seq (Lit "+") (Seq (Lit "6") (Seq (Lit "3") (Seq (Lit "9") (Times 9 (Class is_digit)))))).

(** [/[\s-]/]. *)
Definition space_or_hyphen (c : ascii) : bool :=
  is_js_space c || bool_decide (c = "-"%char).

End Text.
Import Text.

(* ===================================================================== *)
(** ** Schema *)
(* ===================================================================== *)

Abbreviation uuid := N.
Abbreviation timestamptz := Z.
(** A JSONB document, kept as its text. *)
Abbreviation jsonb := string.

Module Schema.

(** [public.user_role], with the two values added by the role split. *)
Inductive user_role :=
| resident
| lgu_responder
| admin
| super_admin
| municipal_responder
| barangay_responder.

Inductive report_status :=
| rs_pending
| rs_acknowledged
| rs_resolved.

(** [public.barangay_status_enum] after the status migration. *)
Inductive barangay_status_enum :=
| normal
| in_need_of_resources
| in_need_of_manpower
| active_disaster.

(** [barangay_boundary_requests.status], a TEXT column with
    CHECK (status IN ('pending', 'approved', 'rejected')). *)
Inductive request_status :=
| pending
| approved
| rejected.

Record municipality := {
  mun_name : string
}.

Record barangay := {
  b_municipality_id : uuid;
  b_name : string;
  b_boundary_geojson : option jsonb;
  b_boundary_approved_at : option timestamptz
}.

(** [auth.users], the columns the schema reads or writes. *)
Record auth_user := {
  u_email : option string;
  u_email_confirmed_at : option timestamptz
}.

Record profile := {
  pr_role : user_role;
  pr_proof_of_employment_url : option string;
  pr_barangay_id : option uuid;
  pr_municipality_id : option uuid;
  pr_email : option string
}.

Record report := {
  rp_reporter_id : uuid;
  rp_barangay_id : uuid;
  rp_status : report_status
}.

Record barangay_status_update := {
  s_barangay_id : uuid;
  s_updated_by : uuid;
  s_status : barangay_status_enum;
  s_notes : option string;
  s_description : option string;
  s_photo_urls : list string;
  s_created_at : timestamptz
}.

Record barangay_assistance_offer := {
  o_helping_barangay_id : option uuid;
  o_helping_municipality_id : option uuid;
  o_recipient_barangay_id : uuid;
  o_status_update_id : option uuid;
  o_description : string;
  o_assistance_image_url : option string;
  o_expected_arrival_at : option timestamptz;
  o_delivered_at : option timestamptz;
  o_created_by : uuid
}.

Record barangay_boundary_request := {
  r_requested_by : uuid;
  r_municipality_id : uuid;
  r_barangay_id : option uuid;
  r_barangay_name : string;
  r_boundary_geojson : jsonb;
  r_contact_email : option string;
  r_contact_phone : option string;
  r_description : option string;
  r_status : request_status;
  r_reviewed_by : option uuid;
  r_reviewed_at : option timestamptz;
  r_rejection_reason : option string
}.

(** Modelled from the spec: the CREATE TABLE of
    [lgu_barangay_memberships] is not among the migrations at hand.  The
    columns are the ones the functions below read and write ([id],
    [profile_id], [barangay_id], [is_creator], [left_at],
    [leave_reason]); the spec's Affiliation Membership
    [{actorId, barangayId, isCreator, joinedAt, leftAt?}] adds [joinedAt],
    which no function reads.  No constraint beyond the columns is
    assumed, so the table is a bag of rows. *)
Record lgu_barangay_membership := {
  m_id : uuid;
  m_profile_id : uuid;
  m_barangay_id : uuid;
  m_is_creator : bool;
  m_left_at : option timestamptz;
  m_leave_reason : option string
}.

Record database := {
  municipalities : gmap uuid municipality;
  barangays : gmap uuid barangay;
  auth_users : gmap uuid auth_user;
  profiles : gmap uuid profile;
  barangay_status_updates : gmap uuid barangay_status_update;
  barangay_assistance_offers : gmap uuid barangay_assistance_offer;
  barangay_boundary_requests : gmap uuid barangay_boundary_request;
  lgu_barangay_memberships : list lgu_barangay_membership
}.

Definition set_barangays (f : gmap uuid barangay -> gmap uuid barangay) (db : database) : database :=
  {| municipalities := municipalities db;
     barangays := f (barangays db);
     auth_users := auth_users db;
     profiles := profiles db;
     barangay_status_updates := barangay_status_updates db;
     barangay_assistance_offers := barangay_assistance_offers db;
     barangay_boundary_requests := barangay_boundary_requests db;
     lgu_barangay_memberships := lgu_barangay_memberships db |}.

Definition set_auth_users (f : gmap uuid auth_user -> gmap uuid auth_user) (db : database) : database :=
  {| municipalities := municipalities db;
     barangays := barangays db;
     auth_users := f (auth_users db);
     profiles := profiles db;
     barangay_status_updates := barangay_status_updates db;
     barangay_assistance_offers := barangay_assistance_offers db;
     barangay_boundary_requests := barangay_boundary_requests db;
     lgu_barangay_memberships := lgu_barangay_memberships db |}.

Definition set_profiles (f : gmap uuid profile -> gmap uuid profile) (db : database) : database :=
  {| municipalities := municipalities db;
     barangays := barangays db;
     auth_users := auth_users db;
     profiles := f (profiles db);
     barangay_status_updates := barangay_status_updates db;
     barangay_assistance_offers := barangay_assistance_offers db;
     barangay_boundary_requests := barangay_boundary_requests db;
     lgu_barangay_memberships := lgu_barangay_memberships db |}.

Definition set_barangay_status_updates
    (f : gmap uuid barangay_status_update -> gmap uuid barangay_status_update)
    (db : database) : database :=
  {| municipalities := municipalities db;
     barangays := barangays db;
     auth_users := auth_users db;
     profiles := profiles db;
     barangay_status_updates := f (barangay_status_updates db);
     barangay_assistance_offers := barangay_assistance_offers db;
     barangay_boundary_requests := barangay_boundary_requests db;
     lgu_barangay_memberships := lgu_barangay_memberships db |}.

Definition set_barangay_assistance_offers
    (f : gmap uuid barangay_assistance_offer -> gmap uuid barangay_assistance_offer)
    (db : database) : database :=
  {| municipalities := municipalities db;
     barangays := barangays db;
     auth_users := auth_users db;
     profiles := profiles db;
     barangay_status_updates := barangay_status_updates db;
     barangay_assistance_offers := f (barangay_assistance_offers db);
     barangay_boundary_requests := barangay_boundary_requests db;
     lgu_barangay_memberships := lgu_barangay_memberships db |}.

Definition set_barangay_boundary_requests
    (f : gmap uuid barangay_boundary_request -> gmap uuid barangay_boundary_request)
    (db : database) : database :=
  {| municipalities := municipalities db;
     barangays := barangays db;
     auth_users := auth_users db;
     profiles := profiles db;
     barangay_status_updates := barangay_status_updates db;
     barangay_assistance_offers := barangay_assistance_offers db;
     barangay_boundary_requests := f (barangay_boundary_requests db);
     lgu_barangay_memberships := lgu_barangay_memberships db |}.

Definition set_lgu_barangay_memberships
    (f : list lgu_barangay_membership -> list lgu_barangay_membership)
    (db : database) : database :=
  {| municipalities := municipalities db;
     barangays := barangays db;
     auth_users := auth_users db;
     profiles := profiles db;
     barangay_status_updates := barangay_status_updates db;
     barangay_assistance_offers := barangay_assistance_offers db;
     barangay_boundary_requests := barangay_boundary_requests db;
     lgu_barangay_memberships := f (lgu_barangay_memberships db) |}.

(** What a statement sees of its surroundings: the caller ([auth.uid()],
    NULL for an anonymous session), the transaction time ([now()]) and
    the values [gen_random_uuid()] yields for the rows it inserts. *)
Record context := {
  auth_uid : option uuid;
  now : timestamptz;
  new_row_id : uuid;
  new_membership_id : uuid
}.

End Schema.
Import Schema.

Global Instance user_role_eq_dec : EqDecision user_role.
Proof. solve_decision. Defined.
Global Instance report_status_eq_dec : EqDecision report_status.
Proof. solve_decision. Defined.
Global Instance barangay_status_enum_eq_dec : EqDecision barangay_status_enum.
Proof. solve_decision. Defined.
Global Instance request_status_eq_dec : EqDecision request_status.
Proof. solve_decision. Defined.
Global Instance barangay_status_update_eq_dec : EqDecision barangay_status_update.
Proof. solve_decision. Defined.

(* ===================================================================== *)
(** ** Session helpers (SECURITY DEFINER, STABLE) *)
(* ===================================================================== *)

Module Session.

(** [SELECT ... FROM public.profiles WHERE id = auth.uid()]. *)
Definition current_profile (db : database) (c : context) : option profile :=
  uid ← auth_uid c; profiles db !! uid.

Definition current_user_role (db : database) (c : context) : option user_role :=
  pr_role <$> current_profile db c.

Definition current_user_barangay_id (db : database) (c : context) : option uuid :=
  current_profile db c ≫= pr_barangay_id.

Definition current_user_municipality_id (db : database) (c : context) : option uuid :=
  current_profile db c ≫= pr_municipality_id.

Definition lgu_roles : list user_role :=
  [lgu_responder; municipal_responder; barangay_responder].

Definition admin_roles : list user_role := [admin; super_admin].

(** COALESCE((SELECT role IN (...) FROM profiles WHERE id = auth.uid()), false). *)
Definition current_user_is_lgu_type (db : database) (c : context) : option bool :=
  Some (coalesce (sql_in (current_user_role db c) lgu_roles) false).

Definition current_user_can_access_barangay
    (db : database) (c : context) (p_barangay_id : option uuid) : option bool :=
  match current_profile db c with
  | None => Some false
  | Some p =>
      match p_barangay_id with
      | None => Some false
      | Some bid =>
          if bool_decide (pr_role p ∈ admin_roles) then Some true
          else if bool_decide (pr_role p ∈ [lgu_responder; barangay_responder])
          then sql_eq (pr_barangay_id p) (Some bid)
          else if bool_decide (pr_role p = municipal_responder)
          then Some (match barangays db !! bid with
                     | Some b => holds (sql_eq (Some (b_municipality_id b)) (pr_municipality_id p))
                     | None => false
                     end)
          else Some false
      end
  end.

End Session.
Import Session.

(* ===================================================================== *)
(** ** Row-level security *)
(* ===================================================================== *)

Module Rls.

(** The permissive policies of one table and one command are OR-ed. *)
Definition permissive (policies : list (option bool)) : bool :=
  holds (foldr sql_or (Some false) policies).

(** *** public.profiles, FOR SELECT *)

Definition profiles_select_own (c : context) (id : uuid) : option bool :=
  sql_eq (auth_uid c) (Some id).

Definition profiles_select_same_barangay_lgu
    (db : database) (c : context) (p : profile) : option bool :=
  sql_or
    (sql_and (sql_in (current_user_role db c) [lgu_responder; barangay_responder])
       (sql_or (sql_eq (pr_barangay_id p) (current_user_barangay_id db c))
          (sql_and (Some (is_null (pr_barangay_id p)))
             (sql_eq (pr_municipality_id p) (current_user_municipality_id db c)))))
    (sql_and (sql_eq (current_user_role db c) (Some municipal_responder))
       (sql_eq (pr_municipality_id p) (current_user_municipality_id db c))).

Definition profiles_select_admin (db : database) (c : context) : option bool :=
  sql_in (current_user_role db c) admin_roles.

Definition profiles_select (db : database) (c : context) (id : uuid) (p : profile) : bool :=
  permissive [profiles_select_own c id;
              profiles_select_same_barangay_lgu db c p;
              profiles_select_admin db c].

(** *** public.reports, FOR SELECT *)

Definition reports_select_own (c : context) (r : report) : option bool :=
  sql_eq (Some (rp_reporter_id r)) (auth_uid c).

Definition reports_select_barangay_lgu (db : database) (c : context) (r : report) : option bool :=
  sql_and (current_user_is_lgu_type db c)
          (current_user_can_access_barangay db c (Some (rp_barangay_id r))).

Definition reports_select_admin (db : database) (c : context) : option bool :=
  sql_in (current_user_role db c) admin_roles.

Definition reports_select_verified_any (r : report) : option bool :=
  sql_in (Some (rp_status r)) [rs_acknowledged; rs_resolved].

(** "Allow all users (including guests) to view hazard reports on the
    map": USING (true). *)
Definition reports_select_public : option bool := Some true.

(** The policies that look at who is asking. *)
Definition reports_select_scoped (db : database) (c : context) (r : report) : bool :=
  permissive [reports_select_own c r;
              reports_select_barangay_lgu db c r;
              reports_select_admin db c].

Definition reports_select (db : database) (c : context) (r : report) : bool :=
  permissive [reports_select_own c r;
              reports_select_barangay_lgu db c r;
              reports_select_admin db c;
              reports_select_verified_any r;
              reports_select_public].

(** *** public.barangay_status_updates, FOR INSERT *)

Definition barangay_status_insert_lgu
    (db : database) (c : context) (s : barangay_status_update) : option bool :=
  sql_and (sql_and (current_user_is_lgu_type db c)
                   (current_user_can_access_barangay db c (Some (s_barangay_id s))))
          (sql_eq (Some (s_updated_by s)) (auth_uid c)).

Definition barangay_status_insert_admin
    (db : database) (c : context) (s : barangay_status_update) : option bool :=
  sql_and (sql_in (current_user_role db c) admin_roles)
          (sql_eq (Some (s_updated_by s)) (auth_uid c)).

Definition barangay_status_insert
    (db : database) (c : context) (s : barangay_status_update) : bool :=
  permissive [barangay_status_insert_lgu db c s; barangay_status_insert_admin db c s].

(** *** public.barangay_assistance_offers *)

Definition assistance_insert_lgu
    (db : database) (c : context) (o : barangay_assistance_offer) : option bool :=
  sql_and (sql_eq (Some (o_created_by o)) (auth_uid c))
    (sql_or
       (sql_and
          (sql_and (sql_in (current_user_role db c) [lgu_responder; barangay_responder])
                   (sql_eq (o_helping_barangay_id o) (current_user_barangay_id db c)))
          (sql_ne (o_helping_barangay_id o) (Some (o_recipient_barangay_id o))))
       (sql_and
          (sql_and (sql_eq (current_user_role db c) (Some municipal_responder))
                   (sql_eq (o_helping_municipality_id o) (current_user_municipality_id db c)))
          (Some (is_null (o_helping_barangay_id o))))).

Definition assistance_insert_admin
    (db : database) (c : context) (o : barangay_assistance_offer) : option bool :=
  sql_and (sql_in (current_user_role db c) admin_roles)
          (sql_eq (Some (o_created_by o)) (auth_uid c)).

Definition assistance_insert
    (db : database) (c : context) (o : barangay_assistance_offer) : bool :=
  permissive [assistance_insert_lgu db c o; assistance_insert_admin db c o].

Definition assistance_update_own
    (db : database) (c : context) (o : barangay_assistance_offer) : option bool :=
  sql_or
    (sql_and (sql_in (current_user_role db c) [lgu_responder; barangay_responder])
             (sql_eq (o_helping_barangay_id o) (current_user_barangay_id db c)))
    (sql_and (sql_eq (current_user_role db c) (Some municipal_responder))
             (sql_eq (o_helping_municipality_id o) (current_user_municipality_id db c))).

Definition assistance_update
    (db : database) (c : context) (o : barangay_assistance_offer) : bool :=
  permissive [assistance_update_own db c o].

(** CONSTRAINT no_self_assistance, as replaced by the municipal
    migration.  A CHECK fails only when its expression is false. *)
Definition no_self_assistance (o : barangay_assistance_offer) : bool :=
  negb (bool_decide (
    sql_and
      (sql_or (Some (is_null (o_helping_barangay_id o)))
              (sql_ne (o_helping_barangay_id o) (Some (o_recipient_barangay_id o))))
      (sql_or (Some (is_not_null (o_helping_barangay_id o)))
              (Some (is_not_null (o_helping_municipality_id o))))
    = Some false)).

(** *** public.barangay_boundary_requests, FOR SELECT *)

Definition barangay_boundary_requests_select_own
    (c : context) (r : barangay_boundary_request) : option bool :=
  sql_eq (Some (r_requested_by r)) (auth_uid c).

Definition barangay_boundary_requests_select_admin
    (db : database) (c : context) : option bool :=
  sql_in (current_user_role db c) admin_roles.

Definition barangay_boundary_requests_select_municipal
    (db : database) (c : context) (r : barangay_boundary_request) : option bool :=
  sql_and (sql_eq (current_user_role db c) (Some municipal_responder))
          (sql_eq (Some (r_municipality_id r)) (current_user_municipality_id db c)).

Definition barangay_boundary_requests_select
    (db : database) (c : context) (r : barangay_boundary_request) : bool :=
  permissive [barangay_boundary_requests_select_own c r;
              barangay_boundary_requests_select_admin db c;
              barangay_boundary_requests_select_municipal db c r].

End Rls.
Import Rls.

(* ===================================================================== *)
(** ** PL/pgSQL functions (SECURITY DEFINER: no row-level security inside) *)
(* ===================================================================== *)

Module Rpc.

Definition not_null {A} (a : option A) : result A :=
  match a with
  | Some x => Ok x
  | None => Raise not_null_violation
  end.

(** A FOREIGN KEY into a table keyed by [id]. *)
Definition references {V} (t : gmap uuid V) (k : option uuid) : result unit :=
  match k with
  | None => Ok tt
  | Some id => require (bool_decide (is_Some (t !! id))) foreign_key_violation
  end.

(** INSERT of a row under a fresh PRIMARY KEY. *)
Definition primary_key {V} (t : gmap uuid V) (id : uuid) : result unit :=
  require (bool_decide (t !! id = None)) unique_violation.

(** [p IS NULL OR TRIM(p) = '']. *)
Definition null_or_blank (p : option string) : option bool :=
  sql_or (Some (is_null p)) (sql_eq (sql_trim <$> p) (Some "")).

Definition zero_uuid : uuid := 0%N.

(** [SELECT * FROM barangay_boundary_requests
     WHERE id = p_request_id AND status = 'pending']. *)
Definition pending_request (db : database) (p_request_id : uuid)
    : option barangay_boundary_request :=
  r ← barangay_boundary_requests db !! p_request_id;
  if bool_decide (r_status r = pending) then Some r else None.

Definition submit_barangay_boundary_request
    (c : context)
    (p_municipality_id p_barangay_id : option uuid)
    (p_barangay_name : option string)
    (p_boundary_geojson : option jsonb)
    (p_contact_email p_contact_phone p_description : option string)
    (db : database) : result (option uuid * database) :=
  if holds (sql_not_in (current_user_role db c)
              [lgu_responder; barangay_responder; municipal_responder])
  then Ok (None, db)
  else if holds (null_or_blank p_barangay_name) then Ok (None, db)
  else if is_null p_boundary_geojson then Ok (None, db)
  else if holds (null_or_blank p_contact_email) then Ok (None, db)
  else if holds (null_or_blank p_contact_phone) then Ok (None, db)
  else
    requested_by ← not_null (auth_uid c);
    municipality_id ← not_null p_municipality_id;
    barangay_name ← not_null (sql_trim <$> p_barangay_name);
    boundary_geojson ← not_null p_boundary_geojson;
    let v_id := new_row_id c in
    let row :=
      {| r_requested_by := requested_by;
         r_municipality_id := municipality_id;
         r_barangay_id := nullif p_barangay_id zero_uuid;
         r_barangay_name := barangay_name;
         r_boundary_geojson := boundary_geojson;
         r_contact_email := sql_trim <$> p_contact_email;
         r_contact_phone := sql_trim <$> p_contact_phone;
         r_description := nullif (Some (sql_trim (coalesce p_description ""))) "";
         r_status := pending;
         r_reviewed_by := None;
         r_reviewed_at := None;
         r_rejection_reason := None |} in
    primary_key (barangay_boundary_requests db) v_id;;
    references (profiles db) (Some requested_by);;
    references (municipalities db) (Some municipality_id);;
    references (barangays db) (r_barangay_id row);;
    Ok (Some v_id, set_barangay_boundary_requests (insert v_id row) db).

Definition approve_barangay_boundary_request
    (c : context) (p_request_id : uuid) (db : database) : result (bool * database) :=
  let v_can_approve : option bool :=
    if holds (sql_in (current_user_role db c) admin_roles) then Some true
    else if holds (sql_eq (current_user_role db c) (Some municipal_responder)) then
      r ← pending_request db p_request_id;
      sql_eq (Some (r_municipality_id r)) (current_user_municipality_id db c)
    else Some false in
  if holds (sql_not v_can_approve) then Ok (false, db)
  else
    match pending_request db p_request_id with
    | None => Ok (false, db)
    | Some v_req =>
        '(v_barangay_id, db1) ←
          match r_barangay_id v_req with
          | Some bid =>
              Ok (bid,
                  set_barangays
                    (alter (fun b =>
                       {| b_municipality_id := b_municipality_id b;
                          b_name := b_name b;
                          b_boundary_geojson := Some (r_boundary_geojson v_req);
                          b_boundary_approved_at := Some (now c) |}) bid) db)
          | None =>
              let bid := new_row_id c in
              primary_key (barangays db) bid;;
              references (municipalities db) (Some (r_municipality_id v_req));;
              Ok (bid,
                  set_barangays
                    (insert bid
                       {| b_municipality_id := r_municipality_id v_req;
                          b_name := r_barangay_name v_req;
                          b_boundary_geojson := Some (r_boundary_geojson v_req);
                          b_boundary_approved_at := Some (now c) |}) db)
          end;
        (* Assign requester to barangay and set municipality *)
        (if bool_decide (is_Some (profiles db1 !! r_requested_by v_req))
         then references (barangays db1) (Some v_barangay_id)
         else Ok tt);;
        let db2 :=
          set_profiles
            (alter (fun p =>
               {| pr_role := pr_role p;
                  pr_proof_of_employment_url := pr_proof_of_employment_url p;
                  pr_barangay_id := Some v_barangay_id;
                  pr_municipality_id := Some (r_municipality_id v_req);
                  pr_email := pr_email p |}) (r_requested_by v_req)) db1 in
        (* Add requester as creator in lgu_barangay_memberships *)
        let db3 :=
          set_lgu_barangay_memberships
            (fun ms => (ms ++
               [{| m_id := new_membership_id c;
                   m_profile_id := r_requested_by v_req;
                   m_barangay_id := v_barangay_id;
                   m_is_creator := true;
                   m_left_at := None;
                   m_leave_reason := None |}])%list) db2 in
        let db4 :=
          set_barangay_boundary_requests
            (alter (fun r =>
               {| r_requested_by := r_requested_by r;
                  r_municipality_id := r_municipality_id r;
                  r_barangay_id := r_barangay_id r;
                  r_barangay_name := r_barangay_name r;
                  r_boundary_geojson := r_boundary_geojson r;
                  r_contact_email := r_contact_email r;
                  r_contact_phone := r_contact_phone r;
                  r_description := r_description r;
                  r_status := approved;
                  r_reviewed_by := auth_uid c;
                  r_reviewed_at := Some (now c);
                  r_rejection_reason := r_rejection_reason r |}) p_request_id) db3 in
        Ok (true, db4)
    end.

Definition reject_barangay_boundary_request
    (c : context) (p_request_id : uuid) (p_rejection_reason : option string)
    (db : database) : result (bool * database) :=
  let v_can_reject : option bool :=
    if holds (sql_in (current_user_role db c) admin_roles) then Some true
    else if holds (sql_eq (current_user_role db c) (Some municipal_responder)) then
      r ← pending_request db p_request_id;
      sql_eq (Some (r_municipality_id r)) (current_user_municipality_id db c)
    else Some false in
  if holds (sql_not v_can_reject) then Ok (false, db)
  else
    match pending_request db p_request_id with
    | None => Ok (false, db)
    | Some v_req =>
        Ok (true,
            set_barangay_boundary_requests
              (alter (fun r =>
                 {| r_requested_by := r_requested_by r;
                    r_municipality_id := r_municipality_id r;
                    r_barangay_id := r_barangay_id r;
                    r_barangay_name := r_barangay_name r;
                    r_boundary_geojson := r_boundary_geojson r;
                    r_contact_email := r_contact_email r;
                    r_contact_phone := r_contact_phone r;
                    r_description := r_description r;
                    r_status := rejected;
                    r_reviewed_by := auth_uid c;
                    r_reviewed_at := Some (now c);
                    r_rejection_reason :=
                      nullif (Some (sql_trim (coalesce p_rejection_reason ""))) "" |})
                 p_request_id) db)
    end.

Definition open_membership_of (uid : option uuid) (m : lgu_barangay_membership) : bool :=
  holds (sql_eq (Some (m_profile_id m)) uid) && is_null (m_left_at m).

(** The number of rows of lgu_barangay_memberships
    WHERE profile_id = who AND left_at IS NULL. *)
Definition open_memberships (who : uuid) (db : database) : nat :=
  length (List.filter (open_membership_of (Some who)) (lgu_barangay_memberships db)).

Definition join_barangay
    (c : context) (p_barangay_id : uuid) (db : database) : result (bool * database) :=
  if holds (sql_not_in (current_user_role db c) lgu_roles) then Ok (false, db)
  else if existsb (open_membership_of (auth_uid c)) (lgu_barangay_memberships db)
  then Ok (false, db)
  else
    match barangays db !! p_barangay_id with
    | None => Ok (false, db)
    | Some v_barangay =>
        if negb (is_not_null (b_boundary_approved_at v_barangay)
                 && is_not_null (b_boundary_geojson v_barangay))
        then Ok (false, db)
        else
          let db1 :=
            match auth_uid c with
            | None => db
            | Some uid =>
                set_profiles
                  (alter (fun p =>
                     {| pr_role := pr_role p;
                        pr_proof_of_employment_url := pr_proof_of_employment_url p;
                        pr_barangay_id := Some p_barangay_id;
                        pr_municipality_id := Some (b_municipality_id v_barangay);
                        pr_email := pr_email p |}) uid) db
            end in
          profile_id ← not_null (auth_uid c);
          Ok (true,
              set_lgu_barangay_memberships
                (fun ms => (ms ++
                   [{| m_id := new_membership_id c;
                       m_profile_id := profile_id;
                       m_barangay_id := p_barangay_id;
                       m_is_creator := false;
                       m_left_at := None;
                       m_leave_reason := None |}])%list) db1)
    end.

Definition leave_barangay
    (c : context) (p_reason : option string) (db : database) : result (bool * database) :=
  if holds (sql_not_in (current_user_role db c) lgu_roles) then Ok (false, db)
  else
    match List.find (open_membership_of (auth_uid c)) (lgu_barangay_memberships db) with
    | None => Ok (false, db)
    | Some v_membership =>
        let db1 :=
          set_lgu_barangay_memberships
            (fmap (fun m =>
               if bool_decide (m_id m = m_id v_membership)
               then {| m_id := m_id m;
                       m_profile_id := m_profile_id m;
                       m_barangay_id := m_barangay_id m;
                       m_is_creator := m_is_creator m;
                       m_left_at := Some (now c);
                       m_leave_reason := nullif (sql_trim <$> p_reason) "" |}
               else m)) db in
        let db2 :=
          match auth_uid c with
          | None => db1
          | Some uid =>
              set_profiles
                (alter (fun p =>
                   {| pr_role := pr_role p;
                      pr_proof_of_employment_url := pr_proof_of_employment_url p;
                      pr_barangay_id := None;
                      pr_municipality_id := None;
                      pr_email := pr_email p |}) uid) db1
          end in
        Ok (true, db2)
    end.

(** *** Sign-up: the AFTER INSERT trigger on auth.users *)

(** A metadata key read as [::UUID]: absent (or, for [barangay_id],
    blank), present but not castable, or a uuid. *)
Inductive uuid_text :=
| NoText
| BadText
| UuidText (u : uuid).

(** [NEW.raw_user_meta_data], the keys the trigger reads. *)
Record raw_user_meta_data := {
  md_role : option string;
  md_municipality_id : uuid_text;
  md_barangay_id : uuid_text;
  md_proof_of_employment_url : option string
}.

(** [(text)::public.user_role]; [None] is the cast raising. *)
Definition user_role_of_text (s : string) : option user_role :=
  if String.eqb s "resident" then Some resident
  else if String.eqb s "lgu_responder" then Some lgu_responder
  else if String.eqb s "admin" then Some admin
  else if String.eqb s "super_admin" then Some super_admin
  else if String.eqb s "municipal_responder" then Some municipal_responder
  else if String.eqb s "barangay_responder" then Some barangay_responder
  else None.

Definition handle_new_user
    (c : context) (new_id : uuid) (new_email : option string)
    (meta : raw_user_meta_data) (db : database) : result database :=
  let r : user_role :=
    match md_role meta with
    | None => resident
    | Some s => default resident (user_role_of_text s)
    end in
  let '(v_municipality_id, v_barangay_id) :=
    if bool_decide (r ∈ [municipal_responder; barangay_responder]) then
      match md_municipality_id meta with
      | BadText => (None, None)
      | NoText =>
          (None, match md_barangay_id meta with UuidText b => Some b | _ => None end)
      | UuidText m =>
          (Some m, match md_barangay_id meta with UuidText b => Some b | _ => None end)
      end
    else (None, None) in
  primary_key (profiles db) new_id;;
  references (auth_users db) (Some new_id);;
  references (barangays db) v_barangay_id;;
  references (municipalities db) v_municipality_id;;
  let db1 :=
    set_profiles
      (insert new_id
         {| pr_role := r;
            pr_proof_of_employment_url :=
              nullif (sql_trim <$> md_proof_of_employment_url meta) "";
            pr_barangay_id := v_barangay_id;
            pr_municipality_id := v_municipality_id;
            pr_email := new_email |}) db in
  let db2 :=
    match v_barangay_id with
    | Some b =>
        if bool_decide (r = barangay_responder)
        then set_lgu_barangay_memberships
               (fun ms => (ms ++
                  [{| m_id := new_membership_id c;
                      m_profile_id := new_id;
                      m_barangay_id := b;
                      m_is_creator := false;
                      m_left_at := None;
                      m_leave_reason := None |}])%list) db1
        else db1
    | None => db1
    end in
  let db3 :=
    if bool_decide (r ∈ lgu_roles)
    then set_auth_users
           (alter (fun u =>
              {| u_email := u_email u;
                 u_email_confirmed_at := Some (now c) |}) new_id) db2
    else db2 in
  Ok db3.

(** What Supabase Auth does on [signUp]: a row in auth.users with the
    e-mail still unconfirmed, then the trigger above, in one
    transaction. *)
Definition auth_sign_up
    (c : context) (new_id : uuid) (email : string)
    (meta : raw_user_meta_data) (db : database) : result database :=
  primary_key (auth_users db) new_id;;
  handle_new_user c new_id (Some email) meta
    (set_auth_users
       (insert new_id {| u_email := Some email; u_email_confirmed_at := None |}) db).

(** The scalar subquery of [check_login_eligibility]: one value per
    auth.users row joined to its profile. *)
Definition eligibility_rows (check_email : option string) (db : database)
    : list bool :=
  omap (fun '(id, u) =>
          p ← profiles db !! id;
          if holds (sql_eq (u_email u) check_email)
             && holds (sql_in (Some (pr_role p)) lgu_roles)
          then Some (is_not_null (pr_proof_of_employment_url p)
                     && is_null (u_email_confirmed_at u))
          else None)
       (map_to_list (auth_users db)).

(** Returns the column [is_proof_pending] of its single row. *)
Definition check_login_eligibility (check_email : option string) (db : database)
    : result bool :=
  match eligibility_rows check_email db with
  | [] => Ok (coalesce None false)
  | [b] => Ok (coalesce (Some b) false)
  | _ => Raise cardinality_violation
  end.

End Rpc.
Import Rpc.

(* ===================================================================== *)
(** ** TypeScript services (requests through PostgREST, under RLS) *)
(* ===================================================================== *)

Module Client.

(** The [error] a service hands back: a message of its own, or the
    message of the error the database raised. *)
Inductive ts_error :=
| Message (s : string)
| PostgrestError (e : sql_error).

(** *** Barangay status service *)

Definition NEED_STATUSES : list barangay_status_enum :=
  [in_need_of_resources; in_need_of_manpower; active_disaster].

(** The legacy labels [on_alert] and [under_threat] that the source also
    accepts are not values of the migrated enum. *)
Definition isNeedStatus (status : barangay_status_enum) : bool :=
  bool_decide (status ∈ NEED_STATUSES).

(** [!description] on a [string | null]. *)
Definition falsy (s : option string) : bool :=
  match s with
  | None => true
  | Some t => negb (truthy t)
  end.

Record status_options := {
  opt_notes : option string;
  opt_description : option string;
  opt_photoUrls : option (list string)
}.

(** INSERT INTO barangay_status_updates, [id] and [created_at] by default. *)
Definition insert_barangay_status_update
    (c : context) (s : barangay_status_update) (db : database) : result database :=
  require (barangay_status_insert db c s) rls_violation;;
  primary_key (barangay_status_updates db) (new_row_id c);;
  references (barangays db) (Some (s_barangay_id s));;
  references (profiles db) (Some (s_updated_by s));;
  Ok (set_barangay_status_updates (insert (new_row_id c) s) db).

(** The [payload] object of [updateBarangayStatus]; [created_at] is the
    column default. *)
Definition status_payload
    (c : context) (barangayId : uuid) (status : barangay_status_enum) (userId : uuid)
    (options : option status_options) : barangay_status_update :=
  let description := options ≫= opt_description in
  let notes := options ≫= opt_notes in
  let photoUrls := default [] (options ≫= opt_photoUrls) in
  {| s_barangay_id := barangayId;
     s_updated_by := userId;
     s_status := status;
     s_notes := if falsy notes then None else notes;
     s_description := if isNeedStatus status then js_trim <$> description else None;
     s_photo_urls :=
       if isNeedStatus status && (0 <? length photoUrls)%nat then photoUrls else [];
     s_created_at := now c |}.

Definition updateBarangayStatus
    (c : context) (barangayId : uuid) (status : barangay_status_enum) (userId : uuid)
    (options : option status_options) (db : database) : option ts_error * database :=
  let description := options ≫= opt_description in
  (* Need statuses require a short description explaining why *)
  if isNeedStatus status
     && (falsy description || (String.length (js_trim (default "" description)) <? 5)%nat)
  then (Some (Message "Please provide a short description (at least 5 characters)."), db)
  else
    match insert_barangay_status_update c
            (status_payload c barangayId status userId options) db with
    | Ok db' => (None, db')
    | Raise e => (Some (PostgrestError e), db)
    end.

Record BarangayWithStatus := {
  bws_id : uuid;
  bws_name : string;
  bws_boundaryGeojson : option jsonb;
  bws_status : barangay_status_enum;
  bws_statusUpdatedAt : option timestamptz;
  bws_statusNotes : option string;
  bws_statusDescription : option string;
  bws_statusPhotoUrls : list string;
  bws_statusUpdateId : option uuid
}.

(** [.order('created_at', { ascending: false })]. *)
Definition created_at_desc (x y : uuid * barangay_status_update) : Prop :=
  (s_created_at x.2 >= s_created_at y.2)%Z.

Global Instance created_at_desc_dec : RelDecision created_at_desc.
Proof. intros x y. unfold created_at_desc. apply _. Defined.

(** The loop that fills [latestByBarangay]: the first row met for a
    barangay stays. *)
Definition latest_by_barangay (latestStatuses : list (uuid * barangay_status_update))
    : gmap uuid (uuid * barangay_status_update) :=
  foldl (fun latestByBarangay s =>
           if bool_decide (is_Some (latestByBarangay !! s_barangay_id s.2))
           then latestByBarangay
           else <[s_barangay_id s.2 := s]> latestByBarangay)
        ∅ latestStatuses.

Definition approved_barangays (db : database) : list (uuid * barangay) :=
  List.filter (fun b => is_not_null (b_boundary_approved_at b.2))
              (map_to_list (barangays db)).

Definition latest_statuses (db : database) : list (uuid * barangay_status_update) :=
  let barangayIds := (approved_barangays db).*1 in
  merge_sort created_at_desc
    (List.filter (fun s => bool_decide (s_barangay_id s.2 ∈ barangayIds))
                 (map_to_list (barangay_status_updates db))).

Definition fetchBarangaysWithStatus (db : database) : list BarangayWithStatus :=
  let latestByBarangay := latest_by_barangay (latest_statuses db) in
  (fun b : uuid * barangay =>
     let info := latestByBarangay !! b.1 in
     {| bws_id := b.1;
        bws_name := b_name b.2;
        bws_boundaryGeojson := b_boundary_geojson b.2;
        bws_status := default normal (s_status ∘ snd <$> info);
        bws_statusUpdatedAt := s_created_at ∘ snd <$> info;
        bws_statusNotes := info ≫= (s_notes ∘ snd);
        bws_statusDescription := info ≫= (s_description ∘ snd);
        bws_statusPhotoUrls := default [] (s_photo_urls ∘ snd <$> info);
        bws_statusUpdateId := fst <$> info |})
  <$> approved_barangays db.

(** *** Barangay assistance service *)

Record offer_options := {
  statusUpdateId : option uuid;
  expectedArrivalAt : option timestamptz;
  imageUrl : option string
}.

(** [.from('profiles').select(...).eq('id', userId).single()]. *)
Definition select_profile (c : context) (userId : uuid) (db : database) : option profile :=
  p ← profiles db !! userId;
  if profiles_select db c userId p then Some p else None.

(** INSERT INTO barangay_assistance_offers ... RETURNING id. *)
Definition insert_barangay_assistance_offer
    (c : context) (o : barangay_assistance_offer) (db : database)
    : result (uuid * database) :=
  require (assistance_insert db c o) rls_violation;;
  require (no_self_assistance o) check_violation;;
  primary_key (barangay_assistance_offers db) (new_row_id c);;
  references (barangays db) (o_helping_barangay_id o);;
  references (municipalities db) (o_helping_municipality_id o);;
  references (barangays db) (Some (o_recipient_barangay_id o));;
  references (barangay_status_updates db) (o_status_update_id o);;
  references (profiles db) (Some (o_created_by o));;
  Ok (new_row_id c, set_barangay_assistance_offers (insert (new_row_id c) o) db).

Definition createAssistanceOffer
    (c : context) (recipientBarangayId : uuid) (description : string) (userId : uuid)
    (options : option offer_options) (db : database)
    : (option uuid * option ts_error) * database :=
  if negb (truthy description) || (String.length (js_trim description) <? 3)%nat
  then ((None, Some (Message "Please describe the assistance (at least 3 characters).")), db)
  else
    let profile := select_profile c userId db in
    let isMunicipal :=
      bool_decide (pr_role <$> profile = Some municipal_responder)
      && is_not_null (profile ≫= pr_municipality_id) in
    let helpingBarangayId := profile ≫= pr_barangay_id in
    let helpingMunicipalityId := profile ≫= pr_municipality_id in
    let refused : option string :=
      if isMunicipal && is_not_null helpingMunicipalityId then None
      else
        match helpingBarangayId with
        | Some own =>
            if bool_decide (own = recipientBarangayId)
            then Some "You cannot offer assistance to your own barangay."
            else None
        | None => Some "Your barangay or municipality is not assigned. Contact admin."
        end in
    match refused with
    | Some msg => ((None, Some (Message msg)), db)
    | None =>
        let payload :=
          {| o_helping_barangay_id := if isMunicipal then None else helpingBarangayId;
             o_helping_municipality_id := if isMunicipal then helpingMunicipalityId else None;
             o_recipient_barangay_id := recipientBarangayId;
             o_status_update_id := options ≫= statusUpdateId;
             o_description := js_trim description;
             o_assistance_image_url := options ≫= imageUrl;
             o_expected_arrival_at := options ≫= expectedArrivalAt;
             o_delivered_at := None;
             o_created_by := userId |} in
        match insert_barangay_assistance_offer c payload db with
        | Raise e => ((None, Some (PostgrestError e)), db)
        | Ok (id, db') => ((Some id, None), db')
        end
    end.

(** [.update({ delivered_at: new Date().toISOString() }).eq('id', offerId)]:
    the row is touched when the UPDATE policy lets the caller see it;
    otherwise nothing happens and no error comes back. *)
Definition markAssistanceDelivered
    (c : context) (client_time : timestamptz) (offerId : uuid) (db : database)
    : option ts_error * database :=
  match barangay_assistance_offers db !! offerId with
  | Some o =>
      if assistance_update db c o
      then (None,
            set_barangay_assistance_offers
              (insert offerId
                 {| o_helping_barangay_id := o_helping_barangay_id o;
                    o_helping_municipality_id := o_helping_municipality_id o;
                    o_recipient_barangay_id := o_recipient_barangay_id o;
                    o_status_update_id := o_status_update_id o;
                    o_description := o_description o;
                    o_assistance_image_url := o_assistance_image_url o;
                    o_expected_arrival_at := o_expected_arrival_at o;
                    o_delivered_at := Some client_time;
                    o_created_by := o_created_by o |}) db)
      else (None, db)
  | None => (None, db)
  end.

(** *** Barangay boundary service *)

Record submit_outcome := {
  success : bool;
  requestId : option uuid;
  error : option ts_error
}.

Definition submitBoundaryRequest
    (c : context) (municipalityId : uuid) (barangayId : option uuid)
    (barangayName : string) (boundaryGeojson : option jsonb)
    (contactEmail contactPhone : string) (description : option string)
    (db : database) : submit_outcome * database :=
  match submit_barangay_boundary_request c
          (Some municipalityId)
          (Some (default zero_uuid barangayId))
          (Some (js_trim barangayName))
          boundaryGeojson
          (Some (js_trim contactEmail))
          (Some (js_trim contactPhone))
          (js_trim <$> description) db with
  | Raise e =>
      ({| success := false; requestId := None; error := Some (PostgrestError e) |}, db)
  | Ok (None, db') =>
      ({| success := false; requestId := None;
          error := Some (Message "Submission failed. Contact email and phone are required.") |},
       db')
  | Ok (Some id, db') =>
      ({| success := true; requestId := Some id; error := None |}, db')
  end.

Definition approveBoundaryRequest (c : context) (requestId : uuid) (db : database)
    : bool * database :=
  match approve_barangay_boundary_request c requestId db with
  | Raise _ => (false, db)
  | Ok (data, db') => (data, db')
  end.

Definition rejectBoundaryRequest
    (c : context) (requestId : uuid) (rejectionReason : option string) (db : database)
    : bool * database :=
  match reject_barangay_boundary_request c requestId
          (Some (default "" rejectionReason)) db with
  | Raise _ => (false, db)
  | Ok (data, db') => (data, db')
  end.

End Client.
Import Client.

(* ===================================================================== *)
(** ** The map dashboard: what the forms let through *)
(* ===================================================================== *)

Module MapDashboard.

(** [startDrawBoundary], the branch for a responder without a barangay:
    the [locationError] it sets, or [None] when drawing starts. *)
Definition startDrawBoundary
    (selectedMunicipalityId : option uuid)
    (newBarangayName boundaryContactEmail boundaryContactPhone : string)
    : option string :=
  if is_null selectedMunicipalityId then Some "Select a municipality first."
  else if negb (truthy (js_trim newBarangayName)) then Some "Enter the new barangay name."
  else if negb (truthy (js_trim boundaryContactEmail))
  then Some "Contact email is required before submitting."
  else if negb (test email_pattern (js_trim boundaryContactEmail))
  then Some "Enter a valid email address."
  else if negb (truthy (js_trim boundaryContactPhone))
  then Some "Contact number is required before submitting."
  else if negb (test ph_phone_pattern (remove_chars space_or_hyphen boundaryContactPhone))
  then Some "Enter a valid PH number (09XXXXXXXXX or +63 9XXXXXXXXX)."
  else None.

(** [canAssist] of the barangay popup: when "Provide Assistance" is drawn. *)
Definition canAssist
    (mode_is_lgu : bool) (lguUserId : option uuid) (lguBarangayInfo_id : option uuid)
    (b : BarangayWithStatus) : bool :=
  mode_is_lgu
  && is_not_null lguUserId
  && (is_null lguBarangayInfo_id || negb (bool_decide (lguBarangayInfo_id = Some (bws_id b))))
  && isNeedStatus (bws_status b).

(** The assistance log draws "Mark delivered" for an offer that has no
    [deliveredAt] yet and comes from the viewer's barangay or
    municipality ([undefined === null] is false: a viewer without a
    barangay does not match an offer without a helping barangay). *)
Definition showsMarkDelivered
    (lguBarangayInfo_id lguMunicipalityId : option uuid)
    (o : barangay_assistance_offer) : bool :=
  is_null (o_delivered_at o)
  && (match lguBarangayInfo_id, o_helping_barangay_id o with
      | Some own, Some helping => bool_decide (own = helping)
      | _, _ => false
      end
      || (is_not_null lguMunicipalityId
          && bool_decide (o_helping_municipality_id o = lguMunicipalityId))).

End MapDashboard.
Import MapDashboard.

(* ===================================================================== *)
(** ** Administrator invites *)
(* ===================================================================== *)

Module AdminInvites.

(** [public.admin_invites]; [code] is UNIQUE, [used_by] references
    [profiles(id)]. *)
Record admin_invite := {
  i_code : string;
  i_created_by : uuid;
  i_expires_at : timestamptz;
  i_used_at : option timestamptz;
  i_used_by : option uuid
}.

(** The invites table, beside the tables of [database]. *)
Definition invites_state : Type := gmap uuid admin_invite * database.

(** [code = invite_code AND used_at IS NULL AND expires_at > now()]. *)
Definition claimable (c : context) (invite_code : option string) (i : admin_invite) : bool :=
  holds (sql_and (sql_and (sql_eq (Some (i_code i)) invite_code)
                          (Some (is_null (i_used_at i))))
                 (Some (bool_decide (i_expires_at i > now c)%Z))).

Definition claim_admin_invite
    (c : context) (invite_code : option string) (st : invites_state)
    : result (bool * invites_state) :=
  match List.find (fun kv => claimable c invite_code kv.2) (map_to_list st.1) with
  | None => Ok (false, st)
  | Some (id, inv) =>
      references (profiles st.2) (auth_uid c);;
      Ok (true,
          (<[id := {| i_code := i_code inv;
                      i_created_by := i_created_by inv;
                      i_expires_at := i_expires_at inv;
                      i_used_at := Some (now c);
                      i_used_by := auth_uid c |}]> st.1,
           match auth_uid c with
           | None => st.2
           | Some uid =>
               set_profiles
                 (alter (fun p =>
                    {| pr_role := admin;
                       pr_proof_of_employment_url := pr_proof_of_employment_url p;
                       pr_barangay_id := pr_barangay_id p;
                       pr_municipality_id := pr_municipality_id p;
                       pr_email := pr_email p |}) uid) st.2
           end))
  end.

End AdminInvites.
Import AdminInvites.

(* ===================================================================== *)
(** ** Editing a boundary, joining and leaving a barangay *)
(* ===================================================================== *)

Module Affiliation.

(** [a IS DISTINCT FROM b]. *)
Definition is_distinct_from {A} `{EqDecision A} (a b : option A) : bool :=
  negb (bool_decide (a = b)).

Definition save_barangay_boundary
    (c : context) (p_barangay_id : option uuid) (p_boundary_geojson : option jsonb)
    (db : database) : result (bool * database) :=
  if holds (sql_not_in (current_user_role db c) [lgu_responder; barangay_responder])
  then Ok (false, db)
  else if is_distinct_from (current_user_barangay_id db c) p_barangay_id then Ok (false, db)
  else
    match p_barangay_id ≫= (fun bid => (bid,.) <$> barangays db !! bid) with
    | None => Ok (false, db)
    | Some (bid, b) =>
        Ok (true,
            set_barangays
              (insert bid
                 {| b_municipality_id := b_municipality_id b;
                    b_name := b_name b;
                    b_boundary_geojson := p_boundary_geojson;
                    b_boundary_approved_at := b_boundary_approved_at b |}) db)
    end.

(** What the three wrappers hand back: [success] and [error]. *)
Definition rpc_outcome (denied : string) (r : result (bool * database)) (db : database)
    : (bool * option ts_error) * database :=
  match r with
  | Raise e => ((false, Some (PostgrestError e)), db)
  | Ok (true, db') => ((true, None), db')
  | Ok (false, db') => ((false, Some (Message denied)), db')
  end.

Definition saveBarangayBoundary
    (c : context) (barangayId : uuid) (geojson : jsonb) (db : database)
    : (bool * option ts_error) * database :=
  rpc_outcome
    "Only the barangay creator can request boundary updates. Admin approval required."
    (save_barangay_boundary c (Some barangayId) (Some geojson) db) db.

Definition joinBarangay (c : context) (barangayId : uuid) (db : database)
    : (bool * option ts_error) * database :=
  rpc_outcome "Could not join. You may already be in a barangay or it is not available."
    (join_barangay c barangayId db) db.

Definition leaveBarangay (c : context) (reason : option string) (db : database)
    : (bool * option ts_error) * database :=
  rpc_outcome "Could not leave. You may not be in a barangay."
    (leave_barangay c (Some (default "" reason)) db) db.

Record JoinableBarangay := {
  jb_id : uuid;
  jb_name : string;
  jb_municipalityName : string
}.

(** [.not('boundary_approved_at', 'is', null).not('boundary_geojson', 'is', null)];
    [barangays] and [municipalities] are readable by everyone
    (USING (true)). *)
Definition joinable (b : barangay) : bool :=
  is_not_null (b_boundary_approved_at b) && is_not_null (b_boundary_geojson b).

(** [.order('name')] sorts by the collation of the column, [name_le]. *)
Definition by_name (name_le : relation string) (x y : uuid * barangay) : Prop :=
  name_le (b_name x.2) (b_name y.2).

Global Instance by_name_dec (name_le : relation string) `{!RelDecision name_le} :
  RelDecision (by_name name_le).
Proof. intros x y. unfold by_name. apply _. Defined.

Definition fetchJoinableBarangays
    (name_le : relation string) `{!RelDecision name_le} (db : database)
    : list JoinableBarangay :=
  (fun b : uuid * barangay =>
     {| jb_id := b.1;
        jb_name := b_name b.2;
        jb_municipalityName :=
          default "" (mun_name <$> municipalities db !! b_municipality_id b.2) |})
  <$> merge_sort (by_name name_le)
        (List.filter (fun b => joinable b.2) (map_to_list (barangays db))).

End Affiliation.
Import Affiliation.

(* ===================================================================== *)
(** ** Writing hazard reports *)
(* ===================================================================== *)

Module HazardReports.

(** *** public.reports, FOR INSERT *)

Definition reports_insert_resident (db : database) (c : context) (r : report) : option bool :=
  sql_and (sql_eq (current_user_role db c) (Some resident))
          (sql_eq (Some (rp_reporter_id r)) (auth_uid c)).

Definition reports_insert_lgu (db : database) (c : context) (r : report) : option bool :=
  sql_and
    (sql_and
       (sql_and (sql_in (current_user_role db c) [lgu_responder; barangay_responder])
                (Some (is_not_null (current_user_barangay_id db c))))
       (sql_eq (Some (rp_reporter_id r)) (auth_uid c)))
    (sql_eq (Some (rp_barangay_id r)) (current_user_barangay_id db c)).

Definition reports_insert (db : database) (c : context) (r : report) : bool :=
  permissive [reports_insert_resident db c r; reports_insert_lgu db c r].

(** *** public.reports, FOR UPDATE *)

Definition reports_update_lgu_barangay (db : database) (c : context) (r : report) : option bool :=
  sql_and (current_user_is_lgu_type db c)
          (current_user_can_access_barangay db c (Some (rp_barangay_id r))).

Definition reports_update_admin (db : database) (c : context) : option bool :=
  sql_in (current_user_role db c) admin_roles.

Definition reports_update (db : database) (c : context) (r : report) : bool :=
  permissive [reports_update_lgu_barangay db c r; reports_update_admin db c].

End HazardReports.
Import HazardReports.

(* ===================================================================== *)
(** ** Where a signed-in responder lands *)
(* ===================================================================== *)

Module AuthRedirect.

(** [LGU_DASHBOARD_PATHS[role] ?? '/'], on the values of [user_role]. *)
Definition getLguDashboardPath (role : user_role) : string :=
  match role with
  | municipal_responder => "/lgu-responder/municipal/dashboard"
  | barangay_responder => "/lgu-responder/barangay/dashboard"
  | lgu_responder => "/lgu-responder/barangay/dashboard"
  | _ => "/"
  end.

(** What a page does once mounted: go elsewhere, or render. *)
Inductive navigation :=
| Goto (path : string)
| Render.

(** [.from('profiles').select('role').eq('id', session.user.id).single()]. *)
Definition session_role (db : database) (c : context) : option user_role :=
  uid ← auth_uid c; pr_role <$> select_profile c uid db.

(** The page at [/lgu-responder]. *)
Definition lgu_responder_entry (db : database) (c : context) : navigation :=
  match auth_uid c with
  | None => Goto "/login"
  | Some _ =>
      match session_role db c with
      | Some role =>
          if bool_decide (role ∈ [lgu_responder; municipal_responder; barangay_responder])
          then Goto (getLguDashboardPath role)
          else Goto "/login"
      | None => Goto "/login"
      end
  end.

(** The layout around [/lgu-responder/barangay]. *)
Definition barangay_layout (db : database) (c : context) : navigation :=
  match auth_uid c with
  | None => Goto "/login"
  | Some _ =>
      match session_role db c with
      | Some role =>
          if bool_decide (role ∈ [barangay_responder; lgu_responder])
          then Render
          else Goto "/login"
      | None => Goto "/login"
      end
  end.

End AuthRedirect.
Import AuthRedirect.

(* ===================================================================== *)
(** ** A small town to run the code on *)
(* ===================================================================== *)

Module Fixtures.

Local Open Scope N_scope.

Definition fx_profile (r : user_role) (b m : option uuid) : profile :=
  {| pr_role := r;
     pr_proof_of_employment_url := None;
     pr_barangay_id := b;
     pr_municipality_id := m;
     pr_email := None |}.

Definition fx_user : auth_user :=
  {| u_email := None; u_email_confirmed_at := Some 1%Z |}.

Definition fx_barangay (m : uuid) (name : string) : barangay :=
  {| b_municipality_id := m;
     b_name := name;
     b_boundary_geojson := Some "polygon"%string;
     b_boundary_approved_at := Some 5%Z |}.

(** Actors: 100 admin, 101 responder of barangay 10, 102 municipal
    responder of municipality 1, 103 and 105 residents, 104 a responder
    without a barangay yet. *)
Definition fx_admin : uuid := 100.
Definition fx_responder : uuid := 101.
Definition fx_municipal : uuid := 102.
Definition fx_resident : uuid := 103.
Definition fx_newcomer : uuid := 104.
Definition fx_reporter : uuid := 105.

Definition fx_db : database :=
  {| municipalities :=
       list_to_map [(1, {| mun_name := "Minglanilla" |});
                    (2, {| mun_name := "Talisay" |})];
     barangays :=
       list_to_map [(10, fx_barangay 1 "Poblacion");
                    (11, fx_barangay 1 "Tungkop");
                    (20, fx_barangay 2 "Lagtang")];
     auth_users :=
       list_to_map [(100, fx_user); (101, fx_user); (102, fx_user);
                    (103, fx_user); (104, fx_user); (105, fx_user)];
     profiles :=
       list_to_map [(100, fx_profile admin None None);
                    (101, fx_profile barangay_responder (Some 10) (Some 1));
                    (102, fx_profile municipal_responder None (Some 1));
                    (103, fx_profile resident None None);
                    (104, fx_profile barangay_responder None None);
                    (105, fx_profile resident None None)];
     barangay_status_updates :=
       list_to_map [(700, {| s_barangay_id := 11;
                             s_updated_by := 100;
                             s_status := normal;
                             s_notes := None;
                             s_description := None;
                             s_photo_urls := [];
                             s_created_at := 20%Z |})];
     barangay_assistance_offers :=
       list_to_map [(900, {| o_helping_barangay_id := Some 10;
                             o_helping_municipality_id := None;
                             o_recipient_barangay_id := 11;
                             o_status_update_id := None;
                             o_description := "Two rescue boats";
                             o_assistance_image_url := None;
                             o_expected_arrival_at := None;
                             o_delivered_at := Some 100%Z;
                             o_created_by := 101 |})];
     barangay_boundary_requests :=
       list_to_map [(600, {| r_requested_by := 104;
                             r_municipality_id := 2;
                             r_barangay_id := None;
                             r_barangay_name := "San Roque";
                             r_boundary_geojson := "polygon"%string;
                             r_contact_email := Some "kap@sanroque.ph";
                             r_contact_phone := Some "09171234567";
                             r_description := None;
                             r_status := pending;
                             r_reviewed_by := None;
                             r_reviewed_at := None;
                             r_rejection_reason := None |})];
     lgu_barangay_memberships :=
       [{| m_id := 300;
           m_profile_id := 101;
           m_barangay_id := 10;
           m_is_creator := true;
           m_left_at := None;
           m_leave_reason := None |}] |}.

(** A session of [who] at time [t]; [i] and [j] are the next two
    generated identifiers. *)
Definition fx_ctx (who : uuid) (t : timestamptz) (i j : uuid) : context :=
  {| auth_uid := Some who; now := t; new_row_id := i; new_membership_id := j |}.

Definition fx_pending_report : report :=
  {| rp_reporter_id := 105; rp_barangay_id := 10; rp_status := rs_pending |}.

Definition fx_signup_meta : raw_user_meta_data :=
  {| md_role := Some "municipal_responder";
     md_municipality_id := UuidText 1;
     md_barangay_id := NoText;
     md_proof_of_employment_url := Some "https://storage/proof-of-employment/id.png" |}.

(** States along the runs used below. *)
Definition after {A} (r : result (A * database)) : database :=
  match r with
  | Ok (_, db) => db
  | Raise _ => fx_db
  end.

Definition fx_db_approved : database :=
  after (approve_barangay_boundary_request (fx_ctx fx_admin 60 1000 1001) 600 fx_db).

Definition fx_db_municipal_joined : database :=
  after (join_barangay (fx_ctx fx_municipal 30 0 301) 10 fx_db).

Definition fx_db_municipal_left : database :=
  after (leave_barangay (fx_ctx fx_municipal 31 0 0) None fx_db_municipal_joined).

Definition fx_db_newcomer_joined : database :=
  after (join_barangay (fx_ctx fx_newcomer 40 0 302) 10 fx_db).

Definition fx_db_newcomer_approved : database :=
  after (approve_barangay_boundary_request (fx_ctx fx_admin 41 1000 303) 600
           fx_db_newcomer_joined).

(** A responder signs up with a proof of employment, as the sign-up page
    does it. *)
Definition fx_signup_ctx : context :=
  {| auth_uid := None; now := 70%Z; new_row_id := 0; new_membership_id := 304 |}.

Definition fx_signup_email : string := "lgu@minglanilla.gov.ph".

Definition fx_db_signed_up : database :=
  match auth_sign_up fx_signup_ctx 200 fx_signup_email fx_signup_meta fx_db with
  | Ok db => db
  | Raise _ => fx_db
  end.

(** The status log with row 700 saying "active disaster" instead. *)
Definition fx_statuses_in_need : gmap uuid barangay_status_update :=
  list_to_map [(700%N, {| s_barangay_id := 11%N;
                        s_updated_by := 100%N;
                        s_status := active_disaster;
                        s_notes := None;
                        s_description := Some "River overflowed";
                        s_photo_urls := [];
                        s_created_at := 20%Z |})].

(** Status updates of barangay 10 by its responder. *)
Definition fx_status_options (description : string) : option status_options :=
  Some {| opt_notes := None; opt_description := Some description; opt_photoUrls := None |}.

Definition fx_db_flooded : database :=
  (updateBarangayStatus (fx_ctx fx_responder 90 800 0) 10 active_disaster fx_responder
     (fx_status_options "Severe flooding on Main St") fx_db).2.

(** Names compared byte by byte, as under the C collation. *)
Definition fx_name_le (a b : string) : Prop := String.leb a b = true.

Global Instance fx_name_le_dec : RelDecision fx_name_le.
Proof. intros a b. unfold fx_name_le. apply _. Defined.

(** Two invites issued by the admin: 400 is valid until time 500, 401
    ran out at time 10. *)
Definition fx_invites : gmap uuid admin_invite :=
  list_to_map [(400, {| i_code := "DRRMO-2025"; i_created_by := 100;
                        i_expires_at := 500%Z; i_used_at := None; i_used_by := None |});
               (401, {| i_code := "DRRMO-2024"; i_created_by := 100;
                        i_expires_at := 10%Z; i_used_at := None; i_used_by := None |})].

Definition fx_invites_claimed : invites_state :=
  match claim_admin_invite (fx_ctx fx_resident 50 0 0) (Some "DRRMO-2025"%string)
          (fx_invites, fx_db) with
  | Ok (_, st) => st
  | Raise _ => (fx_invites, fx_db)
  end.

End Fixtures.
Import Fixtures.
(* ===================================================================== *)
(** ** Three-valued logic, as the policies use it *)
(* ===================================================================== *)

Section SqlFacts.

Lemma holds_sql_or (a b : option bool) :
  holds (sql_or a b) = holds a || holds b.
Proof. by destruct a as [[]|], b as [[]|]. Qed.

Lemma holds_sql_and (a b : option bool) :
  holds (sql_and a b) = holds a && holds b.
Proof. by destruct a as [[]|], b as [[]|]. Qed.

Lemma holds_sql_eq {A} `{EqDecision A} (a b : option A) :
  holds (sql_eq a b) = true ↔ ∃ x, a = Some x ∧ b = Some x.
Proof.
  destruct a as [x|], b as [y|]; simpl; try (split; [done | intros (? & ? & ?); done]).
  case_bool_decide as Hxy; split; try done.
  - intros _. subst. by exists y.
  - intros (z & Hx & Hy). congruence.
Qed.

Lemma holds_sql_in {A} `{EqDecision A} (a : option A) (l : list A) :
  holds (sql_in a l) = true ↔ ∃ x, a = Some x ∧ x ∈ l.
Proof.
  destruct a as [x|]; simpl.
  - case_bool_decide as Hx; split; try done.
    + intros _. by exists x.
    + by intros (? & [= <-] & ?).
  - split; [done | by intros (? & ? & ?)].
Qed.

Lemma holds_Some (b : bool) : holds (Some b) = b.
Proof. by destruct b. Qed.

Lemma permissive_cons (p : option bool) (ps : list (option bool)) :
  permissive (p :: ps) = holds p || permissive ps.
Proof. unfold permissive. simpl. apply holds_sql_or. Qed.

Lemma permissive_nil : permissive [] = false.
Proof. done. Qed.

End SqlFacts.

(** Membership of a role in a literal list, by cases. *)
Ltac role_cases :=
  unfold lgu_roles, admin_roles in *;
  repeat match goal with
         | H : _ ∈ [] |- _ => by apply elem_of_nil in H
         | H : _ ∈ _ :: _ |- _ => apply elem_of_cons in H as [H|H]
         end;
  try congruence;
  try solve [repeat first [apply list_elem_of_here | apply list_elem_of_further]].

(* ===================================================================== *)
(** ** Hazard reports: who can read *)
(* ===================================================================== *)

Section Reports.

Lemma current_user_is_lgu_type_spec (db : database) (c : context) :
  holds (current_user_is_lgu_type db c) = true ↔
  ∃ p, current_profile db c = Some p ∧ pr_role p ∈ lgu_roles.
Proof.
  unfold current_user_is_lgu_type, current_user_role.
  destruct (current_profile db c) as [p|]; simpl.
  - case_bool_decide; split; try done.
    + intros _. eauto.
    + by intros (? & [= <-] & ?).
  - split; [done | by intros (? & ? & ?)].
Qed.

Lemma current_user_can_access_barangay_spec (db : database) (c : context) (bid : uuid) :
  holds (current_user_can_access_barangay db c (Some bid)) = true ↔
  ∃ p, current_profile db c = Some p ∧
       (pr_role p ∈ admin_roles
        ∨ (pr_role p ∈ [lgu_responder; barangay_responder] ∧ pr_barangay_id p = Some bid)
        ∨ (pr_role p = municipal_responder
           ∧ ∃ b, barangays db !! bid = Some b
                  ∧ pr_municipality_id p = Some (b_municipality_id b))).
Proof.
  unfold current_user_can_access_barangay.
  destruct (current_profile db c) as [p|].
  2:{ split; [done | by intros (? & ? & ?)]. }
  repeat case_bool_decide.
  - split; [eauto | done].
  - rewrite holds_sql_eq. split.
    + intros (x & Hx & [= ->]). eauto 10.
    + intros (? & [= <-] & [?|[[_ Hb]|[Hm _]]]); [done|eauto|].
      rewrite Hm in *. role_cases.
  - rewrite holds_Some. split.
    + destruct (barangays db !! bid) as [b|] eqn:Hb; [|done].
      intros (x & [= <-] & Hm)%holds_sql_eq. eauto 10.
    + intros (? & [= <-] & [?|[[? _]|[_ (b & -> & Hm)]]]); [done|done|].
      apply holds_sql_eq. eauto.
  - split; [done|]. intros (? & [= <-] & [?|[[? _]|[? _]]]); done.
Qed.

(** The LGU policy, read off the profile of the caller. *)
Lemma reports_select_barangay_lgu_spec (db : database) (c : context) (r : report) :
  holds (reports_select_barangay_lgu db c r) = true ↔
  ∃ p, current_profile db c = Some p ∧
       ((pr_role p ∈ [lgu_responder; barangay_responder]
         ∧ pr_barangay_id p = Some (rp_barangay_id r))
        ∨ (pr_role p = municipal_responder
           ∧ ∃ b, barangays db !! rp_barangay_id r = Some b
                  ∧ pr_municipality_id p = Some (b_municipality_id b))).
Proof.
  unfold reports_select_barangay_lgu.
  rewrite holds_sql_and, andb_true_iff,
    current_user_is_lgu_type_spec, current_user_can_access_barangay_spec.
  split.
  - intros [(p & Hp & Hl) (p' & Hp' & H)]. simplify_eq.
    exists p. split; [done|]. destruct H as [H|[H|H]]; [|by left|by right].
    role_cases.
  - intros (p & Hp & H). split; exists p; (split; [done|]).
    + destruct H as [[H _]|[Hm _]]; [|rewrite Hm]; role_cases; try rewrite H; role_cases.
    + tauto.
Qed.

(** C1 (as amended): a hazard report is readable by every caller in every
    status, pending included, because [reports_select_public] is OR-ed
    with the other policies; an acknowledged or resolved report is also
    granted by [reports_select_verified_any] whoever asks; and the
    policies that look at the caller grant a report exactly to its
    reporter, to admins, and to responders whose barangay or municipality
    covers the report's barangay. *)
Theorem reports_select_every_status (db : database) (c : context) (r : report) :
  reports_select db c r = true
  ∧ (rp_status r ∈ [rs_acknowledged; rs_resolved] →
       holds (reports_select_verified_any r) = true)
  ∧ (reports_select_scoped db c r = true ↔
       auth_uid c = Some (rp_reporter_id r)
       ∨ (∃ role, current_user_role db c = Some role ∧ role ∈ admin_roles)
       ∨ (∃ p, current_profile db c = Some p ∧
            ((pr_role p ∈ [lgu_responder; barangay_responder]
              ∧ pr_barangay_id p = Some (rp_barangay_id r))
             ∨ (pr_role p = municipal_responder
                ∧ ∃ b, barangays db !! rp_barangay_id r = Some b
                       ∧ pr_municipality_id p = Some (b_municipality_id b))))).
Proof.
  split; [|split].
  - unfold reports_select. rewrite !permissive_cons. unfold reports_select_public.
    simpl. by rewrite !orb_true_r.
  - intros H. unfold reports_select_verified_any. apply holds_sql_in. eauto.
  - unfold reports_select_scoped. rewrite !permissive_cons, permissive_nil, orb_false_r.
    rewrite !orb_true_iff.
    rewrite <- reports_select_barangay_lgu_spec.
    unfold reports_select_own, reports_select_admin.
    rewrite holds_sql_eq, holds_sql_in.
    split.
    + intros [(x & [= <-] & Hx)|[H|H]]; eauto.
    + intros [H|[H|H]]; eauto.
Qed.

(** C1 (as stated) fails: resident 103 is neither the reporter of the
    pending report nor a responder nor an admin, no caller-based policy
    admits the read, and the read is granted all the same. *)
Lemma pending_report_visible_to_unscoped_resident :
  rp_status fx_pending_report = rs_pending
  ∧ current_user_role fx_db (fx_ctx fx_resident 50 1 2) = Some resident
  ∧ fx_resident ≠ rp_reporter_id fx_pending_report
  ∧ reports_select_scoped fx_db (fx_ctx fx_resident 50 1 2) fx_pending_report = false
  ∧ reports_select fx_db (fx_ctx fx_resident 50 1 2) fx_pending_report = true.
Proof. by vm_compute. Qed.

End Reports.

(* ===================================================================== *)
(** ** Boundary requests: approve and reject *)
(* ===================================================================== *)

Section BoundaryReview.

Lemma pending_request_Some (db : database) (id : uuid) (r : barangay_boundary_request) :
  pending_request db id = Some r ↔
  barangay_boundary_requests db !! id = Some r ∧ r_status r = pending.
Proof.
  unfold pending_request.
  destruct (barangay_boundary_requests db !! id) as [r'|]; simpl.
  - case_bool_decide; split; try done.
    + by intros [= ->].
    + by intros [[= ->] _].
    + by intros [[= ->] ?].
  - split; [done | by intros [? _]].
Qed.

Lemma pending_request_None (db : database) (id : uuid) :
  pending_request db id = None ↔
  ∀ r, barangay_boundary_requests db !! id = Some r → r_status r ≠ pending.
Proof.
  split.
  - intros Hnone r Hr Hs.
    assert (pending_request db id = Some r) as Hp by by apply pending_request_Some.
    congruence.
  - intros H. destruct (pending_request db id) as [r|] eqn:Hp; [|done].
    apply pending_request_Some in Hp as [Hr Hs]. by destruct (H r Hr).
Qed.

(** Without a pending row under [id] both functions return FALSE and
    touch nothing, whoever calls. *)
Lemma approve_without_pending (c : context) (id : uuid) (db : database) :
  pending_request db id = None →
  approve_barangay_boundary_request c id db = Ok (false, db).
Proof.
  intros Hp. unfold approve_barangay_boundary_request. rewrite Hp. simpl.
  by repeat case_match.
Qed.

Lemma reject_without_pending
    (c : context) (id : uuid) (reason : option string) (db : database) :
  pending_request db id = None →
  reject_barangay_boundary_request c id reason db = Ok (false, db).
Proof.
  intros Hp. unfold reject_barangay_boundary_request. rewrite Hp. simpl.
  by repeat case_match.
Qed.

(** What a successful approval did. *)
Lemma approve_effects (c : context) (id : uuid) (db db' : database) :
  approve_barangay_boundary_request c id db = Ok (true, db') →
  ∃ r bid,
    pending_request db id = Some r
    ∧ bid = default (new_row_id c) (r_barangay_id r)
    ∧ (r_barangay_id r = None → barangays db !! bid = None)
    ∧ barangays db' =
        match r_barangay_id r with
        | Some _ =>
            alter (fun b =>
              {| b_municipality_id := b_municipality_id b;
                 b_name := b_name b;
                 b_boundary_geojson := Some (r_boundary_geojson r);
                 b_boundary_approved_at := Some (now c) |}) bid (barangays db)
        | None =>
            <[bid := {| b_municipality_id := r_municipality_id r;
                        b_name := r_barangay_name r;
                        b_boundary_geojson := Some (r_boundary_geojson r);
                        b_boundary_approved_at := Some (now c) |}]> (barangays db)
        end
    ∧ profiles db' =
        alter (fun p =>
          {| pr_role := pr_role p;
             pr_proof_of_employment_url := pr_proof_of_employment_url p;
             pr_barangay_id := Some bid;
             pr_municipality_id := Some (r_municipality_id r);
             pr_email := pr_email p |}) (r_requested_by r) (profiles db)
    ∧ lgu_barangay_memberships db' =
        (lgu_barangay_memberships db ++
           [{| m_id := new_membership_id c;
               m_profile_id := r_requested_by r;
               m_barangay_id := bid;
               m_is_creator := true;
               m_left_at := None;
               m_leave_reason := None |}])%list
    ∧ ∃ r', barangay_boundary_requests db' = <[id := r']> (barangay_boundary_requests db)
            ∧ r_status r' = approved
            ∧ r_reviewed_by r' = auth_uid c
            ∧ r_reviewed_at r' = Some (now c).
Proof.
  unfold approve_barangay_boundary_request.
  set (v := if holds (sql_in (current_user_role db c) admin_roles) then _ else _).
  destruct (holds (sql_not v)); [done|].
  destruct (pending_request db id) as [r|] eqn:Hp; [|done].
  pose proof Hp as [Hr Hs]%pending_request_Some.
  assert (∀ f, <[id := f r]> (barangay_boundary_requests db)
               = alter f id (barangay_boundary_requests db)) as Halter.
  { intros f. apply map_eq. intros k. rewrite lookup_alter, lookup_insert.
    case_decide; simplify_eq; [by rewrite Hr | done]. }
  destruct (r_barangay_id r) as [bid|] eqn:Hb; simpl.
  - destruct (bool_decide (is_Some (profiles db !! r_requested_by r))); simpl.
    + match goal with |- context [require ?b _] => destruct b; simpl; [|done] end.
      intros [= <-]. exists r, bid. simpl. rewrite Hb. repeat split; try done.
      eexists. split; [symmetry; apply Halter | done].
    + intros [= <-]. exists r, bid. simpl. rewrite Hb. repeat split; try done.
      eexists. split; [symmetry; apply Halter | done].
  - unfold primary_key.
    match goal with |- context [require (bool_decide ?P) _] =>
      destruct (decide P) as [Hfresh|Hfresh];
      [rewrite (bool_decide_true P Hfresh) | rewrite (bool_decide_false P Hfresh)];
      simpl; [|done] end.
    match goal with |- context [require ?b _] => destruct b; simpl; [|done] end.
    destruct (bool_decide (is_Some (profiles db !! r_requested_by r))); simpl.
    + match goal with |- context [require ?b _] => destruct b; simpl; [|done] end.
      intros [= <-]. exists r, (new_row_id c). simpl. rewrite Hb. repeat split; try done.
      eexists. split; [symmetry; apply Halter | done].
    + intros [= <-]. exists r, (new_row_id c). simpl. rewrite Hb. repeat split; try done.
      eexists. split; [symmetry; apply Halter | done].
Qed.

(** The database a successful approval leaves, table by table. *)
Lemma approve_exact (c : context) (id : uuid) (db db' : database) :
  approve_barangay_boundary_request c id db = Ok (true, db') →
  ∃ r,
    pending_request db id = Some r
    ∧ db' =
      {| municipalities := municipalities db;
         barangays :=
           match r_barangay_id r with
           | Some bid =>
               alter (fun b =>
                 {| b_municipality_id := b_municipality_id b;
                    b_name := b_name b;
                    b_boundary_geojson := Some (r_boundary_geojson r);
                    b_boundary_approved_at := Some (now c) |}) bid (barangays db)
           | None =>
               <[new_row_id c := {| b_municipality_id := r_municipality_id r;
                                    b_name := r_barangay_name r;
                                    b_boundary_geojson := Some (r_boundary_geojson r);
                                    b_boundary_approved_at := Some (now c) |}]>
                 (barangays db)
           end;
         auth_users := auth_users db;
         profiles :=
           alter (fun p =>
             {| pr_role := pr_role p;
                pr_proof_of_employment_url := pr_proof_of_employment_url p;
                pr_barangay_id := Some (default (new_row_id c) (r_barangay_id r));
                pr_municipality_id := Some (r_municipality_id r);
                pr_email := pr_email p |}) (r_requested_by r) (profiles db);
         barangay_status_updates := barangay_status_updates db;
         barangay_assistance_offers := barangay_assistance_offers db;
         barangay_boundary_requests :=
           <[id := {| r_requested_by := r_requested_by r;
                      r_municipality_id := r_municipality_id r;
                      r_barangay_id := r_barangay_id r;
                      r_barangay_name := r_barangay_name r;
                      r_boundary_geojson := r_boundary_geojson r;
                      r_contact_email := r_contact_email r;
                      r_contact_phone := r_contact_phone r;
                      r_description := r_description r;
                      r_status := approved;
                      r_reviewed_by := auth_uid c;
                      r_reviewed_at := Some (now c);
                      r_rejection_reason := r_rejection_reason r |}]>
             (barangay_boundary_requests db);
         lgu_barangay_memberships :=
           (lgu_barangay_memberships db ++
              [{| m_id := new_membership_id c;
                  m_profile_id := r_requested_by r;
                  m_barangay_id := default (new_row_id c) (r_barangay_id r);
                  m_is_creator := true;
                  m_left_at := None;
                  m_leave_reason := None |}])%list |}.
Proof.
  unfold approve_barangay_boundary_request.
  set (v := if holds (sql_in (current_user_role db c) admin_roles) then _ else _).
  destruct (holds (sql_not v)); [done|].
  destruct (pending_request db id) as [r|] eqn:Hp; [|done].
  pose proof Hp as [Hr Hs]%pending_request_Some.
  assert (∀ f, alter f id (barangay_boundary_requests db)
               = <[id := f r]> (barangay_boundary_requests db)) as Halter.
  { intros f. apply map_eq. intros k. rewrite lookup_alter, lookup_insert.
    case_decide; simplify_eq; [by rewrite Hr | done]. }
  destruct (r_barangay_id r) as [bid|] eqn:Hb; simpl.
  - destruct (bool_decide (is_Some (profiles db !! r_requested_by r))); simpl.
    + match goal with |- context [require ?b _] => destruct b; simpl; [|done] end.
      intros [= <-]. exists r. split; [done|].
      unfold set_barangay_boundary_requests. cbn. rewrite Halter, Hb. done.
    + intros [= <-]. exists r. split; [done|].
      unfold set_barangay_boundary_requests. cbn. rewrite Halter, Hb. done.
  - unfold primary_key.
    match goal with |- context [require (bool_decide ?P) _] =>
      destruct (decide P) as [Hfresh|Hfresh];
      [rewrite (bool_decide_true P Hfresh) | rewrite (bool_decide_false P Hfresh)];
      simpl; [|done] end.
    match goal with |- context [require ?b _] => destruct b; simpl; [|done] end.
    destruct (bool_decide (is_Some (profiles db !! r_requested_by r))); simpl.
    + match goal with |- context [require ?b _] => destruct b; simpl; [|done] end.
      intros [= <-]. exists r. split; [done|].
      unfold set_barangay_boundary_requests. cbn. rewrite Halter, Hb. done.
    + intros [= <-]. exists r. split; [done|].
      unfold set_barangay_boundary_requests. cbn. rewrite Halter, Hb. done.
Qed.

Lemma approve_settles (c : context) (id : uuid) (db db' : database) :
  approve_barangay_boundary_request c id db = Ok (true, db') →
  pending_request db' id = None.
Proof.
  intros (r & bid & _ & _ & _ & _ & _ & _ & r' & Hreq & Hs & _)%approve_effects.
  apply pending_request_None. intros r0. rewrite Hreq, lookup_insert_eq.
  intros [= <-]. by rewrite Hs.
Qed.

Lemma reject_settles
    (c : context) (id : uuid) (reason : option string) (db db' : database) :
  reject_barangay_boundary_request c id reason db = Ok (true, db') →
  pending_request db' id = None.
Proof.
  unfold reject_barangay_boundary_request.
  set (v := if holds (sql_in (current_user_role db c) admin_roles) then _ else _).
  destruct (holds (sql_not v)); [done|].
  destruct (pending_request db id) as [r|] eqn:Hp; [|done].
  apply pending_request_Some in Hp as [Hr Hs].
  intros [= <-]. apply pending_request_None. intros r0. simpl.
  rewrite lookup_alter, decide_True, Hr by done. by intros [= <-].
Qed.

(** C5: approving or rejecting a boundary request that is not pending
    returns FALSE and leaves the database as it was.  A successful
    approval finds the request pending and leaves exactly this database:
    the barangay of the request (the one it names, or a new one under a
    fresh id) holds the request's geometry and the time of the call as
    approval stamp, the requester's profile is assigned to that barangay
    and the request's municipality, one creator membership of the
    requester in that barangay is appended, the request is approved with
    the caller as reviewer, and every other row and table is as before.
    The request is then no longer pending, so every later approval or
    rejection of the same id, through the functions or the services,
    fails and changes nothing: the effects are applied once.  The same
    holds after a successful rejection. *)
Theorem boundary_review_is_guarded_by_pending :
  (∀ (c : context) (id : uuid) (reason : option string) (db : database),
     (∀ r, barangay_boundary_requests db !! id = Some r → r_status r ≠ pending) →
     approve_barangay_boundary_request c id db = Ok (false, db)
     ∧ reject_barangay_boundary_request c id reason db = Ok (false, db)
     ∧ approveBoundaryRequest c id db = (false, db)
     ∧ rejectBoundaryRequest c id reason db = (false, db))
  ∧ (∀ (c0 : context) (id : uuid) (db0 db1 : database),
       approve_barangay_boundary_request c0 id db0 = Ok (true, db1) →
       (∃ r,
          pending_request db0 id = Some r
          ∧ (r_barangay_id r = None → barangays db0 !! new_row_id c0 = None)
          ∧ barangays db1 =
              match r_barangay_id r with
              | Some bid =>
                  alter (fun b =>
                    {| b_municipality_id := b_municipality_id b;
                       b_name := b_name b;
                       b_boundary_geojson := Some (r_boundary_geojson r);
                       b_boundary_approved_at := Some (now c0) |}) bid (barangays db0)
              | None =>
                  <[new_row_id c0 :=
                      {| b_municipality_id := r_municipality_id r;
                         b_name := r_barangay_name r;
                         b_boundary_geojson := Some (r_boundary_geojson r);
                         b_boundary_approved_at := Some (now c0) |}]> (barangays db0)
              end
          ∧ profiles db1 =
              alter (fun p =>
                {| pr_role := pr_role p;
                   pr_proof_of_employment_url := pr_proof_of_employment_url p;
                   pr_barangay_id := Some (default (new_row_id c0) (r_barangay_id r));
                   pr_municipality_id := Some (r_municipality_id r);
                   pr_email := pr_email p |}) (r_requested_by r) (profiles db0)
          ∧ lgu_barangay_memberships db1 =
              (lgu_barangay_memberships db0 ++
                 [{| m_id := new_membership_id c0;
                     m_profile_id := r_requested_by r;
                     m_barangay_id := default (new_row_id c0) (r_barangay_id r);
                     m_is_creator := true;
                     m_left_at := None;
                     m_leave_reason := None |}])%list
          ∧ barangay_boundary_requests db1 =
              <[id := {| r_requested_by := r_requested_by r;
                         r_municipality_id := r_municipality_id r;
                         r_barangay_id := r_barangay_id r;
                         r_barangay_name := r_barangay_name r;
                         r_boundary_geojson := r_boundary_geojson r;
                         r_contact_email := r_contact_email r;
                         r_contact_phone := r_contact_phone r;
                         r_description := r_description r;
                         r_status := approved;
                         r_reviewed_by := auth_uid c0;
                         r_reviewed_at := Some (now c0);
                         r_rejection_reason := r_rejection_reason r |}]>
                (barangay_boundary_requests db0)
          ∧ municipalities db1 = municipalities db0
          ∧ auth_users db1 = auth_users db0
          ∧ barangay_status_updates db1 = barangay_status_updates db0
          ∧ barangay_assistance_offers db1 = barangay_assistance_offers db0)
       ∧ ∀ (c : context) (reason : option string),
           approve_barangay_boundary_request c id db1 = Ok (false, db1)
           ∧ reject_barangay_boundary_request c id reason db1 = Ok (false, db1)
           ∧ approveBoundaryRequest c id db1 = (false, db1)
           ∧ rejectBoundaryRequest c id reason db1 = (false, db1))
  ∧ (∀ (c0 : context) (id : uuid) (reason0 : option string) (db0 db1 : database),
       reject_barangay_boundary_request c0 id reason0 db0 = Ok (true, db1) →
       ∀ (c : context) (reason : option string),
         approve_barangay_boundary_request c id db1 = Ok (false, db1)
         ∧ reject_barangay_boundary_request c id reason db1 = Ok (false, db1)
         ∧ approveBoundaryRequest c id db1 = (false, db1)
         ∧ rejectBoundaryRequest c id reason db1 = (false, db1)).
Proof.
  assert (∀ c id reason db, pending_request db id = None →
            approve_barangay_boundary_request c id db = Ok (false, db)
            ∧ reject_barangay_boundary_request c id reason db = Ok (false, db)
            ∧ approveBoundaryRequest c id db = (false, db)
            ∧ rejectBoundaryRequest c id reason db = (false, db)) as Hguard.
  { intros c id reason db Hnp. unfold approveBoundaryRequest, rejectBoundaryRequest.
    by rewrite !approve_without_pending, !reject_without_pending. }
  split_and!.
  - intros c id reason db Hnp%pending_request_None. by apply Hguard.
  - intros c0 id db0 db1 Hfirst. split.
    + pose proof Hfirst as (r & bid & Hp & Hbid & Hfresh & _)%approve_effects.
      pose proof Hfirst as (r' & Hp' & ->)%approve_exact.
      assert (r' = r) as -> by congruence.
      exists r. split_and!; try done.
      intros Hnone. specialize (Hfresh Hnone). by rewrite Hbid, Hnone in Hfresh.
    + intros c reason. apply Hguard. by eapply approve_settles.
  - intros c0 id reason0 db0 db1 Hfirst c reason. apply Hguard. by eapply reject_settles.
Qed.

(** C5 run on request 600: the admin approves it, which creates barangay
    1000 and appends the creator membership 1001 of responder 104; then
    a second approval and a rejection both fail on the database the
    first call left. *)
Lemma boundary_review_is_guarded_by_pending_witness :
  approve_barangay_boundary_request (fx_ctx fx_admin 60 1000 1001) 600 fx_db
  = Ok (true, fx_db_approved)
  ∧ (∃ r, pending_request fx_db 600 = Some r
          ∧ lgu_barangay_memberships fx_db_approved =
              (lgu_barangay_memberships fx_db ++
                 [{| m_id := 1001;
                     m_profile_id := r_requested_by r;
                     m_barangay_id := default 1000%N (r_barangay_id r);
                     m_is_creator := true;
                     m_left_at := None;
                     m_leave_reason := None |}])%list)
  ∧ length (lgu_barangay_memberships fx_db_approved) = 2
  ∧ approve_barangay_boundary_request (fx_ctx fx_admin 61 1002 1003) 600 fx_db_approved
    = Ok (false, fx_db_approved)
  ∧ reject_barangay_boundary_request (fx_ctx fx_admin 62 1004 1005) 600 (Some "late")
      fx_db_approved
    = Ok (false, fx_db_approved).
Proof.
  assert (approve_barangay_boundary_request (fx_ctx fx_admin 60 1000 1001) 600 fx_db
          = Ok (true, fx_db_approved)) as Hfirst by (vm_compute; reflexivity).
  split; [exact Hfirst|].
  destruct boundary_review_is_guarded_by_pending as (_ & Hsecond & _).
  destruct (Hsecond _ _ _ _ Hfirst) as [(r & Hr & _ & _ & _ & Hm & _) Hagain].
  split; [exists r; split; [exact Hr|exact Hm]|].
  split; [rewrite Hm, length_app; reflexivity|].
  split.
  - exact (proj1 (Hagain (fx_ctx fx_admin 61 1002 1003) None)).
  - exact (proj1 (proj2 (Hagain (fx_ctx fx_admin 62 1004 1005) (Some "late")))).
Defined.

End BoundaryReview.

(* ===================================================================== *)
(** ** Boundary requests: who may review *)
(* ===================================================================== *)

Section ReviewAuthority.

(** With a municipality on the profile, a municipal responder's approval
    goes through only for a pending request of that municipality. *)
Lemma municipal_approval_contained
    (c : context) (id : uuid) (m : uuid) (db db' : database) :
  current_user_role db c = Some municipal_responder →
  current_user_municipality_id db c = Some m →
  approve_barangay_boundary_request c id db = Ok (true, db') →
  ∃ r, pending_request db id = Some r ∧ r_municipality_id r = m.
Proof.
  intros Hrole Hm. unfold approve_barangay_boundary_request.
  rewrite Hrole, Hm. simpl.
  destruct (pending_request db id) as [r|]; simpl; [|done].
  case_bool_decide as Heq; simpl; [|done].
  intros _. eauto.
Qed.

(** Without one, the comparison is NULL, [IF NOT v_can_reject] does not
    fire, and any pending request is rejected. *)
Lemma municipal_without_municipality_rejects_any
    (c : context) (id : uuid) (reason : option string)
    (r : barangay_boundary_request) (db : database) :
  current_user_role db c = Some municipal_responder →
  current_user_municipality_id db c = None →
  pending_request db id = Some r →
  ∃ db', reject_barangay_boundary_request c id reason db = Ok (true, db').
Proof.
  intros Hrole Hm Hp. unfold reject_barangay_boundary_request.
  rewrite Hrole, Hm, Hp. simpl. eauto.
Qed.

(** An admin's rejection goes through for any pending request. *)
Lemma admin_rejects_any_pending
    (c : context) (id : uuid) (reason : option string)
    (role : user_role) (r : barangay_boundary_request) (db : database) :
  current_user_role db c = Some role →
  role ∈ admin_roles →
  pending_request db id = Some r →
  ∃ db', reject_barangay_boundary_request c id reason db = Ok (true, db').
Proof.
  intros Hrole Hadmin Hp. unfold reject_barangay_boundary_request.
  rewrite Hrole, Hp. simpl. rewrite bool_decide_true by done. simpl. eauto.
Qed.

(** The SELECT policy for municipal responders. *)
Lemma barangay_boundary_requests_select_municipal_spec
    (db : database) (c : context) (r : barangay_boundary_request) :
  holds (barangay_boundary_requests_select_municipal db c r) = true ↔
  current_user_role db c = Some municipal_responder
  ∧ current_user_municipality_id db c = Some (r_municipality_id r).
Proof.
  unfold barangay_boundary_requests_select_municipal.
  rewrite holds_sql_and, andb_true_iff, !holds_sql_eq. split.
  - intros [(x & Hx & [= <-]) (y & [= <-] & Hy)]. done.
  - intros [Hr Hm]. split; eauto.
Qed.

(** C6 at the failing input: municipal responder 102 of municipality 1
    joins barangay 10 and leaves it again, which clears the municipality
    on the profile; request 600 belongs to municipality 2; the responder
    cannot read it, and both the approval and the rejection of it
    succeed. *)
Lemma municipal_without_municipality_reviews_other_municipality :
  join_barangay (fx_ctx fx_municipal 30 0 301) 10 fx_db = Ok (true, fx_db_municipal_joined)
  ∧ leave_barangay (fx_ctx fx_municipal 31 0 0) None fx_db_municipal_joined
    = Ok (true, fx_db_municipal_left)
  ∧ current_user_role fx_db_municipal_left (fx_ctx fx_municipal 32 1000 1001)
    = Some municipal_responder
  ∧ current_user_municipality_id fx_db_municipal_left (fx_ctx fx_municipal 32 1000 1001)
    = None
  ∧ r_municipality_id <$> pending_request fx_db_municipal_left 600 = Some 2%N
  ∧ barangay_boundary_requests_select fx_db_municipal_left (fx_ctx fx_municipal 32 1000 1001)
    <$> pending_request fx_db_municipal_left 600 = Some false
  ∧ (approveBoundaryRequest (fx_ctx fx_municipal 32 1000 1001) 600 fx_db_municipal_left).1
    = true
  ∧ (rejectBoundaryRequest (fx_ctx fx_municipal 32 1000 1001) 600 None fx_db_municipal_left).1
    = true.
Proof. by vm_compute. Qed.

End ReviewAuthority.

(* ===================================================================== *)
(** ** Memberships: how many are open *)
(* ===================================================================== *)

Section Memberships.

Lemma open_membership_of_Some (who : uuid) (m : lgu_barangay_membership) :
  open_membership_of (Some who) m = true ↔ m_profile_id m = who ∧ m_left_at m = None.
Proof.
  unfold open_membership_of. rewrite andb_true_iff, holds_sql_eq. split.
  - intros [(x & [= <-] & [= Hx]) Hn]. by destruct (m_left_at m).
  - intros [<- Hn]. rewrite Hn. eauto.
Qed.

(** [join_barangay] looks before it inserts: it keeps "at most one open
    membership per actor". *)
Lemma join_barangay_single_open (c : context) (b : uuid) (db db' : database) (ok : bool) :
  (∀ who, (open_memberships who db ≤ 1)%nat) →
  join_barangay c b db = Ok (ok, db') →
  ∀ who, (open_memberships who db' ≤ 1)%nat.
Proof.
  intros Hinv. unfold join_barangay.
  destruct (holds _); [by intros [= <- <-]|].
  destruct (existsb _ _) eqn:Hex; [by intros [= <- <-]|].
  destruct (barangays db !! b) as [vb|]; [|by intros [= <- <-]].
  destruct (negb _); [by intros [= <- <-]|].
  destruct (auth_uid c) as [uid|] eqn:Huid; simpl; [|done].
  intros [= <- <-] who. unfold open_memberships. simpl.
  rewrite List.filter_app, length_app. simpl.
  destruct (decide (who = uid)) as [->|Hne].
  - assert (List.filter (open_membership_of (Some uid)) (lgu_barangay_memberships db) = [])
      as ->.
    { destruct (List.filter _ _) as [|m ms] eqn:Hf; [done|].
      assert (In m (List.filter (open_membership_of (Some uid))
                      (lgu_barangay_memberships db))) as Hin by (rewrite Hf; by left).
      apply List.filter_In in Hin as [Hin Hopen].
      assert (existsb (open_membership_of (Some uid)) (lgu_barangay_memberships db) = true)
        as Hyes by (apply List.existsb_exists; eauto).
      congruence. }
    simpl. destruct (open_membership_of _ _); simpl; lia.
  - assert (open_membership_of (Some who)
              {| m_id := new_membership_id c; m_profile_id := uid; m_barangay_id := b;
                 m_is_creator := false; m_left_at := None; m_leave_reason := None |}
            = false) as ->.
    { apply not_true_is_false. rewrite open_membership_of_Some. simpl. by intros [? _]. }
    simpl. specialize (Hinv who). unfold open_memberships in Hinv. lia.
Qed.

Lemma filter_fmap_length_le {A} (P : A → bool) (f : A → A) (l : list A) :
  (∀ x, P (f x) = true → P x = true) →
  (length (List.filter P (f <$> l)) ≤ length (List.filter P l))%nat.
Proof.
  intros Hf. induction l as [|x l IH]; [done|].
  rewrite fmap_cons. cbn [List.filter].
  destruct (P (f x)) eqn:Hfx.
  - rewrite (Hf x Hfx). cbn [length]. lia.
  - destruct (P x); cbn [length]; lia.
Qed.

(** [leave_barangay] only closes rows. *)
Lemma leave_barangay_single_open
    (c : context) (reason : option string) (db db' : database) (ok : bool) :
  (∀ who, (open_memberships who db ≤ 1)%nat) →
  leave_barangay c reason db = Ok (ok, db') →
  ∀ who, (open_memberships who db' ≤ 1)%nat.
Proof.
  intros Hinv. unfold leave_barangay.
  destruct (holds _); [by intros [= <- <-]|].
  destruct (List.find _ _) as [vm|]; [|by intros [= <- <-]].
  intros [= <- <-] who. specialize (Hinv who). revert Hinv.
  unfold open_memberships.
  match goal with
  | |- context [lgu_barangay_memberships (match auth_uid c with Some _ => _ | None => ?d end)] =>
      replace (lgu_barangay_memberships (match auth_uid c with
                                         | Some uid => _
                                         | None => d
                                         end))
        with (lgu_barangay_memberships d) by (by destruct (auth_uid c))
  end.
  cbn [lgu_barangay_memberships set_lgu_barangay_memberships].
  intros Hinv. etrans; [|exact Hinv].
  apply filter_fmap_length_le. intros m.
  case_bool_decide; [|done].
  unfold open_membership_of at 1. cbn. by rewrite andb_false_r.
Qed.

(** C2 at the failing input: responder 104 holds no membership, joins
    barangay 10 (one open membership), and the admin then approves the
    boundary request 600 that 104 had filed: the approval inserts a
    creator membership without looking for an open one, and 104 ends with
    two open memberships. *)
Lemma approval_opens_second_membership :
  open_memberships fx_newcomer fx_db = 0
  ∧ join_barangay (fx_ctx fx_newcomer 40 0 302) 10 fx_db = Ok (true, fx_db_newcomer_joined)
  ∧ open_memberships fx_newcomer fx_db_newcomer_joined = 1
  ∧ approve_barangay_boundary_request (fx_ctx fx_admin 41 1000 303) 600 fx_db_newcomer_joined
    = Ok (true, fx_db_newcomer_approved)
  ∧ open_memberships fx_newcomer fx_db_newcomer_approved = 2.
Proof. repeat split; by vm_compute. Qed.

End Memberships.

(* ===================================================================== *)
(** ** Statements that may raise *)
(* ===================================================================== *)

Section Results.

Lemma bind_Ok {A B} (m : result A) (k : A → result B) (b : B) :
  m ≫= k = Ok b ↔ ∃ a, m = Ok a ∧ k a = Ok b.
Proof.
  destruct m as [a|e]; simpl.
  - split; [eauto | by intros (? & [= <-] & ?)].
  - split; [done | by intros (? & ? & ?)].
Qed.

Lemma require_Ok (b : bool) (e : sql_error) (u : unit) :
  require b e = Ok u ↔ b = true.
Proof. destruct b, u; simpl; split; done. Qed.

Lemma primary_key_Ok {V} (t : gmap uuid V) (id : uuid) (u : unit) :
  primary_key t id = Ok u ↔ t !! id = None.
Proof. unfold primary_key. by rewrite require_Ok, bool_decide_eq_true. Qed.

Lemma references_Ok {V} (t : gmap uuid V) (id : uuid) (u : unit) :
  references t (Some id) = Ok u ↔ is_Some (t !! id).
Proof. unfold references. by rewrite require_Ok, bool_decide_eq_true. Qed.

Lemma not_null_Ok {A} (a : option A) (x : A) : not_null a = Ok x ↔ a = Some x.
Proof. destruct a; simpl; split; congruence. Qed.

End Results.

(* ===================================================================== *)
(** ** Sign-up and the login pre-check *)
(* ===================================================================== *)

Section LoginEligibility.

(** The pre-check answers "pending" only for an account whose e-mail is
    unconfirmed: a responder profile with a proof on file. *)
Lemma check_login_eligibility_pending (check_email : option string) (db : database) :
  check_login_eligibility check_email db = Ok true →
  ∃ id u p,
    auth_users db !! id = Some u
    ∧ profiles db !! id = Some p
    ∧ u_email u = check_email
    ∧ pr_role p ∈ lgu_roles
    ∧ is_Some (pr_proof_of_employment_url p)
    ∧ u_email_confirmed_at u = None.
Proof.
  unfold check_login_eligibility.
  destruct (eligibility_rows check_email db) as [|b [|b' rows]] eqn:Hrows; try done.
  intros [= ->].
  assert (true ∈ eligibility_rows check_email db) as Hin by (rewrite Hrows; left).
  unfold eligibility_rows in Hin.
  apply list_elem_of_omap in Hin as ([id u] & Hu & Hrow).
  apply elem_of_map_to_list in Hu.
  cbn [mbind option_bind] in Hrow.
  destruct (profiles db !! id) as [p|] eqn:Hp; [|done].
  cbn [mbind option_bind] in Hrow.
  destruct (holds (sql_eq (u_email u) check_email)) eqn:He; [|done].
  destruct (holds (sql_in (Some (pr_role p)) lgu_roles)) eqn:Hl; [|done].
  cbn [andb] in Hrow.
  injection Hrow as Hrow. apply andb_true_iff in Hrow as [Hproof Hconf].
  apply holds_sql_eq in He as (e & He1 & He2).
  apply holds_sql_in in Hl as (x & [= <-] & Hl).
  exists id, u, p. repeat split; try done.
  - congruence.
  - by destruct (pr_proof_of_employment_url p).
  - by destruct (u_email_confirmed_at u).
Qed.

Lemma omap_all_None {A B} (f : A → option B) (l : list A) :
  (∀ x, x ∈ l → f x = None) → omap f l = [].
Proof.
  induction l as [|x l IH]; intros Hnone; [done|].
  cbn [omap list_omap]. rewrite (Hnone x) by left.
  apply IH. intros y Hy. apply Hnone. by right.
Qed.

(** The other direction: an unconfirmed responder account with a proof on
    file, alone under its e-mail, is reported pending. *)
Lemma check_login_eligibility_unconfirmed
    (email : string) (id : uuid) (u : auth_user) (p : profile) (db : database) :
  auth_users db !! id = Some u →
  profiles db !! id = Some p →
  u_email u = Some email →
  pr_role p ∈ lgu_roles →
  is_Some (pr_proof_of_employment_url p) →
  u_email_confirmed_at u = None →
  (∀ id' u', auth_users db !! id' = Some u' → u_email u' = Some email → id' = id) →
  check_login_eligibility (Some email) db = Ok true.
Proof.
  intros Hu Hp He Hl [url Hurl] Hc Huniq.
  unfold check_login_eligibility.
  assert (eligibility_rows (Some email) db ≡ₚ [true]) as Hrows.
  { unfold eligibility_rows.
    set (row := fun '(id0, u0) => _).
    rewrite <- (insert_delete_id (auth_users db) id u Hu) at 1.
    rewrite map_to_list_insert by apply lookup_delete_eq.
    assert (row (id, u) = Some true) as Hrow.
    { subst row. cbn beta iota. rewrite Hp. cbn [mbind option_bind].
      rewrite He, Hurl, Hc. simpl. rewrite bool_decide_true by done. simpl.
      by rewrite (bool_decide_true (pr_role p ∈ lgu_roles)). }
    assert (omap row (map_to_list (delete id (auth_users db))) = []) as Hrest.
    { apply omap_all_None. intros [id' u'] Hin.
      apply elem_of_map_to_list in Hin.
      apply lookup_delete_Some in Hin as [Hne Hu'].
      subst row. cbn beta iota.
      destruct (profiles db !! id') as [p'|]; [|done]. cbn [mbind option_bind].
      destruct (holds (sql_eq (u_email u') (Some email))) eqn:Heq; [|done].
      apply holds_sql_eq in Heq as (e & He' & [= <-]).
      by destruct Hne; symmetry; apply (Huniq id' u'). }
    cbn [omap list_omap]. by rewrite Hrow, Hrest. }
  apply Permutation_singleton_r in Hrows. by rewrite Hrows.
Qed.

(** The trigger confirms the e-mail of every responder it creates. *)
Lemma handle_new_user_confirms_responder
    (c : context) (id : uuid) (email : option string) (meta : raw_user_meta_data)
    (db db' : database) (p : profile) :
  handle_new_user c id email meta db = Ok db' →
  profiles db' !! id = Some p →
  pr_role p ∈ lgu_roles →
  ∃ u, auth_users db' !! id = Some u ∧ u_email_confirmed_at u = Some (now c).
Proof.
  unfold handle_new_user.
  set (r := match md_role meta with Some s => _ | None => _ end).
  destruct (if bool_decide (r ∈ [municipal_responder; barangay_responder]) then _ else _)
    as [vm vb].
  intros (? & _ & (? & Hu%references_Ok & (? & _ & (? & _ & [= <-])%bind_Ok)%bind_Ok)%bind_Ok)%bind_Ok.
  destruct Hu as [u Hid].
  intros Hp Hl.
  assert (pr_role p = r) as Hr.
  { revert Hp. repeat case_match; simpl; rewrite lookup_insert_eq; by intros [= <-]. }
  rewrite Hr in Hl. rewrite (bool_decide_true _ Hl).
  exists {| u_email := u_email u; u_email_confirmed_at := Some (now c) |}.
  split; [|done].
  repeat case_match; simpl; by rewrite lookup_alter, decide_True, Hid.
Qed.

(** C3 at the failing input: a municipal responder signs up with a proof
    of employment; the trigger stores the proof and marks the e-mail
    confirmed in the same transaction, no admin has looked at anything,
    and the pre-check answers "not pending". *)
Lemma signed_up_responder_with_proof_is_not_pending :
  auth_sign_up fx_signup_ctx 200 fx_signup_email fx_signup_meta fx_db = Ok fx_db_signed_up
  ∧ pr_role <$> profiles fx_db_signed_up !! 200%N = Some municipal_responder
  ∧ is_Some (profiles fx_db_signed_up !! 200%N ≫= pr_proof_of_employment_url)
  ∧ auth_users fx_db_signed_up !! 200%N
    = Some {| u_email := Some fx_signup_email; u_email_confirmed_at := Some 70%Z |}
  ∧ check_login_eligibility (Some fx_signup_email) fx_db_signed_up = Ok false.
Proof. repeat split; try by vm_compute. vm_compute. eauto. Qed.

End LoginEligibility.

(* ===================================================================== *)
(** ** Assistance offers *)
(* ===================================================================== *)

Section Assistance.

(** The UPDATE policy: the caller is the helping party. *)
Lemma assistance_update_spec
    (db : database) (c : context) (o : barangay_assistance_offer) :
  assistance_update db c o = true ↔
  ∃ p, current_profile db c = Some p ∧
       ((pr_role p ∈ [lgu_responder; barangay_responder]
         ∧ ∃ b, o_helping_barangay_id o = Some b ∧ pr_barangay_id p = Some b)
        ∨ (pr_role p = municipal_responder
           ∧ ∃ m, o_helping_municipality_id o = Some m ∧ pr_municipality_id p = Some m)).
Proof.
  unfold assistance_update, assistance_update_own.
  rewrite permissive_cons, permissive_nil, orb_false_r, holds_sql_or, orb_true_iff.
  rewrite !holds_sql_and, !andb_true_iff, holds_sql_in, !holds_sql_eq.
  unfold current_user_role, current_user_barangay_id, current_user_municipality_id.
  destruct (current_profile db c) as [p|]; simpl.
  - split.
    + intros [[(x & [= <-] & Hx) (b & Hb & Hpb)]|[(x & [= <-] & [= Hm]) (m & Hm' & Hpm)]];
        exists p; (split; [done|]); [left | right]; eauto.
    + intros (? & [= <-] & [[Hr (b & Hb & Hpb)]|[Hr (m & Hm & Hpm)]]); [left | right].
      * split; eauto.
      * rewrite Hr. split; eauto.
  - split.
    + intros [[(? & ? & _) _]|[(? & ? & _) _]]; done.
    + by intros (? & ? & _).
Qed.

(** C7 (as amended): [markAssistanceDelivered] reports no error; it never
    clears [delivered_at]; it changes [delivered_at] of no offer but the
    one named, and of that one only for a caller who is the helping party
    (a barangay-level responder of the helping barangay, or a municipal
    responder of the helping municipality), writing the time of the call
    whether or not a time was already there.  The dashboard draws "Mark
    delivered" only for an offer not yet delivered. *)
Theorem markAssistanceDelivered_overwrites_for_helper
    (c : context) (client_time : timestamptz) (offerId : uuid) (db : database) :
  (markAssistanceDelivered c client_time offerId db).1 = None
  ∧ (∀ k o, barangay_assistance_offers db !! k = Some o →
       ∃ o', barangay_assistance_offers (markAssistanceDelivered c client_time offerId db).2 !! k
             = Some o'
         ∧ (is_Some (o_delivered_at o) → is_Some (o_delivered_at o'))
         ∧ (o_delivered_at o' ≠ o_delivered_at o →
              k = offerId
              ∧ o_delivered_at o' = Some client_time
              ∧ assistance_update db c o = true))
  ∧ (∀ o, barangay_assistance_offers db !! offerId = Some o →
       assistance_update db c o = true →
       o_delivered_at <$>
         barangay_assistance_offers (markAssistanceDelivered c client_time offerId db).2
           !! offerId
       = Some (Some client_time))
  ∧ (∀ viewer_barangay viewer_municipality o,
       showsMarkDelivered viewer_barangay viewer_municipality o = true →
       o_delivered_at o = None).
Proof.
  unfold markAssistanceDelivered.
  repeat split.
  - by repeat case_match.
  - intros k o Hk.
    destruct (barangay_assistance_offers db !! offerId) as [o0|] eqn:Ho;
      [destruct (assistance_update db c o0) eqn:Hup|]; simpl.
    + destruct (decide (k = offerId)) as [->|Hne].
      * rewrite lookup_insert_eq. simplify_eq. eexists. split; [done|]. simpl.
        split; [eauto|]. done.
      * rewrite lookup_insert_ne by done. exists o. by repeat split.
    + exists o. by repeat split.
    + exists o. by repeat split.
  - intros o Ho Hup. rewrite Ho, Hup. simpl. by rewrite lookup_insert_eq.
  - intros vb vm o. unfold showsMarkDelivered. rewrite andb_true_iff.
    intros [Hnull _]. by destruct (o_delivered_at o).
Qed.

(** C7 (as stated) fails: offer 900 of barangay 10 was delivered at time
    100; responder 101 of barangay 10 marks it delivered again at time 250
    and the stored time becomes 250. *)
Lemma remarking_overwrites_delivered_at :
  o_delivered_at <$> barangay_assistance_offers fx_db !! 900%N = Some (Some 100%Z)
  ∧ assistance_update fx_db (fx_ctx fx_responder 250 0 0) <$>
      barangay_assistance_offers fx_db !! 900%N = Some true
  ∧ o_delivered_at <$>
      barangay_assistance_offers
        (markAssistanceDelivered (fx_ctx fx_responder 250 0 0) 250%Z 900%N fx_db).2 !! 900%N
    = Some (Some 250%Z).
Proof. by vm_compute. Qed.

End Assistance.

Section AssistanceCreation.

Lemma references_dom {V} (t t' : gmap uuid V) (k : option uuid) :
  dom t' = dom t → references t' k = references t k.
Proof.
  intros Hdom. destruct k as [id|]; [|done]. unfold references. f_equal.
  apply bool_decide_ext. by rewrite <- !elem_of_dom, Hdom.
Qed.

(** C4 (as amended): [createAssistanceOffer] does not look at the
    recipient's status: replace the rows of barangay_status_updates by any
    others under the same ids and the call returns the same answer and
    stores the same offers.  The need-status gate is in the map popup,
    which draws "Provide Assistance" only for a barangay whose shown
    status is a need status. *)
Theorem createAssistanceOffer_ignores_recipient_status
    (c : context) (recipientBarangayId : uuid) (description : string) (userId : uuid)
    (options : option offer_options) (db : database)
    (statuses' : gmap uuid barangay_status_update) :
  dom statuses' = dom (barangay_status_updates db) →
  (createAssistanceOffer c recipientBarangayId description userId options
     (set_barangay_status_updates (fun _ => statuses') db)).1
  = (createAssistanceOffer c recipientBarangayId description userId options db).1
  ∧ barangay_assistance_offers
      (createAssistanceOffer c recipientBarangayId description userId options
         (set_barangay_status_updates (fun _ => statuses') db)).2
    = barangay_assistance_offers
        (createAssistanceOffer c recipientBarangayId description userId options db).2
  ∧ ∀ mode_is_lgu lguUserId lguBarangayInfo_id b,
      canAssist mode_is_lgu lguUserId lguBarangayInfo_id b = true →
      isNeedStatus (bws_status b) = true.
Proof.
  intros Hdom.
  assert (∀ o, insert_barangay_assistance_offer c o
                 (set_barangay_status_updates (fun _ => statuses') db)
               = match insert_barangay_assistance_offer c o db with
                 | Ok (id, d) => Ok (id, set_barangay_status_updates (fun _ => statuses') d)
                 | Raise e => Raise e
                 end) as Hins.
  { intros o. unfold insert_barangay_assistance_offer.
    change (assistance_insert (set_barangay_status_updates (fun _ => statuses') db) c o)
      with (assistance_insert db c o).
    cbn [barangay_assistance_offers barangays municipalities profiles
         barangay_status_updates set_barangay_status_updates].
    rewrite (references_dom _ _ _ Hdom).
    repeat match goal with
           | |- context [require ?b ?e] => destruct (require b e) as [[]|]; simpl; [|done]
           | |- context [primary_key ?t ?i] => destruct (primary_key t i) as [[]|]; simpl; [|done]
           | |- context [references ?t ?i] => destruct (references t i) as [[]|]; simpl; [|done]
           end.
    done. }
  unfold createAssistanceOffer.
  change (select_profile c userId (set_barangay_status_updates (fun _ => statuses') db))
    with (select_profile c userId db).
  repeat split.
  - destruct (negb (truthy description) || _); [done|].
    repeat (case_match; try done); simplify_eq; rewrite Hins in *;
      repeat match goal with
             | H : insert_barangay_assistance_offer _ _ _ = _ |- _ => rewrite H in *
             end; simpl in *; by simplify_eq.
  - destruct (negb (truthy description) || _); [done|].
    repeat (case_match; try done); simplify_eq; rewrite Hins in *;
      repeat match goal with
             | H : insert_barangay_assistance_offer _ _ _ = _ |- _ => rewrite H in *
             end; simpl in *; by simplify_eq.
  - intros m u i b. unfold canAssist. rewrite !andb_true_iff. tauto.
Qed.

End AssistanceCreation.

Section AssistanceCreationRuns.

(** C4 run on barangay 11: the same offer is created whether row 700
    says "normal" or "active disaster". *)
Lemma createAssistanceOffer_ignores_recipient_status_witness :
  (createAssistanceOffer (fx_ctx fx_responder 80 1000 0) 11 "Rice and water" fx_responder None
     (set_barangay_status_updates (fun _ => fx_statuses_in_need) fx_db)).1
  = (createAssistanceOffer (fx_ctx fx_responder 80 1000 0) 11 "Rice and water" fx_responder
       None fx_db).1.
Proof.
  apply (createAssistanceOffer_ignores_recipient_status
           (fx_ctx fx_responder 80 1000 0) 11 "Rice and water" fx_responder None fx_db
           fx_statuses_in_need).
  by vm_compute.
Defined.

(** C4 (as stated) fails: the current status of barangay 11 is "normal",
    which is not a need status, and responder 101 of barangay 10 creates
    an offer for it. *)
Lemma offer_created_for_recipient_in_normal_status :
  bws_status <$>
    List.find (fun b => bool_decide (bws_id b = 11%N)) (fetchBarangaysWithStatus fx_db)
  = Some normal
  ∧ isNeedStatus normal = false
  ∧ (createAssistanceOffer (fx_ctx fx_responder 80 1000 0) 11 "Rice and water" fx_responder
       None fx_db).1
    = (Some 1000%N, None)
  ∧ o_recipient_barangay_id <$>
      barangay_assistance_offers
        (createAssistanceOffer (fx_ctx fx_responder 80 1000 0) 11 "Rice and water"
           fx_responder None fx_db).2 !! 1000%N
    = Some 11%N.
Proof. by vm_compute. Qed.

(** The CHECK constraint and the responder policy each refuse a row whose
    helping barangay is the recipient. *)
Lemma insert_self_assistance_raises
    (c : context) (o : barangay_assistance_offer) (db : database) :
  o_helping_barangay_id o = Some (o_recipient_barangay_id o) →
  no_self_assistance o = false
  ∧ ∃ e, insert_barangay_assistance_offer c o db = Raise e.
Proof.
  intros Hself.
  assert (no_self_assistance o = false) as Hcheck.
  { unfold no_self_assistance, sql_ne. rewrite Hself. simpl.
    rewrite (bool_decide_true (o_recipient_barangay_id o = _)) by done.
    done. }
  split; [done|]. unfold insert_barangay_assistance_offer. rewrite Hcheck.
  destruct (assistance_insert db c o); simpl; eauto.
Qed.

(** C10: a barangay-sourced offer (the caller is not a municipal responder
    with a municipality) from the caller's own barangay to that same
    barangay is turned down by [createAssistanceOffer] with a message of
    its own, before any insert, and the database stays as it was; whatever
    the caller, a row the call does store never has the recipient as its
    helping barangay, and the table's CHECK refuses such a row from any
    client. *)
Theorem createAssistanceOffer_refuses_own_barangay
    (c : context) (recipientBarangayId : uuid) (description : string) (userId : uuid)
    (options : option offer_options) (db : database) (p : profile) :
  select_profile c userId db = Some p →
  pr_barangay_id p = Some recipientBarangayId →
  pr_role p ≠ municipal_responder ∨ pr_municipality_id p = None →
  (∃ msg,
     createAssistanceOffer c recipientBarangayId description userId options db
     = ((None, Some (Message msg)), db))
  ∧ (∀ c' recipient' description' userId' options' id,
       (createAssistanceOffer c' recipient' description' userId' options' db).1.1 = Some id →
       ∃ o, barangay_assistance_offers
              (createAssistanceOffer c' recipient' description' userId' options' db).2 !! id
            = Some o
            ∧ o_helping_barangay_id o ≠ Some (o_recipient_barangay_id o))
  ∧ (∀ c' o, o_helping_barangay_id o = Some (o_recipient_barangay_id o) →
       ∃ e, insert_barangay_assistance_offer c' o db = Raise e).
Proof.
  intros Hp Hb Hnm. repeat split.
  - unfold createAssistanceOffer.
    destruct (negb (truthy description) || _); [eauto|].
    rewrite Hp. simpl. rewrite Hb.
    assert (bool_decide (Some (pr_role p) = Some municipal_responder)
            && is_not_null (pr_municipality_id p) = false) as ->.
    { destruct Hnm as [Hr|Hm].
      - rewrite bool_decide_false; [done|]. by intros [= ?].
      - rewrite Hm. apply andb_false_r. }
    simpl. rewrite bool_decide_true by done. eauto.
  - intros c' recipient' description' userId' options' id.
    unfold createAssistanceOffer.
    destruct (negb (truthy description') || _); [done|].
    set (profile := select_profile c' userId' db).
    set (isMunicipal := bool_decide (pr_role <$> profile = Some municipal_responder) && _).
    destruct (if isMunicipal && _ then _ else _) as [msg|] eqn:Hrefused; [done|].
    match goal with
    | |- context [insert_barangay_assistance_offer c' ?payload db] =>
        destruct (insert_barangay_assistance_offer c' payload db) as [[id' db']|e] eqn:Hins;
        [|done]
    end.
    simpl. intros [= ->].
    unfold insert_barangay_assistance_offer in Hins.
    apply bind_Ok in Hins as (? & _ & Hins).
    apply bind_Ok in Hins as (? & Hcheck%require_Ok & Hins).
    repeat (apply bind_Ok in Hins as (? & _ & Hins)).
    injection Hins as <- <-.
    eexists. split; [simpl; apply lookup_insert_eq|].
    intros Hself.
    apply insert_self_assistance_raises with (c := c') (db := db) in Hself as [Hno _].
    congruence.
  - intros c' o Hself. by apply insert_self_assistance_raises.
Qed.

(** C10 run on barangay 10: responder 101 of barangay 10 offers
    assistance to barangay 10. *)
Lemma createAssistanceOffer_refuses_own_barangay_witness :
  createAssistanceOffer (fx_ctx fx_responder 80 1000 0) 10 "Rice and water" fx_responder
    None fx_db
  = ((None, Some (Message "You cannot offer assistance to your own barangay.")), fx_db).
Proof.
  destruct (createAssistanceOffer_refuses_own_barangay
              (fx_ctx fx_responder 80 1000 0) 10 "Rice and water" fx_responder None fx_db
              (fx_profile barangay_responder (Some 10%N) (Some 1%N)))
    as [(msg & Hmsg) _].
  - by vm_compute.
  - done.
  - by left.
  - rewrite Hmsg. by vm_compute in Hmsg |- *.
Defined.

End AssistanceCreationRuns.

(* ===================================================================== *)
(** ** Trimming *)
(* ===================================================================== *)

Section Trimming.

Variables ws ws' : ascii → bool.
Hypothesis ws'_sub : ∀ c, ws' c = true → ws c = true.

Lemma ltrim_length (s : string) : (String.length (ltrim ws s) ≤ String.length s)%nat.
Proof. induction s as [|c s IH]; simpl; [lia|]. destruct (ws c); simpl; lia. Qed.

Lemma ltrim_fixed_head (c : ascii) (s : string) :
  ltrim ws (String c s) = String c s → ws c = false.
Proof.
  simpl. destruct (ws c); [|done]. intros Heq.
  pose proof (ltrim_length s) as Hlen. rewrite Heq in Hlen. simpl in Hlen. lia.
Qed.

Lemma ltrim_idemp (s : string) : ltrim ws (ltrim ws s) = ltrim ws s.
Proof.
  induction s as [|c s IH]; simpl; [done|].
  destruct (ws c) eqn:Hc; [done|]. simpl. by rewrite Hc.
Qed.

Lemma ltrim_fixed_sub (s : string) : ltrim ws s = s → ltrim ws' s = s.
Proof.
  destruct s as [|c s]; [done|]. intros Hc%ltrim_fixed_head. simpl.
  destruct (ws' c) eqn:Hc'; [|done]. apply ws'_sub in Hc'. congruence.
Qed.

Lemma rtrim_keeps_ltrim (s : string) : ltrim ws s = s → ltrim ws (rtrim ws s) = rtrim ws s.
Proof.
  destruct s as [|c s]; [done|]. intros Hc%ltrim_fixed_head. simpl.
  destruct (rtrim ws s); rewrite ?Hc; simpl; by rewrite Hc.
Qed.

Lemma rtrim_sub (s : string) : rtrim ws' (rtrim ws s) = rtrim ws s.
Proof.
  induction s as [|c s IH]; simpl; [done|].
  destruct (rtrim ws s) as [|d t] eqn:Ht.
  - destruct (ws c) eqn:Hc; simpl; [done|].
    destruct (ws' c) eqn:Hc'; [|done]. apply ws'_sub in Hc'. congruence.
  - simpl in *. by rewrite IH.
Qed.

Lemma trim_sub (s : string) : trim ws' (trim ws s) = trim ws s.
Proof.
  unfold trim.
  rewrite (ltrim_fixed_sub (rtrim ws (ltrim ws s))).
  - apply rtrim_sub.
  - apply rtrim_keeps_ltrim, ltrim_idemp.
Qed.

End Trimming.

(** What [TRIM] finds to strip after [String.prototype.trim]: nothing. *)
Lemma sql_trim_js_trim (s : string) : sql_trim (js_trim s) = js_trim s.
Proof.
  apply trim_sub. intros c Hc. unfold is_space in Hc. unfold is_js_space.
  rewrite Hc. by rewrite orb_true_r.
Qed.

(* ===================================================================== *)
(** ** Boundary requests: what a submission must carry *)
(* ===================================================================== *)

Section BoundarySubmission.

Lemma null_or_blank_js_trim (s : string) :
  holds (null_or_blank (Some (js_trim s))) = bool_decide (js_trim s = "").
Proof.
  unfold null_or_blank. simpl. rewrite sql_trim_js_trim.
  by case_bool_decide.
Qed.

(** C9 (as amended): called by an LGU-type actor, [submitBoundaryRequest]
    creates a pending request only when, after trimming, the barangay
    name, the contact e-mail and the contact phone are non-empty and the
    geometry is not null, and it does create one for every such input the
    tables accept (fresh id, known municipality and barangay); an input
    that misses one of the four fails with the service's message and
    creates nothing, and so does every failure.  Neither the service nor
    the database function looks at the shape of the e-mail or the phone:
    the two patterns are applied by the map form ([startDrawBoundary])
    before drawing starts. *)
Theorem submitBoundaryRequest_requires_presence
    (c : context) (municipalityId : uuid) (barangayId : option uuid)
    (barangayName : string) (boundaryGeojson : option jsonb)
    (contactEmail contactPhone : string) (description : option string)
    (db : database) :
  (∃ role, current_user_role db c = Some role ∧ role ∈ lgu_roles) →
  let out :=
    submitBoundaryRequest c municipalityId barangayId barangayName boundaryGeojson
      contactEmail contactPhone description db in
  (js_trim barangayName = "" ∨ boundaryGeojson = None
   ∨ js_trim contactEmail = "" ∨ js_trim contactPhone = "" →
     out = ({| success := false; requestId := None;
               error := Some (Message
                 "Submission failed. Contact email and phone are required.") |}, db))
  ∧ (success out.1 = false → out.2 = db)
  ∧ (success out.1 = true →
       js_trim barangayName ≠ "" ∧ is_Some boundaryGeojson
       ∧ js_trim contactEmail ≠ "" ∧ js_trim contactPhone ≠ ""
       ∧ requestId out.1 = Some (new_row_id c)
       ∧ barangay_boundary_requests db !! new_row_id c = None
       ∧ ∃ r, barangay_boundary_requests out.2
              = <[new_row_id c := r]> (barangay_boundary_requests db)
              ∧ r_status r = pending
              ∧ Some (r_requested_by r) = auth_uid c
              ∧ r_municipality_id r = municipalityId
              ∧ r_barangay_name r = js_trim barangayName
              ∧ Some (r_boundary_geojson r) = boundaryGeojson
              ∧ r_contact_email r = Some (js_trim contactEmail)
              ∧ r_contact_phone r = Some (js_trim contactPhone))
  ∧ (js_trim barangayName ≠ "" → is_Some boundaryGeojson →
     js_trim contactEmail ≠ "" → js_trim contactPhone ≠ "" →
     barangay_boundary_requests db !! new_row_id c = None →
     is_Some (municipalities db !! municipalityId) →
     (∀ b, barangayId = Some b → b ≠ zero_uuid → is_Some (barangays db !! b)) →
     success out.1 = true)
  ∧ (∀ selectedMunicipalityId newBarangayName boundaryContactEmail boundaryContactPhone,
       startDrawBoundary selectedMunicipalityId newBarangayName
         boundaryContactEmail boundaryContactPhone = None →
       test email_pattern (js_trim boundaryContactEmail) = true
       ∧ test ph_phone_pattern (remove_chars space_or_hyphen boundaryContactPhone) = true).
Proof.
  intros (role & Hrole & Hlgu) out. subst out.
  assert (∀ m n e ph, startDrawBoundary m n e ph = None →
            test email_pattern (js_trim e) = true
            ∧ test ph_phone_pattern (remove_chars space_or_hyphen ph) = true) as Hform.
  { intros m n e ph. unfold startDrawBoundary.
    repeat (case_match; try done). intros _.
    by repeat match goal with H : negb _ = false |- _ => apply negb_false_iff in H end. }
  unfold submitBoundaryRequest, submit_barangay_boundary_request.
  assert (holds (sql_not_in (current_user_role db c)
                   [lgu_responder; barangay_responder; municipal_responder]) = false) as ->.
  { rewrite Hrole. unfold sql_not_in, sql_in. simpl.
    rewrite bool_decide_true; [done|]. role_cases; subst; role_cases. }
  rewrite !null_or_blank_js_trim.
  assert (∃ uid p, auth_uid c = Some uid ∧ profiles db !! uid = Some p) as (uid & p & Huid & Hp).
  { unfold current_user_role, current_profile in Hrole.
    destruct (auth_uid c) as [uid|]; [|done]. simpl in Hrole.
    destruct (profiles db !! uid) as [p|] eqn:Hp; [|done]. eauto. }
  rewrite Huid.
  destruct (decide (js_trim barangayName = "")) as [Hn|Hn];
    [rewrite (bool_decide_true _ Hn) | rewrite (bool_decide_false _ Hn)].
  { simpl. split_and!; try done; intros; tauto. }
  destruct boundaryGeojson as [geo|].
  2:{ simpl. split_and!; try done; intros; tauto. }
  destruct (decide (js_trim contactEmail = "")) as [He|He];
    [rewrite (bool_decide_true _ He) | rewrite (bool_decide_false _ He)].
  { simpl. split_and!; try done; intros; tauto. }
  destruct (decide (js_trim contactPhone = "")) as [Hph|Hph];
    [rewrite (bool_decide_true _ Hph) | rewrite (bool_decide_false _ Hph)].
  { simpl. split_and!; try done; intros; tauto. }
  cbn [is_null fmap option_fmap option_map not_null mbind result_bind Sql.bind].
  rewrite sql_trim_js_trim.
  destruct (primary_key (barangay_boundary_requests db) (new_row_id c)) as [[]|e] eqn:Hpk.
  2:{ cbn. split_and!; try done; try (intros [?|[?|[?|?]]]; done); intros.
      assert (primary_key (barangay_boundary_requests db) (new_row_id c) = Ok ()) as Hok
        by (apply primary_key_Ok; assumption).
      congruence. }
  apply primary_key_Ok in Hpk.
  cbn [mbind result_bind Sql.bind].
  assert (references (profiles db) (Some uid) = Ok ()) as -> by (apply references_Ok; eauto).
  cbn [mbind result_bind Sql.bind].
  destruct (references (municipalities db) (Some municipalityId)) as [[]|e] eqn:Hmun.
  2:{ cbn. split_and!; try done; try (intros [?|[?|[?|?]]]; done); intros.
      assert (references (municipalities db) (Some municipalityId) = Ok ()) as Hok
        by (apply references_Ok; assumption).
      congruence. }
  cbn [mbind result_bind Sql.bind r_barangay_id].
  destruct (references (barangays db) (nullif (Some (default zero_uuid barangayId)) zero_uuid))
    as [[]|e] eqn:Hbrgy.
  2:{ cbn. split_and!; try done; try (intros [?|[?|[?|?]]]; done).
      intros _ _ _ _ _ _ Hb.
      exfalso. revert Hbrgy. unfold nullif.
      case_bool_decide as Hz; [done|].
      destruct barangayId as [b|]; [|done]. cbn [default] in *.
      assert (references (barangays db) (Some b) = Ok ()) as Hok
        by (apply references_Ok; eauto).
      unfold id. by rewrite Hok. }
  cbn. split_and!; try done.
  - intros [?|[?|[?|?]]]; done.
  - intros _. split_and!; try done.
    eexists. split; [reflexivity|]. cbn. rewrite !sql_trim_js_trim. by split_and!.
Qed.

(** C9 run by responder 104: a submission with contact e-mail "x" and
    phone "1" violates none of the presence requirements; the theorem's
    fourth part makes it succeed. *)
Lemma submitBoundaryRequest_requires_presence_witness :
  success (submitBoundaryRequest (fx_ctx fx_newcomer 50 601 0) 1 None "Tubod"
             (Some "polygon") "x" "1" None fx_db).1 = true.
Proof.
  apply (submitBoundaryRequest_requires_presence
           (fx_ctx fx_newcomer 50 601 0) 1 None "Tubod" (Some "polygon") "x" "1" None fx_db).
  - exists barangay_responder. split; [by vm_compute | role_cases].
  - intros H. by vm_compute in H.
  - by eexists.
  - intros H. by vm_compute in H.
  - intros H. by vm_compute in H.
  - by vm_compute.
  - eexists. vm_compute. reflexivity.
  - by intros b [=].
Defined.

(** C9 (as stated) fails: "x" is not a well-formed e-mail and "1" is not a
    Philippine phone number, and the request is created, pending. *)
Lemma boundary_request_created_with_malformed_contact :
  test email_pattern (js_trim "x") = false
  ∧ test ph_phone_pattern (remove_chars space_or_hyphen "1") = false
  ∧ (submitBoundaryRequest (fx_ctx fx_newcomer 50 601 0) 1 None "Tubod"
       (Some "polygon") "x" "1" None fx_db).1
    = {| success := true; requestId := Some 601%N; error := None |}
  ∧ r_status <$>
      barangay_boundary_requests
        (submitBoundaryRequest (fx_ctx fx_newcomer 50 601 0) 1 None "Tubod"
           (Some "polygon") "x" "1" None fx_db).2 !! 601%N
    = Some pending
  ∧ (barangay_boundary_requests
       (submitBoundaryRequest (fx_ctx fx_newcomer 50 601 0) 1 None "Tubod"
          (Some "polygon") "x" "1" None fx_db).2 !! 601%N ≫= r_contact_email)
    = Some "x".
Proof. by vm_compute. Qed.

End BoundarySubmission.

(* ===================================================================== *)
(** ** Barangay status: the description gate and the current status *)
(* ===================================================================== *)

Section BarangayStatus.

Global Instance created_at_desc_trans : Transitive created_at_desc.
Proof. intros x y z. unfold created_at_desc. lia. Qed.

Global Instance created_at_desc_total : Total created_at_desc.
Proof. intros x y. unfold created_at_desc. lia. Qed.

(** The loop keeps, per barangay, the first row of the list. *)
Lemma latest_by_barangay_lookup
    (l : list (uuid * barangay_status_update)) (b : uuid) :
  latest_by_barangay l !! b
  = List.find (fun s => bool_decide (s_barangay_id s.2 = b)) l.
Proof.
  unfold latest_by_barangay.
  assert (∀ m : gmap uuid (uuid * barangay_status_update),
    foldl (fun latestByBarangay s =>
             if bool_decide (is_Some (latestByBarangay !! s_barangay_id s.2))
             then latestByBarangay
             else <[s_barangay_id s.2 := s]> latestByBarangay) m l !! b
    = match m !! b with
      | Some x => Some x
      | None => List.find (fun s => bool_decide (s_barangay_id s.2 = b)) l
      end) as Hgen.
  { induction l as [|s l IH]; intros m; simpl.
    - by destruct (m !! b).
    - rewrite IH. destruct (decide (s_barangay_id s.2 = b)) as [Hb|Hb].
      + rewrite (bool_decide_true (s_barangay_id s.2 = b)) by done. rewrite Hb.
        destruct (m !! b) as [x|] eqn:Hm.
        * rewrite bool_decide_true by eauto. by rewrite Hm.
        * rewrite bool_decide_false by (by intros [? ?]). by rewrite lookup_insert_eq.
      + rewrite (bool_decide_false (s_barangay_id s.2 = b)) by done.
        case_bool_decide; [done|]. by rewrite lookup_insert_ne. }
  by rewrite Hgen, lookup_empty.
Qed.

(** In a list sorted by [created_at] descending, a row that is strictly
    newer than every other row of its barangay is the first one found. *)
Lemma find_newest
    (l : list (uuid * barangay_status_update)) (y : uuid * barangay_status_update) :
  StronglySorted created_at_desc l →
  y ∈ l →
  (∀ x, x ∈ l → s_barangay_id x.2 = s_barangay_id y.2 → x ≠ y →
        (s_created_at x.2 < s_created_at y.2)%Z) →
  List.find (fun s => bool_decide (s_barangay_id s.2 = s_barangay_id y.2)) l = Some y.
Proof.
  induction 1 as [|a l Hsorted IH Hall]; intros Hy Hnew.
  - by apply elem_of_nil in Hy.
  - simpl. case_bool_decide as Ha.
    + destruct (decide (a = y)) as [->|Hne]; [done|].
      apply elem_of_cons in Hy as [->|Hy]; [done|].
      pose proof (Hnew a (list_elem_of_here _ _) Ha Hne) as Hlt.
      rewrite Forall_forall in Hall. specialize (Hall y Hy).
      unfold created_at_desc in Hall. lia.
    + apply elem_of_cons in Hy as [->|Hy]; [done|].
      apply IH; [done|]. intros x Hx. apply Hnew. by right.
Qed.

Lemma elem_of_latest_statuses (db : database) (x : uuid * barangay_status_update) :
  x ∈ latest_statuses db ↔
  barangay_status_updates db !! x.1 = Some x.2
  ∧ s_barangay_id x.2 ∈ (approved_barangays db).*1.
Proof.
  unfold latest_statuses. rewrite merge_sort_Permutation.
  rewrite list_elem_of_In, List.filter_In, <- list_elem_of_In, bool_decide_eq_true.
  destruct x as [k s]. by rewrite elem_of_map_to_list.
Qed.

Lemma insert_barangay_status_update_Ok
    (c : context) (s : barangay_status_update) (db db' : database) :
  insert_barangay_status_update c s db = Ok db' →
  barangay_status_updates db !! new_row_id c = None
  ∧ db' = set_barangay_status_updates (insert (new_row_id c) s) db.
Proof.
  unfold insert_barangay_status_update.
  intros (? & _ & (? & Hpk%primary_key_Ok & (? & _ & (? & _ & [= <-])%bind_Ok)%bind_Ok)%bind_Ok)%bind_Ok.
  done.
Qed.

(** C8 (as amended): for a need status, [updateBarangayStatus] fails,
    inserting nothing, when the description is missing or has fewer than
    5 characters once surrounding white space is trimmed; when the trimmed
    description has at least 5 characters and the table accepts the row,
    the call succeeds, the row (with the trimmed description) is added
    under the new id, and, the barangay being an approved one and the
    clock having moved past the barangay's earlier rows, that row is the
    one [fetchBarangaysWithStatus] reports as the barangay's status. *)
Theorem updateBarangayStatus_description_gate
    (c : context) (barangayId : uuid) (status : barangay_status_enum) (userId : uuid)
    (options : option status_options) (db : database) :
  isNeedStatus status = true →
  let description := default "" (options ≫= opt_description) in
  let row := status_payload c barangayId status userId options in
  ((String.length (js_trim description) < 5)%nat →
     updateBarangayStatus c barangayId status userId options db
     = (Some (Message "Please provide a short description (at least 5 characters)."), db))
  ∧ ((5 ≤ String.length (js_trim description))%nat →
     ∀ db', insert_barangay_status_update c row db = Ok db' →
       updateBarangayStatus c barangayId status userId options db = (None, db')
       ∧ barangay_status_updates db'
         = <[new_row_id c := row]> (barangay_status_updates db)
       ∧ s_status row = status
       ∧ s_description row = Some (js_trim description)
       ∧ ((∃ b, barangays db !! barangayId = Some b ∧ is_Some (b_boundary_approved_at b)) →
          (∀ k s, barangay_status_updates db !! k = Some s →
                  s_barangay_id s = barangayId → (s_created_at s < now c)%Z) →
          latest_by_barangay (latest_statuses db') !! barangayId = Some (new_row_id c, row)
          ∧ (∃ e, e ∈ fetchBarangaysWithStatus db' ∧ bws_id e = barangayId)
          ∧ ∀ e, e ∈ fetchBarangaysWithStatus db' → bws_id e = barangayId →
                 bws_status e = status
                 ∧ bws_statusUpdateId e = Some (new_row_id c)
                 ∧ bws_statusUpdatedAt e = Some (now c)
                 ∧ bws_statusDescription e = Some (js_trim description))).
Proof.
  intros Hneed description row. split.
  - intros Hshort. unfold updateBarangayStatus. rewrite Hneed. simpl.
    fold description.
    assert ((String.length (js_trim description) <? 5)%nat = true) as ->
      by by apply Nat.ltb_lt.
    by rewrite orb_true_r.
  - intros Hlong db' Hins.
    assert (∃ d, options ≫= opt_description = Some d ∧ description = d) as (d & Hd & Hdd).
    { subst description. destruct (options ≫= opt_description) as [d|]; [eauto|].
      simpl in Hlong. lia. }
    assert (s_description row = Some (js_trim description)) as Hdesc.
    { subst row. unfold status_payload. simpl. by rewrite Hneed, Hd, Hdd. }
    pose proof Hins as [Hfresh ->]%insert_barangay_status_update_Ok.
    split_and!; try done.
    { unfold updateBarangayStatus. rewrite Hneed. simpl. fold description. fold row.
      rewrite Hd. simpl.
      assert (truthy d = true) as ->.
      { rewrite Hdd in Hlong. destruct d; [simpl in Hlong; lia | done]. }
      assert ((String.length (js_trim description) <? 5)%nat = false) as ->
        by (apply Nat.ltb_ge; lia).
      simpl. by rewrite Hins. }
    intros (b & Hb & Happroved) Hclock.
    set (db' := set_barangay_status_updates (insert (new_row_id c) row) db).
    assert ((barangayId, b) ∈ approved_barangays db') as Hlisted.
    { unfold approved_barangays. simpl.
      rewrite list_elem_of_In, List.filter_In, <- list_elem_of_In, elem_of_map_to_list.
      split; [done|]. simpl. by destruct Happroved as [t ->]. }
    assert (latest_by_barangay (latest_statuses db') !! barangayId
            = Some (new_row_id c, row)) as Hlatest.
    { rewrite latest_by_barangay_lookup.
      apply (find_newest _ (new_row_id c, row)).
      - apply (StronglySorted_merge_sort _).
      - apply elem_of_latest_statuses. simpl. split; [apply lookup_insert_eq|].
        apply list_elem_of_fmap. by exists (barangayId, b).
      - intros [k s] [Hk _]%elem_of_latest_statuses Hsame Hne. simpl in *.
        destruct (decide (k = new_row_id c)) as [->|Hkne].
        + rewrite lookup_insert_eq in Hk. injection Hk as <-. by destruct Hne.
        + rewrite lookup_insert_ne in Hk by done. by apply (Hclock k). }
    split_and!; try done.
    + eexists. split; [apply list_elem_of_fmap; eexists; split; [reflexivity|exact Hlisted]|].
      done.
    + intros e (x & -> & Hx)%list_elem_of_fmap Hid. simpl in Hid. subst barangayId.
      cbn [bws_status bws_statusUpdateId bws_statusUpdatedAt bws_statusDescription fst].
      rewrite Hlatest. split_and!; [reflexivity | reflexivity | reflexivity | exact Hdesc].
Qed.

End BarangayStatus.

Section BarangayStatusRuns.

(** C8 run on barangay 10: an empty description fails; "Severe flooding
    on Main St" succeeds and row 800 becomes the status shown for the
    barangay. *)
Lemma updateBarangayStatus_description_gate_witness :
  updateBarangayStatus (fx_ctx fx_responder 90 800 0) 10 active_disaster fx_responder
    (fx_status_options "") fx_db
  = (Some (Message "Please provide a short description (at least 5 characters)."), fx_db)
  ∧ updateBarangayStatus (fx_ctx fx_responder 90 800 0) 10 active_disaster fx_responder
      (fx_status_options "Severe flooding on Main St") fx_db
    = (None, fx_db_flooded)
  ∧ fst <$> latest_by_barangay (latest_statuses fx_db_flooded) !! 10%N = Some 800%N.
Proof.
  assert (isNeedStatus active_disaster = true) as Hneed by done.
  split.
  - apply (updateBarangayStatus_description_gate
             (fx_ctx fx_responder 90 800 0) 10 active_disaster fx_responder
             (fx_status_options "") fx_db Hneed).
    vm_compute. lia.
  - destruct (updateBarangayStatus_description_gate
                (fx_ctx fx_responder 90 800 0) 10 active_disaster fx_responder
                (fx_status_options "Severe flooding on Main St") fx_db Hneed)
      as [_ Hlong].
    destruct (Hlong ltac:(vm_compute; lia) fx_db_flooded ltac:(vm_compute; reflexivity))
      as (Hok & _ & _ & _ & Hcurrent).
    split; [exact Hok|].
    destruct Hcurrent as [Hlatest _].
    + eexists. split; [vm_compute; reflexivity | by eexists].
    + intros k s Hk Hb.
      assert (k = 700%N ∨ barangay_status_updates fx_db !! k = None) as [->|Hnone].
      { destruct (decide (k = 700%N)); [by left | right].
        unfold fx_db. cbn [barangay_status_updates]. simpl.
        by rewrite lookup_insert_ne, lookup_empty. }
      * vm_compute in Hk. injection Hk as <-. by vm_compute in Hb.
      * congruence.
    + by rewrite Hlatest.
Defined.

(** C8 (as stated) fails: a description of eight characters, six of them
    padding, is supplied with a need status and the update fails. *)
Lemma padded_description_is_refused :
  isNeedStatus active_disaster = true
  ∧ String.length "   ab   " = 8%nat
  ∧ updateBarangayStatus (fx_ctx fx_responder 90 800 0) 10 active_disaster fx_responder
      (fx_status_options "   ab   ") fx_db
    = (Some (Message "Please provide a short description (at least 5 characters)."), fx_db).
Proof. by vm_compute. Qed.

End BarangayStatusRuns.

(* ===================================================================== *)
(** ** Lists *)
(* ===================================================================== *)

Section ListFacts.

Lemma find_None_iff {A} (f : A → bool) (l : list A) :
  List.find f l = None ↔ ∀ x, x ∈ l → f x = false.
Proof.
  split.
  - intros H x Hx. apply (List.find_none f l H). by apply list_elem_of_In.
  - intros H. destruct (List.find f l) as [x|] eqn:Hf; [|done].
    apply List.find_some in Hf as [Hin Hfx]. apply list_elem_of_In in Hin.
    rewrite (H x Hin) in Hfx. done.
Qed.

End ListFacts.

(* ===================================================================== *)
(** ** Affiliation: memberships across sign-up, joining and leaving *)
(* ===================================================================== *)

Section AffiliationLifecycle.

Lemma open_memberships_app (who : uuid) (ms extra : list lgu_barangay_membership) :
  length (List.filter (open_membership_of (Some who)) (ms ++ extra))
  = (length (List.filter (open_membership_of (Some who)) ms)
     + length (List.filter (open_membership_of (Some who)) extra))%nat.
Proof. by rewrite List.filter_app, length_app. Qed.

Lemma handle_new_user_memberships
    (c : context) (id : uuid) (email : option string) (meta : raw_user_meta_data)
    (db db' : database) :
  handle_new_user c id email meta db = Ok db' →
  lgu_barangay_memberships db' = lgu_barangay_memberships db
  ∨ ∃ b, lgu_barangay_memberships db'
         = (lgu_barangay_memberships db ++
              [{| m_id := new_membership_id c; m_profile_id := id; m_barangay_id := b;
                  m_is_creator := false; m_left_at := None; m_leave_reason := None |}])%list.
Proof.
  unfold handle_new_user.
  set (r := match md_role meta with Some s => default resident (user_role_of_text s) | None => resident end).
  destruct (if bool_decide (r ∈ [municipal_responder; barangay_responder]) then _ else _)
    as [vm vb].
  intros H.
  repeat (apply bind_Ok in H as [[] [_ H]]).
  injection H as <-.
  destruct vb as [b|]; [destruct (bool_decide (r = barangay_responder))|];
    destruct (bool_decide (r ∈ lgu_roles)); simpl; eauto.
Qed.

(** X1: joining, leaving and signing up keep "at most one open
    membership per profile": [join_barangay] refuses a caller who holds
    one, [leave_barangay] only closes rows, and the sign-up trigger opens
    one for the new profile only. *)
Theorem affiliation_calls_keep_single_open (db : database) :
  (∀ who, (open_memberships who db ≤ 1)%nat) →
  (∀ c b ok db', join_barangay c b db = Ok (ok, db') →
     ∀ who, (open_memberships who db' ≤ 1)%nat)
  ∧ (∀ c reason ok db', leave_barangay c reason db = Ok (ok, db') →
       ∀ who, (open_memberships who db' ≤ 1)%nat)
  ∧ (∀ c id email meta db',
       open_memberships id db = 0%nat →
       handle_new_user c id email meta db = Ok db' →
       ∀ who, (open_memberships who db' ≤ 1)%nat).
Proof.
  intros Hinv. split_and!.
  - intros c b ok db' H. by eapply join_barangay_single_open.
  - intros c reason ok db' H. by eapply leave_barangay_single_open.
  - intros c id email meta db' Hnone H who.
    apply handle_new_user_memberships in H as [H|[b H]];
      unfold open_memberships in *; rewrite H; [done|].
    rewrite open_memberships_app. cbn [List.filter].
    destruct (open_membership_of (Some who) _) eqn:Hopen; cbn [length].
    + apply open_membership_of_Some in Hopen as [Hid _]. cbn in Hid. subst who.
      rewrite Hnone. lia.
    + specialize (Hinv who). lia.
Qed.

End AffiliationLifecycle.

Section AffiliationLifecycleRuns.

(** X1 run on the town: responder 104 joins barangay 10 and responder
    101 leaves barangay 10; each still holds at most one open membership. *)
Lemma affiliation_calls_keep_single_open_witness :
  (open_memberships fx_newcomer fx_db_newcomer_joined ≤ 1)%nat
  ∧ (open_memberships fx_responder
       (after (leave_barangay (fx_ctx fx_responder 33 0 0) (Some "reassigned") fx_db)) ≤ 1)%nat.
Proof.
  assert (∀ who, (open_memberships who fx_db ≤ 1)%nat) as Hinv.
  { intros who. unfold open_memberships. cbn.
    destruct (open_membership_of _ _); simpl; lia. }
  destruct (affiliation_calls_keep_single_open fx_db Hinv) as (Hjoin & Hleave & _).
  split.
  - apply (Hjoin (fx_ctx fx_newcomer 40 0 302) 10%N true). vm_compute. reflexivity.
  - apply (Hleave (fx_ctx fx_responder 33 0 0) (Some "reassigned") true).
    vm_compute. reflexivity.
Defined.

End AffiliationLifecycleRuns.

Section Joining.

Lemma existsb_open_membership (uid : uuid) (db : database) :
  existsb (open_membership_of (Some uid)) (lgu_barangay_memberships db) = false
  ↔ open_memberships uid db = 0%nat.
Proof.
  unfold open_memberships.
  induction (lgu_barangay_memberships db) as [|m ms IH]; [done|].
  cbn [existsb List.filter]. destruct (open_membership_of (Some uid) m); simpl; [|done].
  split; done.
Qed.

Lemma holds_sql_not_in {A} `{EqDecision A} (a : option A) (l : list A) :
  holds (sql_not_in a l) = true ↔ ∃ x, a = Some x ∧ x ∉ l.
Proof.
  destruct a as [x|]; simpl.
  - case_bool_decide as Hx; simpl; split; try done.
    + by intros (? & [= <-] & ?).
    + intros _. by exists x.
  - split; [done | by intros (? & ? & ?)].
Qed.

Lemma joinable_spec (b : barangay) :
  joinable b = true ↔ is_Some (b_boundary_approved_at b) ∧ is_Some (b_boundary_geojson b).
Proof.
  unfold joinable. destruct (b_boundary_approved_at b), (b_boundary_geojson b); simpl;
    split; try done; intros [[? ?] [? ?]]; done.
Qed.

(** What [join_barangay] does for a caller [uid] with profile [p], after
    its guards. *)
Lemma join_barangay_run
    (c : context) (uid b : uuid) (p : profile) (db : database) :
  auth_uid c = Some uid →
  profiles db !! uid = Some p →
  join_barangay c b db =
    if bool_decide (pr_role p ∈ lgu_roles)
       && bool_decide (open_memberships uid db = 0%nat)
       && bool_decide (joinable <$> barangays db !! b = Some true)
    then
      Ok (true,
          set_lgu_barangay_memberships
            (fun ms => (ms ++
               [{| m_id := new_membership_id c; m_profile_id := uid; m_barangay_id := b;
                   m_is_creator := false; m_left_at := None; m_leave_reason := None |}])%list)
            (set_profiles
               (alter (fun q =>
                  {| pr_role := pr_role q;
                     pr_proof_of_employment_url := pr_proof_of_employment_url q;
                     pr_barangay_id := Some b;
                     pr_municipality_id := b_municipality_id <$> barangays db !! b;
                     pr_email := pr_email q |}) uid) db))
    else Ok (false, db).
Proof.
  intros Huid Hp. unfold join_barangay.
  assert (current_user_role db c = Some (pr_role p)) as Hrole.
  { unfold current_user_role, current_profile. rewrite Huid. simpl. by rewrite Hp. }
  rewrite Hrole, Huid.
  destruct (holds (sql_not_in _ _)) eqn:Hguard.
  - apply holds_sql_not_in in Hguard as (x & [= <-] & Hx).
    by rewrite (bool_decide_eq_false_2 _ Hx).
  - assert (pr_role p ∈ lgu_roles) as Hin.
    { destruct (decide (pr_role p ∈ lgu_roles)) as [|Hn]; [done|].
      assert (holds (sql_not_in (Some (pr_role p)) lgu_roles) = true) as Hyes
        by (apply holds_sql_not_in; eauto).
      congruence. }
    rewrite (bool_decide_eq_true_2 _ Hin). cbn [andb].
    destruct (existsb _ _) eqn:Hex.
    + rewrite bool_decide_eq_false_2; [done|].
      rewrite <- existsb_open_membership. congruence.
    + rewrite bool_decide_eq_true_2 by (by apply existsb_open_membership). cbn [andb].
      destruct (barangays db !! b) as [v|]; simpl; [|done].
      destruct (joinable v) eqn:Hj; unfold joinable in Hj; rewrite Hj; simpl; [|done].
      destruct (b_boundary_approved_at v), (b_boundary_geojson v); done.
Qed.

Lemma open_memberships_opened (who : uuid) (m : lgu_barangay_membership) (db : database) :
  open_memberships who
    (set_lgu_barangay_memberships (fun ms => (ms ++ [m])%list) db)
  = (open_memberships who db
     + (if open_membership_of (Some who) m then 1 else 0))%nat.
Proof.
  unfold open_memberships. cbn. rewrite open_memberships_app. cbn.
  by destruct (open_membership_of (Some who) m).
Qed.

(** X2: for a caller with a profile, [join_barangay] answers TRUE exactly
    when the role is an LGU role, the caller holds no open membership
    and the barangay has an approved boundary with its geometry; it then
    assigns the profile to the barangay and its municipality and opens
    one membership, touching no other profile and no barangay.  In every
    other case it answers FALSE and changes nothing; it never raises. *)
Theorem join_barangay_spec
    (c : context) (uid b : uuid) (p : profile) (db : database) :
  auth_uid c = Some uid →
  profiles db !! uid = Some p →
  (∃ ok db', join_barangay c b db = Ok (ok, db') ∧ (ok = false → db' = db))
  ∧ ((∃ db', join_barangay c b db = Ok (true, db')) ↔
       pr_role p ∈ lgu_roles
       ∧ open_memberships uid db = 0%nat
       ∧ ∃ v, barangays db !! b = Some v
              ∧ is_Some (b_boundary_approved_at v) ∧ is_Some (b_boundary_geojson v))
  ∧ (∀ db', join_barangay c b db = Ok (true, db') →
       (∃ v, barangays db !! b = Some v
             ∧ profiles db' !! uid
               = Some {| pr_role := pr_role p;
                         pr_proof_of_employment_url := pr_proof_of_employment_url p;
                         pr_barangay_id := Some b;
                         pr_municipality_id := Some (b_municipality_id v);
                         pr_email := pr_email p |})
       ∧ (∀ other, other ≠ uid → profiles db' !! other = profiles db !! other)
       ∧ open_memberships uid db' = 1%nat
       ∧ (∀ who, who ≠ uid → open_memberships who db' = open_memberships who db)
       ∧ barangays db' = barangays db
       ∧ barangay_boundary_requests db' = barangay_boundary_requests db).
Proof.
  intros Huid Hp. rewrite (join_barangay_run c uid b p db Huid Hp).
  destruct (bool_decide (pr_role p ∈ lgu_roles)) eqn:Hrole; cbn [andb];
    [apply bool_decide_eq_true in Hrole|apply bool_decide_eq_false in Hrole].
  2:{ split_and!; [eauto| |done]. split; [by intros [? ?]|by intros [? _]]. }
  destruct (bool_decide (open_memberships uid db = 0%nat)) eqn:Hopen; cbn [andb];
    [apply bool_decide_eq_true in Hopen|apply bool_decide_eq_false in Hopen].
  2:{ split_and!; [eauto| |done]. split; [by intros [? ?]|by intros (_ & ? & _)]. }
  destruct (bool_decide (joinable <$> barangays db !! b = Some true)) eqn:Hb;
    [apply bool_decide_eq_true in Hb|apply bool_decide_eq_false in Hb].
  2:{ split_and!; [eauto| |done]. split; [by intros [? ?]|].
      intros (_ & _ & v & Hv & Ha & Hg). destruct Hb. rewrite Hv. simpl. f_equal.
      by apply joinable_spec. }
  destruct (barangays db !! b) as [v|] eqn:Hv; [|done].
  injection Hb as Hb. apply joinable_spec in Hb as [Ha Hg].
  split_and!.
  - eexists _, _. split; [done|done].
  - split; [|eauto]. intros _. split_and!; [done|done|]. by exists v.
  - intros db' [= <-]. cbn. split_and!.
    + exists v. split; [done|]. by rewrite lookup_alter_eq, Hp.
    + intros other Hne. by rewrite lookup_alter_ne.
    + unfold open_memberships in *. cbn. rewrite open_memberships_app, Hopen. cbn.
      unfold open_membership_of. cbn. by rewrite bool_decide_eq_true_2.
    + intros who Hne. unfold open_memberships. cbn. rewrite open_memberships_app. cbn.
      assert (open_membership_of (Some who)
                {| m_id := new_membership_id c; m_profile_id := uid; m_barangay_id := b;
                   m_is_creator := false; m_left_at := None; m_leave_reason := None |}
              = false) as ->; [|simpl; lia].
      apply not_true_is_false. rewrite open_membership_of_Some. cbn. by intros [? _].
    + done.
    + done.
Qed.

End Joining.

Section JoiningRuns.

(** X2 run for responder 104 and barangay 10. *)
Lemma join_barangay_spec_witness :
  (∃ db', join_barangay (fx_ctx fx_newcomer 40 0 302) 10 fx_db = Ok (true, db')) ↔
  pr_role (fx_profile barangay_responder None None) ∈ lgu_roles
  ∧ open_memberships fx_newcomer fx_db = 0%nat
  ∧ ∃ v, barangays fx_db !! 10%N = Some v
         ∧ is_Some (b_boundary_approved_at v) ∧ is_Some (b_boundary_geojson v).
Proof.
  refine (proj1 (proj2 (join_barangay_spec (fx_ctx fx_newcomer 40 0 302) fx_newcomer 10
                          (fx_profile barangay_responder None None) fx_db _ _))).
  - reflexivity.
  - vm_compute. reflexivity.
Defined.

End JoiningRuns.

Section Leaving.

Lemma filter_fmap_length_lt {A} (P : A → bool) (f : A → A) (l : list A) (m : A) :
  (∀ x, P (f x) = true → P x = true) →
  m ∈ l → P m = true → P (f m) = false →
  (length (List.filter P (f <$> l)) < length (List.filter P l))%nat.
Proof.
  intros Hf Hm HPm HPfm. induction l as [|x l IH]; [by apply elem_of_nil in Hm|].
  rewrite fmap_cons. cbn [List.filter].
  apply elem_of_cons in Hm as [<-|Hm].
  - rewrite HPfm, HPm. cbn [length].
    pose proof (filter_fmap_length_le P f l Hf). lia.
  - specialize (IH Hm). destruct (P (f x)) eqn:Hfx.
    + rewrite (Hf x Hfx). cbn [length]. lia.
    + destruct (P x); cbn [length]; lia.
Qed.

(** What [leave_barangay] does once it has found the open membership. *)
Lemma leave_barangay_Ok_true
    (c : context) (reason : option string) (db db' : database) :
  leave_barangay c reason db = Ok (true, db') →
  ∃ v, List.find (open_membership_of (auth_uid c)) (lgu_barangay_memberships db) = Some v
    ∧ holds (sql_not_in (current_user_role db c) lgu_roles) = false
    ∧ lgu_barangay_memberships db'
      = (fun m =>
           if bool_decide (m_id m = m_id v)
           then {| m_id := m_id m; m_profile_id := m_profile_id m;
                   m_barangay_id := m_barangay_id m; m_is_creator := m_is_creator m;
                   m_left_at := Some (now c);
                   m_leave_reason := nullif (sql_trim <$> reason) "" |}
           else m) <$> lgu_barangay_memberships db
    ∧ barangays db' = barangays db
    ∧ profiles db'
      = match auth_uid c with
        | Some uid =>
            alter (fun p =>
              {| pr_role := pr_role p;
                 pr_proof_of_employment_url := pr_proof_of_employment_url p;
                 pr_barangay_id := None;
                 pr_municipality_id := None;
                 pr_email := pr_email p |}) uid (profiles db)
        | None => profiles db
        end.
Proof.
  unfold leave_barangay.
  destruct (holds _) eqn:Hguard; [by intros [= ?]|].
  destruct (List.find _ _) as [v|]; [|by intros [= ?]].
  intros [= <-]. exists v. split_and!; try done; by destruct (auth_uid c).
Qed.

(** X3: leaving, then joining again.  A successful [leaveBarangay]
    leaves the responder with fewer open memberships than before and
    with a profile assigned to no barangay and no municipality.  If the
    responder held at most one open membership (which an approval can
    break), none is left, and the responder can join any barangay that
    has an approved boundary, which opens exactly one membership and
    assigns the profile to that barangay and its municipality.  If one
    is still open, [joinBarangay] is refused and changes nothing. *)
Theorem leave_then_join
    (c c' : context) (uid : uuid) (p : profile) (reason : option string)
    (b : uuid) (v : barangay) (db db1 : database) :
  auth_uid c = Some uid →
  auth_uid c' = Some uid →
  profiles db !! uid = Some p →
  leaveBarangay c reason db = ((true, None), db1) →
  barangays db !! b = Some v →
  is_Some (b_boundary_approved_at v) →
  is_Some (b_boundary_geojson v) →
  (open_memberships uid db1 < open_memberships uid db)%nat
  ∧ current_user_barangay_id db1 c' = None
  ∧ current_user_municipality_id db1 c' = None
  ∧ ((open_memberships uid db ≤ 1)%nat →
     open_memberships uid db1 = 0%nat
     ∧ ∃ db2, joinBarangay c' b db1 = ((true, None), db2)
              ∧ open_memberships uid db2 = 1%nat
              ∧ current_user_barangay_id db2 c' = Some b
              ∧ current_user_municipality_id db2 c' = Some (b_municipality_id v))
  ∧ ((0 < open_memberships uid db1)%nat →
     joinBarangay c' b db1
     = ((false,
         Some (Message
           "Could not join. You may already be in a barangay or it is not available.")),
        db1)).
Proof.
  intros Huid Huid' Hp Hleave Hv Ha Hg.
  unfold leaveBarangay, rpc_outcome in Hleave.
  destruct (leave_barangay c _ db) as [[[] dbx]|e] eqn:Hrpc; try done.
  injection Hleave as ->.
  apply leave_barangay_Ok_true in Hrpc as (m & Hfind & Hguard & Hms & Hbs & Hps).
  rewrite Huid in Hfind, Hps.
  assert (open_memberships uid db1 < open_memberships uid db)%nat as Hless.
  { unfold open_memberships. rewrite Hms.
    apply List.find_some in Hfind as [Hin Hopen]. apply list_elem_of_In in Hin.
    apply (filter_fmap_length_lt _ _ _ m); [|done|done|].
    - intros x. case_bool_decide; [|done].
      unfold open_membership_of at 1. cbn. by rewrite andb_false_r.
    - rewrite bool_decide_eq_true_2 by done.
      unfold open_membership_of. cbn. by rewrite andb_false_r. }
  assert (pr_role p ∈ lgu_roles) as Hrole.
  { unfold current_user_role, current_profile in Hguard. rewrite Huid in Hguard.
    simpl in Hguard. rewrite Hp in Hguard. simpl in Hguard.
    destruct (decide (pr_role p ∈ lgu_roles)) as [|Hn]; [done|].
    by rewrite (bool_decide_eq_false_2 _ Hn) in Hguard. }
  set (p1 := {| pr_role := pr_role p;
                pr_proof_of_employment_url := pr_proof_of_employment_url p;
                pr_barangay_id := None; pr_municipality_id := None;
                pr_email := pr_email p |}).
  assert (profiles db1 !! uid = Some p1) as Hp1.
  { by rewrite Hps, lookup_alter_eq, Hp. }
  split_and!; [done| | | |].
  - unfold current_user_barangay_id, current_profile. rewrite Huid'. simpl. by rewrite Hp1.
  - unfold current_user_municipality_id, current_profile. rewrite Huid'. simpl. by rewrite Hp1.
  - intros Hone. assert (open_memberships uid db1 = 0%nat) as Hzero by lia.
    split; [done|].
    unfold joinBarangay. rewrite (join_barangay_run c' uid b p1 db1 Huid' Hp1).
    rewrite (bool_decide_eq_true_2 _ Hrole).
    rewrite (bool_decide_eq_true_2 _ Hzero).
    rewrite Hbs, Hv. cbn [fmap option_fmap option_map andb].
    rewrite (proj2 (joinable_spec v) (conj Ha Hg)).
    rewrite bool_decide_eq_true_2 by done.
    eexists. split; [reflexivity|]. split_and!.
    + rewrite open_memberships_opened. unfold open_membership_of. cbn.
      rewrite bool_decide_eq_true_2 by done. cbn.
      change (open_memberships uid db1 + 1 = 1)%nat. lia.
    + unfold current_user_barangay_id, current_profile. rewrite Huid'. cbn.
      by rewrite lookup_alter_eq, Hp1.
    + unfold current_user_municipality_id, current_profile. rewrite Huid'. cbn.
      by rewrite lookup_alter_eq, Hp1.
  - intros Hstill.
    unfold joinBarangay. rewrite (join_barangay_run c' uid b p1 db1 Huid' Hp1).
    rewrite (bool_decide_eq_true_2 _ Hrole).
    rewrite (bool_decide_eq_false_2 (open_memberships uid db1 = 0%nat)) by lia.
    done.
Qed.

End Leaving.

Section LeavingRuns.

(** X3 run twice.  Responder 101, with one open membership, leaves
    barangay 10 and joins barangay 11.  Responder 104, left with two open
    memberships by an approval, leaves once: one membership stays open
    and joining barangay 11 is refused. *)
Lemma leave_then_join_witness :
  (open_memberships fx_responder
     (after (leave_barangay (fx_ctx fx_responder 33 0 0) (Some "reassigned") fx_db)) = 0%nat
   ∧ ∃ db2, joinBarangay (fx_ctx fx_responder 34 0 305) 11
              (after (leave_barangay (fx_ctx fx_responder 33 0 0) (Some "reassigned") fx_db))
            = ((true, None), db2)
            ∧ open_memberships fx_responder db2 = 1%nat)
  ∧ open_memberships fx_newcomer fx_db_newcomer_approved = 2%nat
  ∧ joinBarangay (fx_ctx fx_newcomer 46 0 307) 11
      (after (leave_barangay (fx_ctx fx_newcomer 45 0 0) None fx_db_newcomer_approved))
    = ((false,
        Some (Message
          "Could not join. You may already be in a barangay or it is not available.")),
       after (leave_barangay (fx_ctx fx_newcomer 45 0 0) None fx_db_newcomer_approved)).
Proof.
  split; [|split; [vm_compute; reflexivity|]].
  - destruct (leave_then_join (fx_ctx fx_responder 33 0 0) (fx_ctx fx_responder 34 0 305)
                fx_responder (fx_profile barangay_responder (Some 10%N) (Some 1%N))
                (Some "reassigned") 11 (fx_barangay 1 "Tungkop") fx_db
                (after (leave_barangay (fx_ctx fx_responder 33 0 0) (Some "reassigned")
                          fx_db)))
      as (_ & _ & _ & Hone & _).
    + reflexivity.
    + reflexivity.
    + vm_compute. reflexivity.
    + vm_compute. reflexivity.
    + vm_compute. reflexivity.
    + eexists. reflexivity.
    + eexists. reflexivity.
    + destruct Hone as (Hzero & db2 & Hjoin & Hopen & _); [vm_compute; lia|].
      split; [exact Hzero|]. exists db2. split; [exact Hjoin|exact Hopen].
  - destruct (leave_then_join (fx_ctx fx_newcomer 45 0 0) (fx_ctx fx_newcomer 46 0 307)
                fx_newcomer (fx_profile barangay_responder (Some 1000%N) (Some 2%N))
                None 11 (fx_barangay 1 "Tungkop") fx_db_newcomer_approved
                (after (leave_barangay (fx_ctx fx_newcomer 45 0 0) None
                          fx_db_newcomer_approved)))
      as (_ & _ & _ & _ & Hrefused).
    + reflexivity.
    + reflexivity.
    + vm_compute. reflexivity.
    + vm_compute. reflexivity.
    + vm_compute. reflexivity.
    + eexists. reflexivity.
    + eexists. reflexivity.
    + apply Hrefused. vm_compute. lia.
Defined.

End LeavingRuns.

Section ProfileMunicipality.

Lemma join_barangay_Ok_true (c : context) (b : uuid) (db db' : database) :
  join_barangay c b db = Ok (true, db') →
  ∃ uid v,
    auth_uid c = Some uid
    ∧ barangays db !! b = Some v
    ∧ barangays db' = barangays db
    ∧ profiles db'
      = alter (fun p =>
          {| pr_role := pr_role p;
             pr_proof_of_employment_url := pr_proof_of_employment_url p;
             pr_barangay_id := Some b;
             pr_municipality_id := Some (b_municipality_id v);
             pr_email := pr_email p |}) uid (profiles db).
Proof.
  unfold join_barangay.
  destruct (holds _); [by intros [= ?]|].
  destruct (existsb _ _); [by intros [= ?]|].
  destruct (barangays db !! b) as [v|]; [|by intros [= ?]].
  destruct (negb _); [by intros [= ?]|].
  destruct (auth_uid c) as [uid|]; [|done]. simpl.
  intros [= <-]. exists uid, v. done.
Qed.

(** X23: a profile's barangay lies in the profile's municipality, and
    joining, leaving and saving a boundary keep it so: if every profile
    assigned to a barangay carries that barangay's municipality, the
    same holds after a successful [join_barangay], [leave_barangay] or
    [save_barangay_boundary]. *)
Theorem affiliation_keeps_profile_in_municipality (db db' : database) (c : context) :
  (∀ uid p b v,
     profiles db !! uid = Some p → pr_barangay_id p = Some b →
     barangays db !! b = Some v → pr_municipality_id p = Some (b_municipality_id v)) →
  (∃ b, join_barangay c b db = Ok (true, db'))
  ∨ (∃ reason, leave_barangay c reason db = Ok (true, db'))
  ∨ (∃ bid geojson, save_barangay_boundary c bid geojson db = Ok (true, db')) →
  ∀ uid p b v,
    profiles db' !! uid = Some p → pr_barangay_id p = Some b →
    barangays db' !! b = Some v → pr_municipality_id p = Some (b_municipality_id v).
Proof.
  intros Hinv [[b0 Hjoin]|[[reason Hleave]|(bid & geo & Hsave)]] uid p b v Hp Hb Hv.
  - apply join_barangay_Ok_true in Hjoin as (who & v0 & _ & Hv0 & Hbs & Hps).
    rewrite Hbs in Hv. rewrite Hps in Hp.
    destruct (decide (uid = who)) as [->|Hne].
    + rewrite lookup_alter_eq in Hp. destruct (profiles db !! who) as [q|]; [|done].
      injection Hp as <-. simpl in *. injection Hb as <-. congruence.
    + rewrite lookup_alter_ne in Hp by done. eauto.
  - apply leave_barangay_Ok_true in Hleave as (m & _ & _ & _ & Hbs & Hps).
    rewrite Hbs in Hv. rewrite Hps in Hp.
    destruct (auth_uid c) as [who|]; [|eauto].
    destruct (decide (uid = who)) as [->|Hne].
    + rewrite lookup_alter_eq in Hp. destruct (profiles db !! who) as [q|]; [|done].
      injection Hp as <-. done.
    + rewrite lookup_alter_ne in Hp by done. eauto.
  - revert Hsave. unfold save_barangay_boundary.
    destruct (holds _); [by intros [= ?]|].
    destruct (is_distinct_from _ _); [by intros [= ?]|].
    destruct (bid ≫= _) as [[k b0]|] eqn:Hk; [|by intros [= ?]].
    intros [= <-]. cbn in Hp, Hv.
    destruct bid as [k'|]; [|done]. simpl in Hk.
    destruct (barangays db !! k') as [b1|] eqn:Hb1; [|done]. injection Hk as <- <-.
    destruct (decide (b = k')) as [->|Hne].
    + rewrite lookup_insert_eq in Hv. injection Hv as <-. simpl. eauto.
    + rewrite lookup_insert_ne in Hv by done. eauto.
Qed.

End ProfileMunicipality.

Section ProfileMunicipalityRuns.

(** X23 run: responder 104 joins barangay 10 of municipality 1. *)
Lemma affiliation_keeps_profile_in_municipality_witness :
  pr_municipality_id (fx_profile barangay_responder (Some 10%N) (Some 1%N))
  = Some (b_municipality_id (fx_barangay 1 "Poblacion")).
Proof.
  assert (∀ uid p b v,
            profiles fx_db !! uid = Some p → pr_barangay_id p = Some b →
            barangays fx_db !! b = Some v →
            pr_municipality_id p = Some (b_municipality_id v)) as Hinv.
  { intros uid p b v Hp Hb Hv. apply elem_of_map_to_list in Hp. vm_compute in Hp.
    repeat (apply elem_of_cons in Hp as [Hp|Hp];
            [injection Hp as -> ->; try discriminate Hb|]);
      [|by apply elem_of_nil in Hp].
    injection Hb as <-. vm_compute in Hv. injection Hv as <-. reflexivity. }
  apply (affiliation_keeps_profile_in_municipality fx_db fx_db_newcomer_joined
           (fx_ctx fx_newcomer 40 0 302) Hinv
           (or_introl (ex_intro _ 10%N eq_refl)) fx_newcomer _ 10%N).
  - vm_compute. reflexivity.
  - reflexivity.
  - vm_compute. reflexivity.
Defined.

End ProfileMunicipalityRuns.

(* ===================================================================== *)
(** ** Boundary requests: who reviews, and what a rejection changes *)
(* ===================================================================== *)

Section ReviewScope.

(** X4: a boundary request is reviewed only by an administrator or by a
    municipal responder of the request's municipality.  For every other
    caller (no profile, another role, or a municipal responder assigned
    to a different municipality) approving and rejecting answer FALSE
    and leave the database as it was. *)
Theorem boundary_review_denied_outside_authority
    (c : context) (id : uuid) (reason : option string) (db : database) :
  (∀ role, current_user_role db c = Some role →
     (role ∉ admin_roles)
     ∧ (role = municipal_responder →
        ∃ m, current_user_municipality_id db c = Some m
             ∧ ∀ r, pending_request db id = Some r → r_municipality_id r ≠ m)) →
  approve_barangay_boundary_request c id db = Ok (false, db)
  ∧ reject_barangay_boundary_request c id reason db = Ok (false, db)
  ∧ approveBoundaryRequest c id db = (false, db)
  ∧ rejectBoundaryRequest c id reason db = (false, db).
Proof.
  intros Hrole.
  assert (∀ reason', approve_barangay_boundary_request c id db = Ok (false, db)
          ∧ reject_barangay_boundary_request c id reason' db = Ok (false, db)) as H.
  { intros reason'.
    unfold approve_barangay_boundary_request, reject_barangay_boundary_request.
    destruct (current_user_role db c) as [role|] eqn:Hr; [|done].
    destruct (Hrole role eq_refl) as [Hna Hmun].
    assert (holds (sql_in (Some role) admin_roles) = false) as ->.
    { simpl. by rewrite (bool_decide_eq_false_2 _ Hna). }
    destruct (decide (role = municipal_responder)) as [->|Hne].
    - destruct (Hmun eq_refl) as (m & Hm & Hother). rewrite Hm.
      assert (holds (sql_eq (Some municipal_responder) (Some municipal_responder)) = true)
        as -> by done.
      destruct (pending_request db id) as [r|] eqn:Hreq; simpl; [|done].
      rewrite (bool_decide_eq_false_2 _ (Hother r eq_refl)). done.
    - assert (holds (sql_eq (Some role) (Some municipal_responder)) = false) as ->.
      { simpl. by rewrite (bool_decide_eq_false_2 _ Hne). }
      done. }
  unfold approveBoundaryRequest, rejectBoundaryRequest.
  destruct (H reason) as [Ha Hr]. destruct (H (Some (default "" reason))) as [_ Hr'].
  by rewrite Ha, Hr, Hr'.
Qed.

End ReviewScope.

Section ReviewScopeRuns.

(** X4 run on request 600 of municipality 2: the municipal responder of
    municipality 1 cannot approve it, the responder of barangay 10 cannot
    reject it. *)
Lemma boundary_review_denied_outside_authority_witness :
  approveBoundaryRequest (fx_ctx fx_municipal 32 1000 1001) 600 fx_db = (false, fx_db)
  ∧ rejectBoundaryRequest (fx_ctx fx_responder 32 1000 1001) 600 None fx_db = (false, fx_db).
Proof.
  split.
  - refine (proj1 (proj2 (proj2
      (boundary_review_denied_outside_authority (fx_ctx fx_municipal 32 1000 1001) 600 None
         fx_db _)))).
    intros role Hrole. vm_compute in Hrole. injection Hrole as <-. split.
    + intros Hin. role_cases.
    + intros _. exists 1%N. split; [vm_compute; reflexivity|].
      intros r Hr. vm_compute in Hr. injection Hr as <-. simpl. lia.
  - refine (proj2 (proj2 (proj2
      (boundary_review_denied_outside_authority (fx_ctx fx_responder 32 1000 1001) 600 None
         fx_db _)))).
    intros role Hrole. vm_compute in Hrole. injection Hrole as <-. split.
    + intros Hin. role_cases.
    + intros Heq. discriminate Heq.
Defined.

End ReviewScopeRuns.

Section Rejection.

(** X5: a successful rejection changes one row and nothing else: the
    request, which was pending, becomes rejected with the caller as
    reviewer, the time of the call and the trimmed reason (NULL when the
    reason is blank); barangays, profiles and memberships stay as they
    were, so the requester is assigned nowhere. *)
Theorem reject_changes_only_the_request
    (c : context) (id : uuid) (reason : option string) (db db' : database) :
  rejectBoundaryRequest c id reason db = (true, db') →
  ∃ r, barangay_boundary_requests db !! id = Some r
    ∧ r_status r = pending
    ∧ barangay_boundary_requests db'
      = <[id := {| r_requested_by := r_requested_by r;
                   r_municipality_id := r_municipality_id r;
                   r_barangay_id := r_barangay_id r;
                   r_barangay_name := r_barangay_name r;
                   r_boundary_geojson := r_boundary_geojson r;
                   r_contact_email := r_contact_email r;
                   r_contact_phone := r_contact_phone r;
                   r_description := r_description r;
                   r_status := rejected;
                   r_reviewed_by := auth_uid c;
                   r_reviewed_at := Some (now c);
                   r_rejection_reason :=
                     if bool_decide (sql_trim (default "" reason) = "")
                     then None else Some (sql_trim (default "" reason)) |}]>
          (barangay_boundary_requests db)
    ∧ barangays db' = barangays db
    ∧ profiles db' = profiles db
    ∧ lgu_barangay_memberships db' = lgu_barangay_memberships db
    ∧ municipalities db' = municipalities db.
Proof.
  unfold rejectBoundaryRequest, reject_barangay_boundary_request.
  destruct (holds (sql_not _)); [by intros [= ?]|].
  destruct (pending_request db id) as [r|] eqn:Hreq; [|by intros [= ?]].
  apply pending_request_Some in Hreq as [Hr Hst].
  intros [= <-]. exists r. split_and!; try done.
  cbn. apply map_eq. intros k. destruct (decide (k = id)) as [->|Hne].
  - rewrite lookup_alter_eq, lookup_insert_eq, Hr. done.
  - by rewrite lookup_alter_ne, lookup_insert_ne.
Qed.

End Rejection.

Section RejectionRuns.

(** X5 run: the admin rejects request 600 with a blank reason. *)
Lemma reject_changes_only_the_request_witness :
  ∃ r, barangay_boundary_requests fx_db !! 600%N = Some r
    ∧ r_status r = pending
    ∧ profiles (rejectBoundaryRequest (fx_ctx fx_admin 62 0 0) 600 (Some "  ") fx_db).2
      = profiles fx_db.
Proof.
  destruct (reject_changes_only_the_request (fx_ctx fx_admin 62 0 0) 600 (Some "  ") fx_db
              (rejectBoundaryRequest (fx_ctx fx_admin 62 0 0) 600 (Some "  ") fx_db).2)
    as (r & Hr & Hst & _ & _ & Hp & _).
  - vm_compute. reflexivity.
  - exists r. split; [exact Hr|]. split; [exact Hst|exact Hp].
Defined.

End RejectionRuns.

(* ===================================================================== *)
(** ** Joining: the list offered and the check made *)
(* ===================================================================== *)

Section JoinableList.

Context (name_le : relation string) `{!RelDecision name_le}.

Lemma elem_of_fetchJoinableBarangays (db : database) (j : JoinableBarangay) :
  j ∈ fetchJoinableBarangays name_le db ↔
  ∃ v, barangays db !! jb_id j = Some v
       ∧ joinable v = true
       ∧ jb_name j = b_name v
       ∧ jb_municipalityName j
         = default "" (mun_name <$> municipalities db !! b_municipality_id v).
Proof.
  unfold fetchJoinableBarangays. rewrite list_elem_of_fmap. split.
  - intros ([k v] & -> & Hin). rewrite merge_sort_Permutation in Hin.
    apply list_elem_of_In, List.filter_In in Hin as [Hin Hj].
    apply list_elem_of_In, elem_of_map_to_list in Hin. exists v. by simpl.
  - intros (v & Hv & Hj & Hn & Hm). exists (jb_id j, v). split.
    + destruct j. simpl in *. by subst.
    + rewrite merge_sort_Permutation.
      apply list_elem_of_In, List.filter_In. split; [|done].
      by apply list_elem_of_In, elem_of_map_to_list.
Qed.

(** X6: the list of barangays offered for joining and the check made by
    [join_barangay] agree: for a responder who holds no open membership,
    a barangay is in the list of [fetchJoinableBarangays] exactly when
    joining it succeeds; and each barangay is listed once. *)
Theorem joinable_list_is_what_join_accepts
    (c : context) (uid : uuid) (p : profile) (db : database) :
  auth_uid c = Some uid →
  profiles db !! uid = Some p →
  pr_role p ∈ lgu_roles →
  open_memberships uid db = 0%nat →
  (∀ b, b ∈ jb_id <$> fetchJoinableBarangays name_le db ↔
        (joinBarangay c b db).1 = (true, None))
  ∧ NoDup (jb_id <$> fetchJoinableBarangays name_le db).
Proof.
  intros Huid Hp Hrole Hopen. split.
  - intros b. rewrite list_elem_of_fmap.
    unfold joinBarangay. rewrite (join_barangay_run c uid b p db Huid Hp).
    rewrite (bool_decide_eq_true_2 _ Hrole), (bool_decide_eq_true_2 _ Hopen).
    cbn [andb]. split.
    + intros (j & -> & Hj). apply elem_of_fetchJoinableBarangays in Hj as (v & Hv & Hjv & _).
      rewrite Hv. cbn [fmap option_fmap option_map]. rewrite Hjv.
      by rewrite bool_decide_eq_true_2.
    + case_bool_decide as Hb; [|done]. intros _.
      destruct (barangays db !! b) as [v|] eqn:Hv; [|done]. injection Hb as Hb.
      exists {| jb_id := b; jb_name := b_name v;
                jb_municipalityName :=
                  default "" (mun_name <$> municipalities db !! b_municipality_id v) |}.
      split; [done|]. apply elem_of_fetchJoinableBarangays. exists v. by simpl.
  - unfold fetchJoinableBarangays. rewrite <- list_fmap_compose.
    rewrite merge_sort_Permutation.
    assert (∀ l : list (uuid * barangay), NoDup l.*1 →
            NoDup ((jb_id ∘ (fun b : uuid * barangay =>
               {| jb_id := b.1; jb_name := b_name b.2;
                  jb_municipalityName :=
                    default "" (mun_name <$> municipalities db !! b_municipality_id b.2) |}))
               <$> List.filter (fun b => joinable b.2) l)) as Hnd.
    { induction l as [|x l IH]; [intros _; apply NoDup_nil_2|].
      rewrite fmap_cons. intros [Hx Hl]%NoDup_cons. cbn [List.filter].
      destruct (joinable x.2); [|by apply IH].
      rewrite fmap_cons. apply NoDup_cons. split; [|by apply IH].
      intros Hin. apply Hx. apply list_elem_of_fmap in Hin as (y & Hy & Hin).
      apply list_elem_of_In, List.filter_In in Hin as [Hin _].
      apply list_elem_of_fmap. exists y. split; [done|]. by apply list_elem_of_In. }
    apply Hnd. apply NoDup_fst_map_to_list.
Qed.

(** X7: an approval makes its barangay joinable: after a successful
    [approve_barangay_boundary_request] the barangay of the request (the
    one it names, or the one created under the fresh id) is, when it
    exists, in the list of [fetchJoinableBarangays], with the geometry
    of the request. *)
Theorem approved_barangay_is_listed_for_joining
    (c : context) (id : uuid) (db db' : database) :
  approve_barangay_boundary_request c id db = Ok (true, db') →
  ∃ r, pending_request db id = Some r
       ∧ (r_barangay_id r = None → is_Some (barangays db' !! new_row_id c))
       ∧ ∀ v, barangays db' !! default (new_row_id c) (r_barangay_id r) = Some v →
              b_boundary_geojson v = Some (r_boundary_geojson r)
              ∧ default (new_row_id c) (r_barangay_id r)
                ∈ jb_id <$> fetchJoinableBarangays name_le db'.
Proof.
  intros Happrove.
  apply approve_effects in Happrove as (r & bid & Hreq & -> & _ & Hbs & _).
  exists r. split; [done|]. split.
  { intros Hnone. rewrite Hbs, Hnone. simpl. rewrite lookup_insert_eq. eauto. }
  intros v Hv.
  assert (b_boundary_geojson v = Some (r_boundary_geojson r)
          ∧ is_Some (b_boundary_approved_at v)) as [Hg Ha].
  { rewrite Hbs in Hv. destruct (r_barangay_id r) as [k|]; simpl in Hv.
    - rewrite lookup_alter_eq in Hv. destruct (barangays db !! k); [|done].
      injection Hv as <-. simpl. eauto.
    - rewrite lookup_insert_eq in Hv. injection Hv as <-. simpl. eauto. }
  split; [done|]. apply list_elem_of_fmap.
  exists {| jb_id := default (new_row_id c) (r_barangay_id r); jb_name := b_name v;
            jb_municipalityName :=
              default "" (mun_name <$> municipalities db' !! b_municipality_id v) |}.
  split; [done|]. apply elem_of_fetchJoinableBarangays. exists v. simpl.
  split_and!; try done. apply joinable_spec. rewrite Hg. eauto.
Qed.

End JoinableList.

Section JoinableListRuns.

(** X6 run for responder 104 and barangay 10. *)
Lemma joinable_list_is_what_join_accepts_witness :
  (10%N ∈ jb_id <$> fetchJoinableBarangays fx_name_le fx_db ↔
   (joinBarangay (fx_ctx fx_newcomer 40 0 302) 10 fx_db).1 = (true, None))
  ∧ NoDup (jb_id <$> fetchJoinableBarangays fx_name_le fx_db).
Proof.
  destruct (joinable_list_is_what_join_accepts fx_name_le (fx_ctx fx_newcomer 40 0 302)
              fx_newcomer (fx_profile barangay_responder None None) fx_db)
    as [Hiff Hnd].
  - reflexivity.
  - vm_compute. reflexivity.
  - simpl. role_cases.
  - vm_compute. reflexivity.
  - split; [exact (Hiff 10%N)|exact Hnd].
Defined.

(** X7 run: the admin approves request 600, which creates barangay 1000. *)
Lemma approved_barangay_is_listed_for_joining_witness :
  ∃ r, pending_request fx_db 600 = Some r
       ∧ (r_barangay_id r = None → is_Some (barangays fx_db_approved !! 1000%N)).
Proof.
  destruct (approved_barangay_is_listed_for_joining fx_name_le
              (fx_ctx fx_admin 60 1000 1001) 600 fx_db fx_db_approved)
    as (r & Hr & Hnew & _).
  - vm_compute. reflexivity.
  - exists r. split; [exact Hr|exact Hnew].
Defined.

End JoinableListRuns.

(* ===================================================================== *)
(** ** Boundary editing and the stored request *)
(* ===================================================================== *)

Section BoundaryEditing.

(** X8: [saveBarangayBoundary] succeeds exactly for a barangay-level
    responder ([lgu_responder] or [barangay_responder]) whose profile is
    assigned to that very barangay; it then replaces the stored geometry
    of that barangay in place, keeping its name, municipality and
    approval stamp, and files no boundary request.  For every other
    caller it fails and changes nothing. *)
Theorem saveBarangayBoundary_scope
    (c : context) (barangayId : uuid) (geojson : jsonb) (db : database) :
  let out := saveBarangayBoundary c barangayId geojson db in
  (out.1.1 = true ↔
     ∃ p, current_profile db c = Some p
          ∧ pr_role p ∈ [lgu_responder; barangay_responder]
          ∧ pr_barangay_id p = Some barangayId
          ∧ is_Some (barangays db !! barangayId))
  ∧ (out.1.1 = false → out.2 = db)
  ∧ (out.1.1 = true →
       ∃ b, barangays db !! barangayId = Some b
            ∧ barangays out.2
              = <[barangayId := {| b_municipality_id := b_municipality_id b;
                                   b_name := b_name b;
                                   b_boundary_geojson := Some geojson;
                                   b_boundary_approved_at := b_boundary_approved_at b |}]>
                  (barangays db)
            ∧ barangay_boundary_requests out.2 = barangay_boundary_requests db
            ∧ profiles out.2 = profiles db
            ∧ lgu_barangay_memberships out.2 = lgu_barangay_memberships db).
Proof.
  cbv zeta. unfold saveBarangayBoundary, save_barangay_boundary, rpc_outcome.
  unfold current_user_role, current_user_barangay_id.
  destruct (current_profile db c) as [p|] eqn:Hp; simpl.
  2:{ split_and!; [|done|done]. split; [done|]. by intros (? & ? & _). }
  destruct (decide (pr_role p ∈ [lgu_responder; barangay_responder])) as [Hrole|Hrole].
  2:{ rewrite (bool_decide_eq_false_2 _ Hrole). simpl. split_and!; [|done|done].
      split; [done|]. by intros (? & [= <-] & ? & _). }
  rewrite (bool_decide_eq_true_2 _ Hrole). simpl.
  unfold is_distinct_from.
  destruct (decide (pr_barangay_id p = Some barangayId)) as [Hb|Hb].
  2:{ rewrite (bool_decide_eq_false_2 _ Hb). simpl. split_and!; [|done|done].
      split; [done|]. by intros (? & [= <-] & _ & ? & _). }
  rewrite (bool_decide_eq_true_2 _ Hb). simpl.
  destruct (barangays db !! barangayId) as [b|] eqn:Hbar; simpl.
  - split_and!; [|done|].
    + split; [|done]. intros _. exists p. split_and!; eauto.
    + intros _. exists b. done.
  - split_and!; [|done|done]. split; [done|]. intros (? & _ & _ & _ & [? ?]). done.
Qed.

End BoundaryEditing.

Section BoundaryEditingRuns.

(** X8 run: responder 101 redraws the boundary of barangay 10. *)
Lemma saveBarangayBoundary_scope_witness :
  ∃ b, barangays fx_db !! 10%N = Some b
       ∧ barangays (saveBarangayBoundary (fx_ctx fx_responder 95 0 0) 10 "polygon-2" fx_db).2
         = <[10%N := {| b_municipality_id := b_municipality_id b;
                        b_name := b_name b;
                        b_boundary_geojson := Some "polygon-2";
                        b_boundary_approved_at := b_boundary_approved_at b |}]>
             (barangays fx_db)
       ∧ barangay_boundary_requests
           (saveBarangayBoundary (fx_ctx fx_responder 95 0 0) 10 "polygon-2" fx_db).2
         = barangay_boundary_requests fx_db
       ∧ profiles (saveBarangayBoundary (fx_ctx fx_responder 95 0 0) 10 "polygon-2" fx_db).2
         = profiles fx_db
       ∧ lgu_barangay_memberships
           (saveBarangayBoundary (fx_ctx fx_responder 95 0 0) 10 "polygon-2" fx_db).2
         = lgu_barangay_memberships fx_db.
Proof.
  apply (proj2 (proj2 (saveBarangayBoundary_scope (fx_ctx fx_responder 95 0 0) 10 "polygon-2"
                         fx_db))).
  vm_compute. reflexivity.
Defined.

End BoundaryEditingRuns.

Section SubmissionRow.

(** X9: a boundary request that [submitBoundaryRequest] creates was
    filed by a caller whose profile has an LGU role, for a municipality
    that exists; it is stored unreviewed, with the barangay it names
    (none when the service sent the all-zero id for "new barangay"; an
    existing one otherwise) and with the trimmed description (NULL when
    blank); no other table changes. *)
Theorem submitBoundaryRequest_stored_row
    (c : context) (municipalityId : uuid) (barangayId : option uuid)
    (barangayName : string) (boundaryGeojson : option jsonb)
    (contactEmail contactPhone : string) (description : option string)
    (db : database) :
  let out :=
    submitBoundaryRequest c municipalityId barangayId barangayName boundaryGeojson
      contactEmail contactPhone description db in
  success out.1 = true →
  (∃ uid p r,
     auth_uid c = Some uid
     ∧ profiles db !! uid = Some p
     ∧ pr_role p ∈ lgu_roles
     ∧ barangay_boundary_requests out.2 !! new_row_id c = Some r
     ∧ r_requested_by r = uid
     ∧ r_barangay_id r
       = (if bool_decide (barangayId = Some zero_uuid) then None else barangayId)
     ∧ (∀ b, r_barangay_id r = Some b → is_Some (barangays db !! b))
     ∧ r_description r
       = (if bool_decide (js_trim (default "" description) = "")
          then None else Some (js_trim (default "" description)))
     ∧ r_reviewed_by r = None
     ∧ r_reviewed_at r = None
     ∧ r_rejection_reason r = None)
  ∧ is_Some (municipalities db !! municipalityId)
  ∧ barangays out.2 = barangays db
  ∧ profiles out.2 = profiles db
  ∧ lgu_barangay_memberships out.2 = lgu_barangay_memberships db.
Proof.
  cbv zeta. unfold submitBoundaryRequest.
  destruct (submit_barangay_boundary_request _ _ _ _ _ _ _ _ _) as [[[id|] db']|e] eqn:Hrpc;
    simpl; try done.
  intros _. revert Hrpc. unfold submit_barangay_boundary_request.
  destruct (holds (sql_not_in _ _)) eqn:Hguard; [done|].
  destruct (holds (null_or_blank (Some (js_trim barangayName)))); [done|].
  destruct boundaryGeojson as [geo|]; [|done]. cbn [is_null].
  destruct (holds (null_or_blank (Some (js_trim contactEmail)))); [done|].
  destruct (holds (null_or_blank (Some (js_trim contactPhone)))); [done|].
  intros Hrpc.
  apply bind_Ok in Hrpc as (uid & Huid%not_null_Ok & Hrpc).
  apply bind_Ok in Hrpc as (mid & [= <-] & Hrpc).
  apply bind_Ok in Hrpc as (name & _ & Hrpc).
  apply bind_Ok in Hrpc as (geo' & _ & Hrpc).
  apply bind_Ok in Hrpc as ([] & Hpk%primary_key_Ok & Hrpc).
  apply bind_Ok in Hrpc as ([] & [p Hp]%references_Ok & Hrpc).
  apply bind_Ok in Hrpc as ([] & Hmun%references_Ok & Hrpc).
  apply bind_Ok in Hrpc as ([] & Hbar & Hrpc).
  injection Hrpc as <- <-. cbn in Hbar |- *.
  split_and!; try done.
  exists uid, p. eexists. rewrite lookup_insert_eq. split_and!; try done.
  - unfold current_user_role, current_profile in Hguard. rewrite Huid in Hguard.
    simpl in Hguard. rewrite Hp in Hguard.
    destruct (decide (pr_role p ∈ [lgu_responder; barangay_responder; municipal_responder]))
      as [Hin|Hn].
    + role_cases; rewrite Hin; role_cases.
    + assert (holds (sql_not_in (pr_role <$> Some p)
                       [lgu_responder; barangay_responder; municipal_responder]) = true)
        as Hyes by (apply holds_sql_not_in; eauto).
      congruence.
  - simpl. destruct barangayId as [b|]; simpl; unfold id.
    + unfold zero_uuid. repeat case_bool_decide; congruence.
    + done.
  - simpl. intros b Hb. rewrite Hb in Hbar. by apply references_Ok in Hbar.
  - simpl. destruct description as [d|]; simpl.
    + rewrite sql_trim_js_trim. by case_bool_decide.
    + done.
Qed.

End SubmissionRow.

Section SubmissionRowRuns.

(** X9 run: responder 104 requests a new barangay in municipality 1. *)
Lemma submitBoundaryRequest_stored_row_witness :
  is_Some (municipalities fx_db !! 1%N)
  ∧ barangays (submitBoundaryRequest (fx_ctx fx_newcomer 50 601 0) 1 None "Tubod"
                 (Some "polygon") "kap@tubod.ph" "09171234567" (Some "  ") fx_db).2
    = barangays fx_db.
Proof.
  destruct (submitBoundaryRequest_stored_row (fx_ctx fx_newcomer 50 601 0) 1 None "Tubod"
              (Some "polygon") "kap@tubod.ph" "09171234567" (Some "  ") fx_db)
    as (_ & Hmun & Hbar & _).
  - vm_compute. reflexivity.
  - split; [exact Hmun|exact Hbar].
Defined.

End SubmissionRowRuns.

Section RequestLifecycle.

(** What a successful submission for a new barangay leaves behind. *)
Lemma submitBoundaryRequest_new_barangay
    (c : context) (municipalityId : uuid) (barangayName : string) (geojson : jsonb)
    (contactEmail contactPhone : string) (description : option string)
    (out : submit_outcome) (db db1 : database) :
  submitBoundaryRequest c municipalityId None barangayName (Some geojson)
    contactEmail contactPhone description db = (out, db1) →
  success out = true →
  ∃ uid p,
    auth_uid c = Some uid
    ∧ profiles db !! uid = Some p
    ∧ is_Some (municipalities db !! municipalityId)
    ∧ requestId out = Some (new_row_id c)
    ∧ db1 = set_barangay_boundary_requests
              (insert (new_row_id c)
                 {| r_requested_by := uid;
                    r_municipality_id := municipalityId;
                    r_barangay_id := None;
                    r_barangay_name := js_trim barangayName;
                    r_boundary_geojson := geojson;
                    r_contact_email := Some (js_trim contactEmail);
                    r_contact_phone := Some (js_trim contactPhone);
                    r_description :=
                      nullif (Some (sql_trim (coalesce (js_trim <$> description) ""))) "";
                    r_status := pending;
                    r_reviewed_by := None;
                    r_reviewed_at := None;
                    r_rejection_reason := None |}) db.
Proof.
  unfold submitBoundaryRequest.
  destruct (submit_barangay_boundary_request _ _ _ _ _ _ _ _ _) as [[[id|] db']|e] eqn:Hrpc;
    intros [= <- <-]; simpl; try done.
  intros _. revert Hrpc. unfold submit_barangay_boundary_request.
  destruct (holds (sql_not_in _ _)); [done|].
  destruct (holds (null_or_blank (Some (js_trim barangayName)))); [done|].
  cbn [is_null].
  destruct (holds (null_or_blank (Some (js_trim contactEmail)))); [done|].
  destruct (holds (null_or_blank (Some (js_trim contactPhone)))); [done|].
  intros Hrpc.
  apply bind_Ok in Hrpc as (uid & Huid%not_null_Ok & Hrpc).
  apply bind_Ok in Hrpc as (mid & [= <-] & Hrpc).
  apply bind_Ok in Hrpc as (name & [= <-] & Hrpc).
  apply bind_Ok in Hrpc as (geo' & [= <-] & Hrpc).
  apply bind_Ok in Hrpc as ([] & _ & Hrpc).
  apply bind_Ok in Hrpc as ([] & [p Hp]%references_Ok & Hrpc).
  apply bind_Ok in Hrpc as ([] & Hmun%references_Ok & Hrpc).
  apply bind_Ok in Hrpc as ([] & _ & Hrpc).
  injection Hrpc as <- <-.
  exists uid, p. split_and!; try done.
  cbn. by rewrite !sql_trim_js_trim.
Qed.

(** X25: from submission to approval.  A request for a new barangay that
    [submitBoundaryRequest] has stored can be approved by an
    administrator as soon as the id for the new barangay is free: the
    approval succeeds, creates the barangay in the requested
    municipality under the trimmed name with the submitted geometry,
    stamped approved, assigns the requester's profile to it, and marks
    the request approved. *)
Theorem submitted_request_can_be_approved
    (c c2 : context) (municipalityId : uuid) (barangayName : string) (geojson : jsonb)
    (contactEmail contactPhone : string) (description : option string)
    (out : submit_outcome) (role : user_role) (db db1 : database) :
  submitBoundaryRequest c municipalityId None barangayName (Some geojson)
    contactEmail contactPhone description db = (out, db1) →
  success out = true →
  current_user_role db c2 = Some role →
  role ∈ admin_roles →
  barangays db !! new_row_id c2 = None →
  ∃ rid uid db2,
    requestId out = Some rid
    ∧ auth_uid c = Some uid
    ∧ approveBoundaryRequest c2 rid db1 = (true, db2)
    ∧ barangays db2 !! new_row_id c2
      = Some {| b_municipality_id := municipalityId;
                b_name := js_trim barangayName;
                b_boundary_geojson := Some geojson;
                b_boundary_approved_at := Some (now c2) |}
    ∧ pr_barangay_id <$> profiles db2 !! uid = Some (Some (new_row_id c2))
    ∧ pr_municipality_id <$> profiles db2 !! uid = Some (Some municipalityId)
    ∧ r_status <$> barangay_boundary_requests db2 !! rid = Some approved
    ∧ r_reviewed_by <$> barangay_boundary_requests db2 !! rid = Some (auth_uid c2).
Proof.
  intros Hsubmit Hok Hrole Hadm Hfresh.
  destruct (submitBoundaryRequest_new_barangay _ _ _ _ _ _ _ _ _ _ Hsubmit Hok)
    as (uid & p & Huid & Hp & Hmun & Hrid & ->).
  exists (new_row_id c), uid.
  unfold approveBoundaryRequest, approve_barangay_boundary_request.
  set (row := {| r_requested_by := uid; r_municipality_id := municipalityId;
                 r_barangay_id := None; r_barangay_name := js_trim barangayName;
                 r_boundary_geojson := geojson;
                 r_contact_email := Some (js_trim contactEmail);
                 r_contact_phone := Some (js_trim contactPhone);
                 r_description := _; r_status := pending; r_reviewed_by := None;
                 r_reviewed_at := None; r_rejection_reason := None |}).
  set (db1 := set_barangay_boundary_requests (insert (new_row_id c) row) db).
  assert (current_user_role db1 c2 = Some role) as -> by done.
  assert (holds (sql_in (Some role) admin_roles) = true) as ->
    by (apply holds_sql_in; eauto).
  cbn [sql_not fmap option_fmap option_map negb holds].
  assert (pending_request db1 (new_row_id c) = Some row) as ->.
  { unfold pending_request. subst db1. cbn. by rewrite lookup_insert_eq. }
  cbn [r_barangay_id row].
  assert (primary_key (barangays db1) (new_row_id c2) = Ok ()) as ->
    by (by apply primary_key_Ok).
  assert (references (municipalities db1) (Some (r_municipality_id row)) = Ok ()) as ->
    by (by apply references_Ok).
  cbn [mbind result_bind Sql.bind].
  cbn [profiles set_barangays db1 set_barangay_boundary_requests r_requested_by row].
  rewrite Hp. rewrite bool_decide_eq_true_2 by eauto.
  assert (∀ d, references (barangays (set_barangays
                 (insert (new_row_id c2) d) db1)) (Some (new_row_id c2)) = Ok ()) as ->.
  { intros d. apply references_Ok. cbn. rewrite lookup_insert_eq. eauto. }
  cbn [mbind result_bind Sql.bind].
  eexists. split_and!; [done|done|reflexivity|..]; cbn.
  - by rewrite lookup_insert_eq.
  - by rewrite lookup_alter_eq, Hp.
  - by rewrite lookup_alter_eq, Hp.
  - by rewrite lookup_alter_eq, lookup_insert_eq.
  - by rewrite lookup_alter_eq, lookup_insert_eq.
Qed.

End RequestLifecycle.

Section RequestLifecycleRuns.

(** X25 run: responder 104 requests the new barangay Tubod and the
    admin approves the request. *)
Lemma submitted_request_can_be_approved_witness :
  ∃ rid uid db2,
    Some 601%N = Some rid
    ∧ auth_uid (fx_ctx fx_newcomer 50 601 0) = Some uid
    ∧ approveBoundaryRequest (fx_ctx fx_admin 55 1000 306) rid
        (submitBoundaryRequest (fx_ctx fx_newcomer 50 601 0) 1 None "Tubod"
           (Some "polygon") "kap@tubod.ph" "09171234567" None fx_db).2
      = (true, db2).
Proof.
  destruct (submitted_request_can_be_approved (fx_ctx fx_newcomer 50 601 0)
              (fx_ctx fx_admin 55 1000 306) 1 "Tubod" "polygon" "kap@tubod.ph" "09171234567"
              None {| success := true; requestId := Some 601%N; error := None |} admin fx_db
              (submitBoundaryRequest (fx_ctx fx_newcomer 50 601 0) 1 None "Tubod"
                 (Some "polygon") "kap@tubod.ph" "09171234567" None fx_db).2)
    as (rid & uid & db2 & Hrid & Huid & Happrove & _).
  - vm_compute. reflexivity.
  - reflexivity.
  - vm_compute. reflexivity.
  - role_cases.
  - vm_compute. reflexivity.
  - exists rid, uid, db2. split; [exact Hrid|]. split; [exact Huid|exact Happrove].
Defined.

End RequestLifecycleRuns.

(* ===================================================================== *)
(** ** Accounts: the login pre-check, sign-up and administrator invites *)
(* ===================================================================== *)

Section LoginPreCheck.

Lemma omap_at_most_one {A B} (f : A → option B) (l : list A) :
  NoDup l →
  (∀ x y, x ∈ l → y ∈ l → is_Some (f x) → is_Some (f y) → x = y) →
  (length (omap f l) ≤ 1)%nat.
Proof.
  induction l as [|x l IH]; intros Hnd Hone; [simpl; lia|].
  apply NoDup_cons in Hnd as [Hx Hnd].
  cbn [omap list_omap]. destruct (f x) as [b|] eqn:Hfx.
  - rewrite omap_all_None; [simpl; lia|].
    intros y Hy. destruct (f y) eqn:Hfy; [|done].
    destruct Hx. rewrite (Hone x y); eauto using list_elem_of_here, list_elem_of_further.
  - apply IH; [done|]. intros y z Hy Hz. apply Hone; by apply list_elem_of_further.
Qed.

(** X10: when no two accounts share the e-mail, the login pre-check
    [check_login_eligibility] never fails, and it answers "proof pending"
    exactly when the account under that e-mail has an LGU role, a proof
    of employment on file and an unconfirmed e-mail.  Without an e-mail
    (NULL) it answers "not pending". *)
Theorem check_login_eligibility_spec (email : string) (db : database) :
  (∀ id id' u u',
     auth_users db !! id = Some u → auth_users db !! id' = Some u' →
     u_email u = Some email → u_email u' = Some email → id = id') →
  (∃ b, check_login_eligibility (Some email) db = Ok b
        ∧ (b = true ↔
           ∃ id u p,
             auth_users db !! id = Some u
             ∧ profiles db !! id = Some p
             ∧ u_email u = Some email
             ∧ pr_role p ∈ lgu_roles
             ∧ is_Some (pr_proof_of_employment_url p)
             ∧ u_email_confirmed_at u = None))
  ∧ check_login_eligibility None db = Ok false.
Proof.
  intros Huniq. split.
  - assert (length (eligibility_rows (Some email) db) ≤ 1)%nat as Hlen.
    { unfold eligibility_rows. apply omap_at_most_one; [apply NoDup_map_to_list|].
      intros [id u] [id' u'] Hu Hu' Hs Hs'.
      apply elem_of_map_to_list in Hu, Hu'.
      assert (∀ k w, is_Some (p ← profiles db !! k;
                        if holds (sql_eq (u_email w) (Some email))
                           && holds (sql_in (Some (pr_role p)) lgu_roles)
                        then Some (is_not_null (pr_proof_of_employment_url p)
                                   && is_null (u_email_confirmed_at w))
                        else None) → u_email w = Some email) as Hmail.
      { intros k w [b Hb]. destruct (profiles db !! k) as [p|]; [|done].
        cbn [mbind option_bind] in Hb.
        destruct (holds (sql_eq (u_email w) (Some email))) eqn:He; [|done].
        apply holds_sql_eq in He as (e & -> & [= <-]). done. }
      assert (id = id') as <- by (eapply Huniq; eauto).
      congruence. }
    assert (∃ b, check_login_eligibility (Some email) db = Ok b) as [b Hb].
    { unfold check_login_eligibility.
      destruct (eligibility_rows (Some email) db) as [|b [|b' rows]]; simpl in *;
        eauto; lia. }
    exists b. split; [done|]. split.
    + intros ->. by apply check_login_eligibility_pending.
    + intros (id & u & p & Hu & Hp & He & Hl & Hurl & Hc).
      assert (check_login_eligibility (Some email) db = Ok true) as Hyes.
      { eapply check_login_eligibility_unconfirmed; eauto. }
      congruence.
  - unfold check_login_eligibility, eligibility_rows.
    rewrite omap_all_None; [done|]. intros [id u] _.
    destruct (profiles db !! id) as [p|]; [|done]. cbn [mbind option_bind].
    by destruct (u_email u).
Qed.

End LoginPreCheck.

Section LoginPreCheckRuns.

(** X10 run after the sign-up of account 200, alone under its e-mail. *)
Lemma check_login_eligibility_spec_witness :
  check_login_eligibility None fx_db_signed_up = Ok false
  ∧ ∃ b, check_login_eligibility (Some fx_signup_email) fx_db_signed_up = Ok b.
Proof.
  destruct (check_login_eligibility_spec fx_signup_email fx_db_signed_up)
    as [(b & Hb & _) Hnone].
  - intros id id' u u' Hu Hu' He He'.
    assert (∀ k w, auth_users fx_db_signed_up !! k = Some w →
                   u_email w = Some fx_signup_email → k = 200%N) as Honly.
    { intros k w Hw Hmail. apply elem_of_map_to_list in Hw.
      vm_compute in Hw. 
      repeat (apply elem_of_cons in Hw as [Hw|Hw];
              [injection Hw as -> ->; first [reflexivity | discriminate Hmail]|]).
      by apply elem_of_nil in Hw. }
    by rewrite (Honly id u), (Honly id' u').
  - split; [exact Hnone|]. exists b. exact Hb.
Defined.

End LoginPreCheckRuns.

Section SignUp.

(** X11: a sign-up that goes through creates, under an id new to both
    tables, a profile whose role is the one named in the sign-up metadata
    (resident when none or an unknown one is named).  The e-mail is
    marked confirmed at once exactly for the three LGU roles and stays
    unconfirmed otherwise; only a municipal or barangay responder gets a
    municipality or a barangay, only a barangay responder a membership,
    and no other account or profile is touched. *)
Theorem auth_sign_up_spec
    (c : context) (id : uuid) (email : string) (meta : raw_user_meta_data)
    (db db' : database) :
  let role := default resident (md_role meta ≫= user_role_of_text) in
  auth_sign_up c id email meta db = Ok db' →
  auth_users db !! id = None
  ∧ profiles db !! id = None
  ∧ (∃ p, profiles db' !! id = Some p
          ∧ pr_role p = role
          ∧ pr_email p = Some email
          ∧ (role ∉ [municipal_responder; barangay_responder] →
             pr_barangay_id p = None ∧ pr_municipality_id p = None)
          ∧ (∀ b, pr_barangay_id p = Some b → is_Some (barangays db !! b)))
  ∧ auth_users db' !! id
    = Some {| u_email := Some email;
              u_email_confirmed_at :=
                if bool_decide (role ∈ lgu_roles) then Some (now c) else None |}
  ∧ (∀ k, k ≠ id →
       profiles db' !! k = profiles db !! k ∧ auth_users db' !! k = auth_users db !! k)
  ∧ (role ≠ barangay_responder →
     lgu_barangay_memberships db' = lgu_barangay_memberships db).
Proof.
  cbv zeta. unfold auth_sign_up. intros H.
  apply bind_Ok in H as ([] & Hfresh%primary_key_Ok & H).
  revert H. unfold handle_new_user.
  replace (match md_role meta with
           | Some s => default resident (user_role_of_text s)
           | None => resident
           end)
    with (default resident (md_role meta ≫= user_role_of_text))
    by (by destruct (md_role meta)).
  set (r := default resident (md_role meta ≫= user_role_of_text)).
  destruct (if bool_decide (r ∈ [municipal_responder; barangay_responder]) then _ else _)
    as [vm vb] eqn:Hids.
  intros H.
  apply bind_Ok in H as ([] & Hpk%primary_key_Ok & H).
  apply bind_Ok in H as ([] & _ & H).
  apply bind_Ok in H as ([] & Hbar & H).
  apply bind_Ok in H as ([] & _ & H).
  injection H as <-. cbn in Hpk, Hbar.
  split_and!; try done.
  - eexists. split_and!.
    + destruct vb as [b|]; [destruct (bool_decide (r = barangay_responder))|];
        destruct (bool_decide (r ∈ lgu_roles)); cbn; by rewrite lookup_insert_eq.
    + done.
    + done.
    + simpl. intros Hn. rewrite (bool_decide_eq_false_2 _ Hn) in Hids. by injection Hids as <- <-.
    + simpl. intros b ->. by apply references_Ok in Hbar.
  - destruct vb as [b|]; [destruct (bool_decide (r = barangay_responder))|];
      destruct (bool_decide (r ∈ lgu_roles)); cbn;
      by rewrite ?lookup_alter_eq, lookup_insert_eq.
  - intros k Hk.
    destruct vb as [b|]; [destruct (bool_decide (r = barangay_responder))|];
      destruct (bool_decide (r ∈ lgu_roles)); cbn;
      by rewrite ?lookup_alter_ne, !lookup_insert_ne.
  - intros Hne. rewrite (bool_decide_eq_false_2 _ Hne).
    destruct vb as [b|]; destruct (bool_decide (r ∈ lgu_roles)); done.
Qed.

End SignUp.

Section SignUpRuns.

(** X11 run: the sign-up of account 200 as a municipal responder. *)
Lemma auth_sign_up_spec_witness :
  auth_users fx_db_signed_up !! 200%N
  = Some {| u_email := Some fx_signup_email;
            u_email_confirmed_at :=
              if bool_decide
                   (default resident (md_role fx_signup_meta ≫= user_role_of_text) ∈ lgu_roles)
              then Some (now fx_signup_ctx) else None |}.
Proof.
  refine (proj1 (proj2 (proj2 (proj2
    (auth_sign_up_spec fx_signup_ctx 200 fx_signup_email fx_signup_meta fx_db
       fx_db_signed_up _))))).
  vm_compute. reflexivity.
Defined.

End SignUpRuns.

Section Invites.

Lemma claimable_spec (c : context) (invite_code : option string) (i : admin_invite) :
  claimable c invite_code i = true ↔
  invite_code = Some (i_code i) ∧ i_used_at i = None ∧ (now c < i_expires_at i)%Z.
Proof.
  unfold claimable. rewrite !holds_sql_and, !andb_true_iff, !holds_Some, holds_sql_eq.
  rewrite bool_decide_eq_true. split.
  - intros [[(s & [= <-] & ->) Hu] He]. split_and!; [done| |lia]. by destruct (i_used_at i).
  - intros (-> & -> & He). split_and!; [eauto|done|lia].
Qed.

(** What a successful claim does. *)
Lemma claim_admin_invite_Ok_true
    (c : context) (invite_code : option string) (st st' : invites_state) :
  claim_admin_invite c invite_code st = Ok (true, st') →
  ∃ id inv,
    st.1 !! id = Some inv
    ∧ invite_code = Some (i_code inv)
    ∧ i_used_at inv = None
    ∧ (now c < i_expires_at inv)%Z
    ∧ references (profiles st.2) (auth_uid c) = Ok ()
    ∧ st' = (<[id := {| i_code := i_code inv;
                        i_created_by := i_created_by inv;
                        i_expires_at := i_expires_at inv;
                        i_used_at := Some (now c);
                        i_used_by := auth_uid c |}]> st.1,
             match auth_uid c with
             | None => st.2
             | Some uid =>
                 set_profiles
                   (alter (fun p =>
                      {| pr_role := admin;
                         pr_proof_of_employment_url := pr_proof_of_employment_url p;
                         pr_barangay_id := pr_barangay_id p;
                         pr_municipality_id := pr_municipality_id p;
                         pr_email := pr_email p |}) uid) st.2
             end).
Proof.
  unfold claim_admin_invite.
  destruct (List.find _ _) as [[id inv]|] eqn:Hfind; [|by intros [= ?]].
  intros H. apply bind_Ok in H as ([] & Href & [= <-]).
  apply List.find_some in Hfind as [Hin Hcl].
  apply list_elem_of_In, elem_of_map_to_list in Hin.
  apply claimable_spec in Hcl as (Hcode & Hused & Hexp). simpl in *.
  exists id, inv. by split_and!.
Qed.

(** X12: [claim_admin_invite] answers TRUE only for a code that names an
    invite not yet used and not yet expired; it then stamps that invite
    with the caller and the time and turns the caller's profile into an
    admin profile, leaving every other invite and every other profile as
    they were.  When it answers FALSE, every invite under that code is
    used or expired, and nothing changes. *)
Theorem claim_admin_invite_effects
    (c : context) (invite_code : option string) (st st' : invites_state) (ok : bool) :
  claim_admin_invite c invite_code st = Ok (ok, st') →
  if ok then
    ∃ id inv,
      st.1 !! id = Some inv
      ∧ invite_code = Some (i_code inv)
      ∧ i_used_at inv = None
      ∧ (now c < i_expires_at inv)%Z
      ∧ st'.1 = <[id := {| i_code := i_code inv;
                           i_created_by := i_created_by inv;
                           i_expires_at := i_expires_at inv;
                           i_used_at := Some (now c);
                           i_used_by := auth_uid c |}]> st.1
      ∧ (∀ uid, auth_uid c = Some uid →
           ∃ p, profiles st.2 !! uid = Some p
                ∧ profiles st'.2
                  = <[uid := {| pr_role := admin;
                                pr_proof_of_employment_url := pr_proof_of_employment_url p;
                                pr_barangay_id := pr_barangay_id p;
                                pr_municipality_id := pr_municipality_id p;
                                pr_email := pr_email p |}]> (profiles st.2))
      ∧ (auth_uid c = None → st'.2 = st.2)
  else
    st' = st
    ∧ ∀ id inv, st.1 !! id = Some inv → invite_code = Some (i_code inv) →
                is_Some (i_used_at inv) ∨ (i_expires_at inv ≤ now c)%Z.
Proof.
  destruct ok.
  - intros (id & inv & Hinv & Hcode & Hused & Hexp & Href & ->)%claim_admin_invite_Ok_true.
    exists id, inv. split_and!; try done.
    + intros uid Huid. rewrite Huid in Href. apply references_Ok in Href as [p Hp].
      exists p. split; [done|]. rewrite Huid. cbn. apply map_eq. intros k.
      destruct (decide (k = uid)) as [->|Hne].
      * by rewrite lookup_alter_eq, lookup_insert_eq, Hp.
      * by rewrite lookup_alter_ne, lookup_insert_ne.
    + by intros ->.
  - unfold claim_admin_invite.
    destruct (List.find _ _) as [[id inv]|] eqn:Hfind.
    { intros H. by apply bind_Ok in H as ([] & _ & [= ?]). }
    intros [= <-]. split; [done|]. intros id inv Hinv Hcode.
    assert (claimable c invite_code inv = false) as Hno.
    { apply (proj1 (find_None_iff _ _) Hfind (id, inv)). by apply elem_of_map_to_list. }
    destruct (i_used_at inv) as [t|] eqn:Hu; [eauto|]. right.
    destruct (decide (now c < i_expires_at inv)%Z) as [Hlt|]; [|lia].
    assert (claimable c invite_code inv = true) as Hyes by (by apply claimable_spec).
    congruence.
Qed.

(** X13: an invite is good for one claim.  With the codes unique, once
    [claim_admin_invite] has answered TRUE for a code, every later claim
    of that code, by anyone and at any time, answers FALSE and changes
    nothing. *)
Theorem claim_admin_invite_single_use
    (c c' : context) (invite_code : option string) (st st' : invites_state) :
  (∀ k1 k2 i1 i2, st.1 !! k1 = Some i1 → st.1 !! k2 = Some i2 →
                  i_code i1 = i_code i2 → k1 = k2) →
  claim_admin_invite c invite_code st = Ok (true, st') →
  claim_admin_invite c' invite_code st' = Ok (false, st').
Proof.
  intros Huniq Hclaim.
  apply claim_admin_invite_Ok_true in Hclaim
    as (id & inv & Hinv & Hcode & Hused & Hexp & _ & ->).
  unfold claim_admin_invite.
  rewrite (proj2 (find_None_iff _ _)); [done|].
  intros [k i] Hin. apply elem_of_map_to_list in Hin. simpl in Hin |- *.
  apply not_true_is_false. intros (Hc & Hu & He)%claimable_spec.
  destruct (decide (k = id)) as [->|Hne].
  - rewrite lookup_insert_eq in Hin. injection Hin as <-. done.
  - rewrite lookup_insert_ne in Hin by done.
    destruct Hne. apply (Huniq k id i inv); [done|done|]. congruence.
Qed.

End Invites.

Section InvitesRuns.

(** X12 run: resident 103 claims invite 400 at time 50. *)
Lemma claim_admin_invite_effects_witness :
  ∃ id inv, fx_invites !! id = Some inv ∧ i_used_at inv = None ∧ (50 < i_expires_at inv)%Z.
Proof.
  destruct (claim_admin_invite_effects (fx_ctx fx_resident 50 0 0) (Some "DRRMO-2025")
              (fx_invites, fx_db) fx_invites_claimed true)
    as (id & inv & Hinv & _ & Hused & Hexp & _).
  - vm_compute. reflexivity.
  - exists id, inv. split; [exact Hinv|]. split; [exact Hused|exact Hexp].
Defined.

(** X13 run: after resident 103 has claimed invite 400, resident 105
    tries the same code. *)
Lemma claim_admin_invite_single_use_witness :
  claim_admin_invite (fx_ctx fx_reporter 51 0 0) (Some "DRRMO-2025") fx_invites_claimed
  = Ok (false, fx_invites_claimed).
Proof.
  apply (claim_admin_invite_single_use (fx_ctx fx_resident 50 0 0) (fx_ctx fx_reporter 51 0 0)
           (Some "DRRMO-2025") (fx_invites, fx_db) fx_invites_claimed).
  - intros k1 k2 i1 i2 H1 H2 Hcode.
    apply elem_of_map_to_list in H1, H2. vm_compute in H1, H2.
    repeat (apply elem_of_cons in H1 as [H1|H1]; [injection H1 as -> ->|]);
      [| |by apply elem_of_nil in H1];
      (repeat (apply elem_of_cons in H2 as [H2|H2]; [injection H2 as -> ->|]);
       [| |by apply elem_of_nil in H2]);
      first [reflexivity | discriminate Hcode].
  - vm_compute. reflexivity.
Defined.

End InvitesRuns.

Section Landing.

(** A signed-in user reads the role of the own profile: the policy
    [profiles_select_own] lets the row through. *)
Lemma session_role_own (db : database) (c : context) :
  session_role db c = current_user_role db c.
Proof.
  unfold session_role, current_user_role, current_profile, select_profile.
  destruct (auth_uid c) as [uid|] eqn:Huid; [|done]. simpl.
  destruct (profiles db !! uid) as [p|]; [|done]. simpl.
  unfold profiles_select. rewrite permissive_cons.
  unfold profiles_select_own. rewrite Huid. simpl.
  by rewrite bool_decide_eq_true_2.
Qed.

(** X14: the entry page [/lgu-responder] and the barangay layout agree:
    the entry page sends a session to the barangay dashboard exactly when
    the barangay layout renders for it, it sends exactly the municipal
    responders to the municipal dashboard, and everybody else to the
    login page; the fallback path of [getLguDashboardPath] is never
    taken. *)
Theorem lgu_entry_lands_where_admitted (db : database) (c : context) :
  (lgu_responder_entry db c = Goto "/lgu-responder/barangay/dashboard"
   ↔ barangay_layout db c = Render)
  ∧ (lgu_responder_entry db c = Goto "/lgu-responder/municipal/dashboard"
     ↔ current_user_role db c = Some municipal_responder)
  ∧ (lgu_responder_entry db c = Goto "/login"
     ↔ ∀ role, current_user_role db c = Some role → role ∉ lgu_roles)
  ∧ lgu_responder_entry db c
    ∈ [Goto "/login"; Goto "/lgu-responder/barangay/dashboard";
       Goto "/lgu-responder/municipal/dashboard"].
Proof.
  unfold lgu_responder_entry, barangay_layout. rewrite session_role_own.
  unfold current_user_role, current_profile.
  destruct (auth_uid c) as [uid|]; simpl;
    [destruct (profiles db !! uid) as [p|]; simpl; [destruct (pr_role p); simpl|]|];
    split_and!;
    first [ split; done
          | split; [done|]; intros H; exfalso; apply (H _ eq_refl); role_cases
          | split; [|done]; intros _ ? [= <-] Hin; role_cases
          | split; [|done]; intros _ ? [=]
          | apply list_elem_of_here
          | apply list_elem_of_further, list_elem_of_here
          | apply list_elem_of_further, list_elem_of_further, list_elem_of_here ].
Qed.

End Landing.

(* ===================================================================== *)
(** ** The status map and the status log *)
(* ===================================================================== *)

Section StatusMap.

Lemma elem_of_approved_barangays (db : database) (x : uuid * barangay) :
  x ∈ approved_barangays db ↔
  barangays db !! x.1 = Some x.2 ∧ is_Some (b_boundary_approved_at x.2).
Proof.
  unfold approved_barangays.
  rewrite list_elem_of_In, List.filter_In, <- list_elem_of_In.
  destruct x as [k b]. rewrite elem_of_map_to_list. simpl.
  destruct (b_boundary_approved_at b); simpl; split; intros [? ?]; split; eauto; done.
Qed.

Lemma NoDup_filter_fst {A B} (P : A * B → bool) (l : list (A * B)) :
  NoDup l.*1 → NoDup (List.filter P l).*1.
Proof.
  induction l as [|x l IH]; [done|].
  rewrite fmap_cons. intros [Hx Hl]%NoDup_cons. cbn [List.filter].
  destruct (P x); [|by apply IH].
  rewrite fmap_cons. apply NoDup_cons. split; [|by apply IH].
  intros Hin. apply Hx. apply list_elem_of_fmap in Hin as (y & Hy & Hin).
  apply list_elem_of_In, List.filter_In in Hin as [Hin _].
  apply list_elem_of_fmap. exists y. split; [done|]. by apply list_elem_of_In.
Qed.

(** In a list sorted by [created_at] descending, the first row found for
    a barangay is at least as new as every row of that barangay. *)
Lemma find_first_is_newest
    (l : list (uuid * barangay_status_update)) (b : uuid)
    (x : uuid * barangay_status_update) :
  StronglySorted created_at_desc l →
  List.find (fun s => bool_decide (s_barangay_id s.2 = b)) l = Some x →
  x ∈ l ∧ s_barangay_id x.2 = b
  ∧ ∀ y, y ∈ l → s_barangay_id y.2 = b → (s_created_at y.2 ≤ s_created_at x.2)%Z.
Proof.
  induction 1 as [|a l Hsorted IH Hall]; [done|].
  simpl. case_bool_decide as Ha.
  - intros [= <-]. split_and!; [apply list_elem_of_here|done|].
    intros y Hy _. apply elem_of_cons in Hy as [->|Hy]; [lia|].
    rewrite Forall_forall in Hall. specialize (Hall y Hy).
    unfold created_at_desc in Hall. lia.
  - intros Hfind. destruct (IH Hfind) as (Hin & Hb & Hnew).
    split_and!; [by apply list_elem_of_further|done|].
    intros y Hy Hyb. apply elem_of_cons in Hy as [->|Hy]; [done|]. by apply Hnew.
Qed.

(** X15: the status map lists exactly the barangays whose boundary is
    approved, each once, under the name and geometry stored for it. *)
Theorem fetchBarangaysWithStatus_lists_approved (db : database) :
  NoDup (bws_id <$> fetchBarangaysWithStatus db)
  ∧ (∀ k, k ∈ bws_id <$> fetchBarangaysWithStatus db ↔
          ∃ b, barangays db !! k = Some b ∧ is_Some (b_boundary_approved_at b))
  ∧ (∀ e, e ∈ fetchBarangaysWithStatus db →
          ∃ b, barangays db !! bws_id e = Some b
               ∧ bws_name e = b_name b
               ∧ bws_boundaryGeojson e = b_boundary_geojson b).
Proof.
  unfold fetchBarangaysWithStatus. split_and!.
  - rewrite <- list_fmap_compose.
    replace (fmap _ (approved_barangays db)) with (approved_barangays db).*1
      by (by apply list_fmap_ext).
    apply NoDup_filter_fst, NoDup_fst_map_to_list.
  - intros k. rewrite <- list_fmap_compose, list_elem_of_fmap. split.
    + intros ([k' b] & -> & Hin). apply elem_of_approved_barangays in Hin. by exists b.
    + intros (b & Hb & Ha). exists (k, b). split; [done|].
      by apply elem_of_approved_barangays.
  - intros e (x & -> & Hx)%list_elem_of_fmap.
    apply elem_of_approved_barangays in Hx as [Hx _]. exists x.2. by simpl.
Qed.

(** X16: what the status map says about a barangay comes from a newest
    row of its status log: the entry names a row of that barangay,
    copies its status, time, notes, description and photos, and no row
    of the barangay is newer.  A barangay without any row is shown as
    normal, with no time, notes, description, photos or row id. *)
Theorem fetchBarangaysWithStatus_reports_newest
    (db : database) (e : BarangayWithStatus) :
  e ∈ fetchBarangaysWithStatus db →
  match bws_statusUpdateId e with
  | Some k =>
      ∃ s, barangay_status_updates db !! k = Some s
           ∧ s_barangay_id s = bws_id e
           ∧ bws_status e = s_status s
           ∧ bws_statusUpdatedAt e = Some (s_created_at s)
           ∧ bws_statusNotes e = s_notes s
           ∧ bws_statusDescription e = s_description s
           ∧ bws_statusPhotoUrls e = s_photo_urls s
           ∧ ∀ k' s', barangay_status_updates db !! k' = Some s' →
                      s_barangay_id s' = bws_id e →
                      (s_created_at s' ≤ s_created_at s)%Z
  | None =>
      (∀ k s, barangay_status_updates db !! k = Some s → s_barangay_id s ≠ bws_id e)
      ∧ bws_status e = normal
      ∧ bws_statusUpdatedAt e = None
      ∧ bws_statusNotes e = None
      ∧ bws_statusDescription e = None
      ∧ bws_statusPhotoUrls e = []
  end.
Proof.
  unfold fetchBarangaysWithStatus. intros ([b v] & -> & Hb)%list_elem_of_fmap.
  cbn [bws_statusUpdateId bws_id bws_status bws_statusUpdatedAt bws_statusNotes
       bws_statusDescription bws_statusPhotoUrls fst snd].
  rewrite latest_by_barangay_lookup.
  assert (b ∈ (approved_barangays db).*1) as Hlisted.
  { apply list_elem_of_fmap. by exists (b, v). }
  destruct (List.find _ _) as [[k s]|] eqn:Hfind; cbn.
  - apply find_first_is_newest in Hfind as (Hin & Hsb & Hnew);
      [|apply StronglySorted_merge_sort; apply _].
    apply elem_of_latest_statuses in Hin as [Hk _]. simpl in *.
    exists s. split_and!; try done.
    intros k' s' Hk' Hs'. apply (Hnew (k', s')); [|done].
    apply elem_of_latest_statuses. simpl. split; [done|]. by rewrite Hs'.
  - split_and!; try done. intros k s Hk Hs.
    assert (bool_decide (s_barangay_id (k, s).2 = b) = false) as Hno.
    { apply (proj1 (find_None_iff _ _) Hfind). apply elem_of_latest_statuses.
      simpl. split; [done|]. by rewrite Hs. }
    simpl in Hno. by rewrite bool_decide_eq_true_2 in Hno.
Qed.

End StatusMap.

Section StatusMapRuns.

(** X16 run on barangay 10 after its responder reported a flood. *)
Lemma fetchBarangaysWithStatus_reports_newest_witness :
  ∃ s, barangay_status_updates fx_db_flooded !! 800%N = Some s
       ∧ s_barangay_id s = 10%N
       ∧ ∀ k' s', barangay_status_updates fx_db_flooded !! k' = Some s' →
                  s_barangay_id s' = 10%N → (s_created_at s' ≤ s_created_at s)%Z.
Proof.
  destruct (fetchBarangaysWithStatus_reports_newest fx_db_flooded
              {| bws_id := 10; bws_name := "Poblacion"; bws_boundaryGeojson := Some "polygon";
                 bws_status := active_disaster; bws_statusUpdatedAt := Some 90%Z;
                 bws_statusNotes := None;
                 bws_statusDescription := Some "Severe flooding on Main St";
                 bws_statusPhotoUrls := []; bws_statusUpdateId := Some 800%N |})
    as (s & Hs & Hb & _ & _ & _ & _ & _ & Hnew).
  - apply list_elem_of_In. vm_compute. repeat first [left; reflexivity | right].
  - exists s. split; [exact Hs|]. split; [exact Hb|exact Hnew].
Defined.

End StatusMapRuns.

Section StatusAuthority.

Lemma barangay_status_insert_spec
    (db : database) (c : context) (s : barangay_status_update) :
  barangay_status_insert db c s = true ↔
  auth_uid c = Some (s_updated_by s)
  ∧ ∃ p, profiles db !! s_updated_by s = Some p
         ∧ (pr_role p ∈ admin_roles
            ∨ (pr_role p ∈ [lgu_responder; barangay_responder]
               ∧ pr_barangay_id p = Some (s_barangay_id s))
            ∨ (pr_role p = municipal_responder
               ∧ ∃ b, barangays db !! s_barangay_id s = Some b
                      ∧ pr_municipality_id p = Some (b_municipality_id b))).
Proof.
  unfold barangay_status_insert, barangay_status_insert_lgu, barangay_status_insert_admin.
  rewrite !permissive_cons, permissive_nil, orb_false_r, orb_true_iff.
  rewrite !holds_sql_and, !andb_true_iff.
  rewrite current_user_is_lgu_type_spec, current_user_can_access_barangay_spec.
  rewrite holds_sql_in, !holds_sql_eq.
  unfold current_user_role, current_profile. split.
  - intros [[[(p & Hp & Hl) (p' & Hp' & Hacc)] (u & [= <-] & Hu)]
           |[(role & Hrole & Hadm) (u & [= <-] & Hu)]];
      rewrite Hu in *; simpl in *; (split; [done|]).
    + exists p'. split; [done|]. done.
    + destruct (profiles db !! s_updated_by s) as [p|]; [|done].
      injection Hrole as <-. exists p. eauto.
  - intros [Hu (p & Hp & Hacc)]. rewrite Hu. simpl. rewrite Hp. simpl.
    destruct Hacc as [Hadm|Hacc].
    + right. split; eauto.
    + left. split; [|eauto]. split.
      * exists p. split; [done|].
        destruct Hacc as [[Hr _]|[Hr _]]; [role_cases|]; rewrite Hr; role_cases.
      * exists p. split; [done|]. by right.
Qed.

(** X17: a status update that [updateBarangayStatus] reports as saved was
    made by the signed-in user under the own id, who is an admin, a
    barangay-level responder of that barangay, or a municipal responder
    of the barangay's municipality; the barangay exists, and the log only
    grows: the row is added under a fresh id and no earlier row changes.
    When an error is reported nothing is stored. *)
Theorem updateBarangayStatus_requires_authority
    (c : context) (barangayId : uuid) (status : barangay_status_enum) (userId : uuid)
    (options : option status_options) (db : database) :
  let out := updateBarangayStatus c barangayId status userId options db in
  (is_Some out.1 → out.2 = db)
  ∧ (out.1 = None →
       auth_uid c = Some userId
       ∧ (∃ p, profiles db !! userId = Some p
               ∧ (pr_role p ∈ admin_roles
                  ∨ (pr_role p ∈ [lgu_responder; barangay_responder]
                     ∧ pr_barangay_id p = Some barangayId)
                  ∨ (pr_role p = municipal_responder
                     ∧ ∃ b, barangays db !! barangayId = Some b
                            ∧ pr_municipality_id p = Some (b_municipality_id b))))
       ∧ is_Some (barangays db !! barangayId)
       ∧ barangay_status_updates db !! new_row_id c = None
       ∧ (∃ s, barangay_status_updates out.2
               = <[new_row_id c := s]> (barangay_status_updates db)
               ∧ s_barangay_id s = barangayId
               ∧ s_updated_by s = userId
               ∧ s_status s = status)
       ∧ (∀ k s, barangay_status_updates db !! k = Some s →
                 barangay_status_updates out.2 !! k = Some s)).
Proof.
  cbv zeta. unfold updateBarangayStatus.
  destruct (isNeedStatus status && _); [by split|].
  destruct (insert_barangay_status_update c _ db) as [db'|e] eqn:Hins; simpl.
  2:{ split; [done|]. intros [=]. }
  split; [by intros [? [=]]|]. intros _.
  pose proof (insert_barangay_status_update_Ok _ _ _ _ Hins) as [Hfresh ->].
  unfold insert_barangay_status_update in Hins.
  apply bind_Ok in Hins as ([] & Hrls%require_Ok & Hins).
  apply bind_Ok in Hins as ([] & _ & Hins).
  apply bind_Ok in Hins as ([] & Hbar%references_Ok & _).
  apply barangay_status_insert_spec in Hrls as [Hu Hacc]. simpl in *.
  split_and!; try done.
  - eexists. split; [reflexivity|]. done.
  - intros k s Hk. rewrite lookup_insert_ne; [done|]. intros <-. congruence.
Qed.

(** X18: for the status "normal" [updateBarangayStatus] asks for no
    description, and the row it stores carries none and no photos,
    whatever description and photos were passed; only a database error
    can make it fail. *)
Theorem updateBarangayStatus_normal_drops_details
    (c : context) (barangayId userId : uuid) (options : option status_options)
    (db : database) :
  let out := updateBarangayStatus c barangayId normal userId options db in
  (out.1 = None ∨ ∃ e, out.1 = Some (PostgrestError e))
  ∧ (out.1 = None →
     ∃ s, barangay_status_updates out.2 !! new_row_id c = Some s
          ∧ s_status s = normal
          ∧ s_description s = None
          ∧ s_photo_urls s = []
          ∧ s_notes s = (if falsy (options ≫= opt_notes) then None else options ≫= opt_notes)).
Proof.
  cbv zeta. unfold updateBarangayStatus.
  assert (isNeedStatus normal = false) as Hn by done.
  rewrite Hn. cbn [andb].
  destruct (insert_barangay_status_update c _ db) as [db'|e] eqn:Hins; simpl.
  - split; [by left|]. intros _.
    apply insert_barangay_status_update_Ok in Hins as [_ ->]. cbn.
    rewrite lookup_insert_eq. eexists. split; [reflexivity|]. done.
  - split; [right; eauto|]. intros [=].
Qed.

End StatusAuthority.

Section StatusAuthorityRuns.

(** X17 run: responder 101 reports a flood in barangay 10. *)
Lemma updateBarangayStatus_requires_authority_witness :
  auth_uid (fx_ctx fx_responder 90 800 0) = Some fx_responder
  ∧ is_Some (barangays fx_db !! 10%N)
  ∧ barangay_status_updates fx_db !! 800%N = None.
Proof.
  destruct (proj2 (updateBarangayStatus_requires_authority (fx_ctx fx_responder 90 800 0) 10
                     active_disaster fx_responder
                     (fx_status_options "Severe flooding on Main St") fx_db))
    as (Hu & _ & Hb & Hfresh & _).
  - vm_compute. reflexivity.
  - split; [exact Hu|]. split; [exact Hb|exact Hfresh].
Defined.

End StatusAuthorityRuns.

(* ===================================================================== *)
(** ** Assistance offers: the stored row and its delivery *)
(* ===================================================================== *)

Section OfferRow.

Lemma holds_sql_ne {A} `{EqDecision A} (a b : option A) :
  holds (sql_ne a b) = true ↔ ∃ x y, a = Some x ∧ b = Some y ∧ x ≠ y.
Proof.
  destruct a as [x|], b as [y|]; simpl;
    try (split; [done | intros (? & ? & ? & ? & ?); done]).
  case_bool_decide as Hxy; simpl; split; try done.
  - intros (? & ? & [= <-] & [= <-] & ?). done.
  - intros _. eauto.
Qed.

(** Who passes the INSERT policies of an offer. *)
Lemma assistance_insert_spec
    (db : database) (c : context) (o : barangay_assistance_offer) :
  assistance_insert db c o = true ↔
  auth_uid c = Some (o_created_by o)
  ∧ ∃ p, profiles db !! o_created_by o = Some p
         ∧ ((pr_role p ∈ [lgu_responder; barangay_responder]
             ∧ ∃ b, o_helping_barangay_id o = Some b ∧ pr_barangay_id p = Some b
                    ∧ b ≠ o_recipient_barangay_id o)
            ∨ (pr_role p = municipal_responder
               ∧ o_helping_barangay_id o = None
               ∧ ∃ m, o_helping_municipality_id o = Some m ∧ pr_municipality_id p = Some m)
            ∨ pr_role p ∈ admin_roles).
Proof.
  unfold assistance_insert, assistance_insert_lgu, assistance_insert_admin.
  rewrite !permissive_cons, permissive_nil, orb_false_r, orb_true_iff.
  rewrite !holds_sql_and, holds_sql_or, !holds_sql_and, !andb_true_iff, orb_true_iff,
    !andb_true_iff, !holds_sql_in, !holds_sql_eq, holds_sql_ne, holds_Some.
  unfold current_user_role, current_user_barangay_id, current_user_municipality_id,
    current_profile.
  split.
  - intros [[(u & [= <-] & Hu) Hwho]|[(role & Hrole & Hadm) (u & [= <-] & Hu)]];
      rewrite Hu in *; simpl in *; (split; [done|]);
      destruct (profiles db !! o_created_by o) as [p|]; simpl in *.
    + exists p. split; [done|].
      destruct Hwho as [[[(r & [= <-] & Hr) (b & Hb & Hpb)] (x & y & Hx & [= <-] & Hne)]
                       |[[(r & [= <-] & Hr) (m & Hm & Hpm)] Hnull]].
      * left. split; [done|]. exists b. split_and!; [done|done|]. congruence.
      * right. left. split_and!; [congruence| |eauto]. by destruct (o_helping_barangay_id o).
    + destruct Hwho as [[[(r & [=] & _) _] _]|[[(r & [=] & _) _] _]].
    + injection Hrole as <-. eauto.
    + done.
  - intros [Hu (p & Hp & Hwho)]. rewrite Hu. simpl. rewrite Hp. simpl.
    destruct Hwho as [[Hr (b & Hb & Hpb & Hne)]|[(Hr & Hnull & m & Hm & Hpm)|Hadm]].
    + left. split; [eauto|]. left. split_and!; eauto.
    + left. split; [eauto|]. right. rewrite Hnull, Hr. split_and!; eauto.
    + right. split; eauto.
Qed.

(** X19: an offer that [createAssistanceOffer] stores is filed by the
    signed-in user under the own id, under a fresh id, for a recipient
    barangay that exists; it is undelivered, its description is the
    trimmed text of at least three characters, and it names exactly one
    helper: the caller's barangay (other than the recipient), or, for a
    municipal responder, the caller's municipality.  No other offer
    changes; when the call fails nothing is stored, and a description
    shorter than three characters after trimming always fails. *)
Theorem createAssistanceOffer_stored_row
    (c : context) (recipientBarangayId : uuid) (description : string) (userId : uuid)
    (options : option offer_options) (db : database) :
  let out := createAssistanceOffer c recipientBarangayId description userId options db in
  (out.1.1 = None → out.2 = db ∧ is_Some out.1.2)
  ∧ ((String.length (js_trim description) < 3)%nat → out.1.1 = None)
  ∧ (∀ id, out.1.1 = Some id →
       id = new_row_id c
       ∧ out.1.2 = None
       ∧ auth_uid c = Some userId
       ∧ barangay_assistance_offers db !! id = None
       ∧ is_Some (barangays db !! recipientBarangayId)
       ∧ (3 ≤ String.length (js_trim description))%nat
       ∧ ∃ o p, barangay_assistance_offers out.2
                = <[id := o]> (barangay_assistance_offers db)
              ∧ profiles db !! userId = Some p
              ∧ o_created_by o = userId
              ∧ o_recipient_barangay_id o = recipientBarangayId
              ∧ o_description o = js_trim description
              ∧ o_delivered_at o = None
              ∧ ((o_helping_municipality_id o = None
                  ∧ pr_role p ∈ [lgu_responder; barangay_responder; admin; super_admin]
                  ∧ ∃ b, o_helping_barangay_id o = Some b ∧ pr_barangay_id p = Some b
                         ∧ b ≠ recipientBarangayId)
                 ∨ (o_helping_barangay_id o = None
                    ∧ pr_role p = municipal_responder
                    ∧ ∃ m, o_helping_municipality_id o = Some m
                           ∧ pr_municipality_id p = Some m))).
Proof.
  cbv zeta. unfold createAssistanceOffer.
  destruct (negb (truthy description) || _) eqn:Hshort.
  { simpl. split_and!; [eauto|done|done]. }
  apply orb_false_iff in Hshort as [_ Hlen]. apply Nat.ltb_ge in Hlen.
  set (profile := select_profile c userId db).
  set (isMunicipal := bool_decide (pr_role <$> profile = Some municipal_responder) && _).
  destruct (if isMunicipal && _ then _ else _) as [msg|] eqn:Hrefused.
  { simpl. split_and!; [eauto|done|done]. }
  match goal with
  | |- context [insert_barangay_assistance_offer c ?payload db] =>
      set (o := payload);
      destruct (insert_barangay_assistance_offer c o db) as [[id' db']|e] eqn:Hins
  end.
  2:{ simpl. split_and!; [eauto|done|done]. }
  simpl. split_and!; [done|lia|]. intros id [= <-].
  unfold insert_barangay_assistance_offer in Hins.
  apply bind_Ok in Hins as ([] & Hrls%require_Ok & Hins).
  apply bind_Ok in Hins as ([] & Hcheck%require_Ok & Hins).
  apply bind_Ok in Hins as ([] & Hpk%primary_key_Ok & Hins).
  apply bind_Ok in Hins as ([] & _ & Hins).
  apply bind_Ok in Hins as ([] & _ & Hins).
  apply bind_Ok in Hins as ([] & Hrec%references_Ok & Hins).
  apply bind_Ok in Hins as ([] & _ & Hins).
  apply bind_Ok in Hins as ([] & _ & Hins).
  injection Hins as <- <-.
  apply assistance_insert_spec in Hrls as [Hu (p & Hp & Hwho)]. simpl in Hu, Hp, Hrec.
  split_and!; try done.
  exists o, p. split_and!; try done.
  assert (profile = Some p) as Hprofile.
  { subst profile. unfold select_profile. rewrite Hp. simpl.
    destruct (profiles_select db c userId p) eqn:Hsel; [done|].
    revert Hsel. unfold profiles_select. rewrite permissive_cons.
    unfold profiles_select_own. rewrite Hu. simpl.
    by rewrite bool_decide_eq_true_2. }
  subst o. cbn in Hwho |- *. subst isMunicipal. rewrite Hprofile in *. cbn in *.
  destruct Hwho as [[Hr (b & Hb & Hpb & Hne)]|[(Hr & Hnull & m & Hm & Hpm)|Hadm]].
  - left. destruct (bool_decide (Some (pr_role p) = Some municipal_responder)
                    && is_not_null (pr_municipality_id p)); [done|].
    split_and!; [done| |eauto]. role_cases; rewrite Hr; role_cases.
  - right. destruct (bool_decide (Some (pr_role p) = Some municipal_responder)
                     && is_not_null (pr_municipality_id p)); [|congruence].
    split_and!; eauto.
  - assert (bool_decide (Some (pr_role p) = Some municipal_responder) = false) as Hnm.
    { apply bool_decide_eq_false. intros [= Hr]. rewrite Hr in Hadm. role_cases. }
    rewrite Hnm in *. cbn in *.
    destruct (pr_barangay_id p) as [own|] eqn:Hown; [|done].
    destruct (bool_decide (own = recipientBarangayId)) eqn:Hself; [done|].
    apply bool_decide_eq_false in Hself.
    left. split_and!; [done| |eauto]. role_cases; rewrite Hadm; role_cases.
Qed.

End OfferRow.

Section OfferRowRuns.

(** X19 run: responder 101 of barangay 10 offers help to barangay 11. *)
Lemma createAssistanceOffer_stored_row_witness :
  auth_uid (fx_ctx fx_responder 80 1000 0) = Some fx_responder
  ∧ barangay_assistance_offers fx_db !! 1000%N = None
  ∧ is_Some (barangays fx_db !! 11%N).
Proof.
  destruct (proj2 (proj2 (createAssistanceOffer_stored_row (fx_ctx fx_responder 80 1000 0) 11
                            "Rice and water" fx_responder None fx_db)) 1000%N)
    as (_ & _ & Hu & Hfresh & Hrec & _).
  - vm_compute. reflexivity.
  - split; [exact Hu|]. split; [exact Hfresh|exact Hrec].
Defined.

End OfferRowRuns.

Section Delivery.

(** X20: only the helper's side marks an offer delivered.
    [markAssistanceDelivered] either changes nothing, or the caller is a
    barangay-level responder of the helping barangay or a municipal
    responder of the helping municipality, and then the one offer gets
    the client's time as [delivered_at] while everything else, in that
    row and in the database, stays as it was.  For a resident or an
    administrator, and for an offer id that does not exist, nothing
    changes; no error is reported in any case. *)
Theorem markAssistanceDelivered_only_by_helper
    (c : context) (client_time : timestamptz) (offerId : uuid) (db : database) :
  let out := markAssistanceDelivered c client_time offerId db in
  (out = (None, db)
   ∨ ∃ o p,
       barangay_assistance_offers db !! offerId = Some o
       ∧ current_profile db c = Some p
       ∧ ((pr_role p ∈ [lgu_responder; barangay_responder]
           ∧ ∃ b, o_helping_barangay_id o = Some b ∧ pr_barangay_id p = Some b)
          ∨ (pr_role p = municipal_responder
             ∧ ∃ m, o_helping_municipality_id o = Some m ∧ pr_municipality_id p = Some m))
       ∧ out
         = (None,
            set_barangay_assistance_offers
              (insert offerId
                 {| o_helping_barangay_id := o_helping_barangay_id o;
                    o_helping_municipality_id := o_helping_municipality_id o;
                    o_recipient_barangay_id := o_recipient_barangay_id o;
                    o_status_update_id := o_status_update_id o;
                    o_description := o_description o;
                    o_assistance_image_url := o_assistance_image_url o;
                    o_expected_arrival_at := o_expected_arrival_at o;
                    o_delivered_at := Some client_time;
                    o_created_by := o_created_by o |}) db))
  ∧ (∀ role, current_user_role db c = Some role →
             role ∈ [resident; admin; super_admin] → out = (None, db))
  ∧ (barangay_assistance_offers db !! offerId = None → out = (None, db)).
Proof.
  cbv zeta. unfold markAssistanceDelivered.
  destruct (barangay_assistance_offers db !! offerId) as [o|] eqn:Ho.
  2:{ split_and!; [by left|done|done]. }
  destruct (assistance_update db c o) eqn:Hpol.
  - apply assistance_update_spec in Hpol as (p & Hp & Hwho). split_and!.
    + right. exists o, p. done.
    + intros role Hrole Hin. exfalso.
      unfold current_user_role in Hrole. rewrite Hp in Hrole. injection Hrole as <-.
      destruct Hwho as [[Hr _]|[Hr _]]; [|rewrite Hr in Hin]; role_cases.
      all: rewrite Hr in Hin; role_cases.
    + done.
  - split_and!; [by left|done|done].
Qed.

End Delivery.


Section OfferLifecycle.

(** X24: the responder who filed an offer can close it: after a
    successful [createAssistanceOffer] by a user with an LGU role, the
    stored offer is undelivered, the assistance log draws "Mark
    delivered" for a viewer with that user's barangay and municipality,
    and [markAssistanceDelivered] called by that user stamps the offer
    with the given time. *)
Theorem creator_marks_own_offer_delivered
    (c c' : context) (recipientBarangayId : uuid) (description : string) (userId : uuid)
    (options : option offer_options) (p : profile) (id : uuid) (client_time : timestamptz)
    (db db' : database) :
  createAssistanceOffer c recipientBarangayId description userId options db
  = ((Some id, None), db') →
  profiles db !! userId = Some p →
  pr_role p ∈ lgu_roles →
  auth_uid c' = Some userId →
  ∃ o, barangay_assistance_offers db' !! id = Some o
       ∧ o_delivered_at o = None
       ∧ showsMarkDelivered (pr_barangay_id p) (pr_municipality_id p) o = true
       ∧ (markAssistanceDelivered c' client_time id db').1 = None
       ∧ o_delivered_at <$>
           barangay_assistance_offers (markAssistanceDelivered c' client_time id db').2 !! id
         = Some (Some client_time).
Proof.
  intros Hcreate Hp Hlgu Hu'. revert Hcreate. unfold createAssistanceOffer.
  destruct (negb (truthy description) || _); [by intros [= ?]|].
  set (profile := select_profile c userId db).
  set (isMunicipal := bool_decide (pr_role <$> profile = Some municipal_responder) && _).
  destruct (if isMunicipal && _ then _ else _) as [msg|] eqn:Hrefused; [by intros [= ?]|].
  match goal with
  | |- context [insert_barangay_assistance_offer c ?payload db] =>
      set (o := payload);
      destruct (insert_barangay_assistance_offer c o db) as [[id' db1]|e] eqn:Hins;
      [|by intros [= ?]]
  end.
  intros [= -> ->].
  unfold insert_barangay_assistance_offer in Hins.
  apply bind_Ok in Hins as ([] & Hrls%require_Ok & Hins).
  repeat (apply bind_Ok in Hins as ([] & _ & Hins)).
  injection Hins as <- <-.
  apply assistance_insert_spec in Hrls as [Hu (q & Hq & Hwho)]. simpl in Hu, Hq.
  rewrite Hp in Hq. injection Hq as <-.
  exists o. cbn [barangay_assistance_offers set_barangay_assistance_offers].
  rewrite lookup_insert_eq. split; [done|]. split; [done|].
  assert (assistance_update
            (set_barangay_assistance_offers (insert (new_row_id c) o) db) c' o = true
          ∧ showsMarkDelivered (pr_barangay_id p) (pr_municipality_id p) o = true)
    as [Hpol Hshow].
  { split.
    - apply assistance_update_spec. exists p. split.
      { unfold current_profile. rewrite Hu'. simpl. done. }
      destruct Hwho as [[Hr (b & Hb & Hpb & _)]|[(Hr & _ & m & Hm & Hpm)|Hadm]]; [eauto|eauto|].
      exfalso. role_cases; rewrite Hlgu in Hadm; role_cases.
    - unfold showsMarkDelivered.
      destruct Hwho as [[Hr (b & Hb & Hpb & _)]|[(Hr & _ & m & Hm & Hpm)|Hadm]].
      + rewrite Hb, Hpb. cbn. by rewrite bool_decide_eq_true_2.
      + rewrite Hm, Hpm. cbn. rewrite bool_decide_eq_true_2 by done. apply orb_true_r.
      + exfalso. role_cases; rewrite Hlgu in Hadm; role_cases. }
  split; [done|].
  unfold markAssistanceDelivered.
  cbn [barangay_assistance_offers set_barangay_assistance_offers].
  rewrite lookup_insert_eq, Hpol. cbn. by rewrite lookup_insert_eq.
Qed.

End OfferLifecycle.

Section OfferLifecycleRuns.

(** X24 run: responder 101 files an offer for barangay 11. *)
Lemma creator_marks_own_offer_delivered_witness :
  ∃ o, barangay_assistance_offers
         (createAssistanceOffer (fx_ctx fx_responder 80 1000 0) 11 "Rice and water"
            fx_responder None fx_db).2 !! 1000%N = Some o
       ∧ o_delivered_at o = None.
Proof.
  destruct (creator_marks_own_offer_delivered (fx_ctx fx_responder 80 1000 0)
              (fx_ctx fx_responder 85 0 0) 11 "Rice and water" fx_responder None
              (fx_profile barangay_responder (Some 10%N) (Some 1%N)) 1000 85%Z fx_db
              (createAssistanceOffer (fx_ctx fx_responder 80 1000 0) 11 "Rice and water"
                 fx_responder None fx_db).2)
    as (o & Ho & Hnone & _).
  - vm_compute. reflexivity.
  - vm_compute. reflexivity.
  - simpl. role_cases.
  - reflexivity.
  - exists o. split; [exact Ho|exact Hnone].
Defined.

End OfferLifecycleRuns.

(* ===================================================================== *)
(** ** Hazard reports and profiles: who writes, who reads *)
(* ===================================================================== *)

Section ReportWriting.

(** X21: who may write a hazard report.  A report is inserted only under
    the caller's own id as reporter, by a resident (for any barangay) or
    by a barangay-level responder for the barangay of the own profile;
    a municipal responder and an administrator cannot file one.  A
    report is updated only by an administrator, by a barangay-level
    responder of its barangay or by a municipal responder of its
    barangay's municipality; being its reporter gives no right to
    change it. *)
Theorem reports_write_authority (db : database) (c : context) (r : report) :
  (reports_insert db c r = true ↔
     auth_uid c = Some (rp_reporter_id r)
     ∧ ∃ p, profiles db !! rp_reporter_id r = Some p
            ∧ (pr_role p = resident
               ∨ (pr_role p ∈ [lgu_responder; barangay_responder]
                  ∧ pr_barangay_id p = Some (rp_barangay_id r))))
  ∧ (reports_update db c r = true ↔
       ∃ p, current_profile db c = Some p
            ∧ (pr_role p ∈ admin_roles
               ∨ (pr_role p ∈ [lgu_responder; barangay_responder]
                  ∧ pr_barangay_id p = Some (rp_barangay_id r))
               ∨ (pr_role p = municipal_responder
                  ∧ ∃ b, barangays db !! rp_barangay_id r = Some b
                         ∧ pr_municipality_id p = Some (b_municipality_id b)))).
Proof.
  split.
  - unfold reports_insert, reports_insert_resident, reports_insert_lgu.
    rewrite !permissive_cons, permissive_nil, orb_false_r, orb_true_iff.
    rewrite !holds_sql_and, !andb_true_iff, !holds_sql_in, !holds_sql_eq, holds_Some.
    unfold current_user_role, current_user_barangay_id, current_profile. split.
    + intros [[(role & Hrole & [= <-]) (u & [= <-] & Hu)]
             |[[[(role & Hrole & Hin) Hnn] (u & [= <-] & Hu)] (b & [= <-] & Hb)]];
        rewrite Hu in *; simpl in *; (split; [done|]);
        (destruct (profiles db !! rp_reporter_id r) as [p|]; [|done]); simpl in *;
        injection Hrole as Hrole; exists p; (split; [done|]).
      * by left.
      * right. by rewrite Hrole.
    + intros [Hu (p & Hp & Hwho)]. rewrite Hu. simpl. rewrite Hp. simpl.
      destruct Hwho as [Hr|[Hr Hb]].
      * left. rewrite Hr. split; eauto.
      * right. rewrite Hb. split_and!; eauto.
  - unfold reports_update, reports_update_lgu_barangay, reports_update_admin.
    rewrite !permissive_cons, permissive_nil, orb_false_r, orb_true_iff.
    rewrite holds_sql_and, andb_true_iff.
    rewrite current_user_is_lgu_type_spec, current_user_can_access_barangay_spec.
    rewrite holds_sql_in. unfold current_user_role. split.
    + intros [[_ (p & Hp & Hacc)]|(role & Hrole & Hadm)]; [eauto|].
      destruct (current_profile db c) as [p|]; [|done]. injection Hrole as <-. eauto.
    + intros (p & Hp & [Hadm|Hacc]).
      * right. rewrite Hp. simpl. eauto.
      * left. split; [|eauto]. exists p. split; [done|].
        destruct Hacc as [[Hr _]|[Hr _]]; [role_cases|]; rewrite Hr; role_cases.
Qed.

End ReportWriting.

Section ProfileReading.

(** X22: who reads a profile.  A caller reads the own profile; an
    administrator reads all; a barangay-level responder reads the
    profiles assigned to the same barangay, and those without a barangay
    in the same municipality; a municipal responder reads the profiles
    of the own municipality.  Nobody else reads a profile: a resident or
    an anonymous caller sees at most the own row, and two responders
    who both lack a barangay and a municipality do not see each other. *)
Theorem profiles_select_spec (db : database) (c : context) (id : uuid) (p : profile) :
  (profiles_select db c id p = true ↔
     auth_uid c = Some id
     ∨ ∃ q, current_profile db c = Some q
            ∧ (pr_role q ∈ admin_roles
               ∨ (pr_role q ∈ [lgu_responder; barangay_responder]
                  ∧ ((∃ b, pr_barangay_id p = Some b ∧ pr_barangay_id q = Some b)
                     ∨ (pr_barangay_id p = None
                        ∧ ∃ m, pr_municipality_id p = Some m
                               ∧ pr_municipality_id q = Some m)))
               ∨ (pr_role q = municipal_responder
                  ∧ ∃ m, pr_municipality_id p = Some m ∧ pr_municipality_id q = Some m)))
  ∧ ((∀ role, current_user_role db c = Some role → role = resident) →
     (profiles_select db c id p = true ↔ auth_uid c = Some id)).
Proof.
  assert (profiles_select db c id p = true ↔
     auth_uid c = Some id
     ∨ ∃ q, current_profile db c = Some q
            ∧ (pr_role q ∈ admin_roles
               ∨ (pr_role q ∈ [lgu_responder; barangay_responder]
                  ∧ ((∃ b, pr_barangay_id p = Some b ∧ pr_barangay_id q = Some b)
                     ∨ (pr_barangay_id p = None
                        ∧ ∃ m, pr_municipality_id p = Some m
                               ∧ pr_municipality_id q = Some m)))
               ∨ (pr_role q = municipal_responder
                  ∧ ∃ m, pr_municipality_id p = Some m ∧ pr_municipality_id q = Some m)))
    as Hspec.
  { unfold profiles_select, profiles_select_own, profiles_select_same_barangay_lgu,
      profiles_select_admin.
    rewrite !permissive_cons, permissive_nil, orb_false_r, !orb_true_iff.
    rewrite holds_sql_or, orb_true_iff, !holds_sql_and, !andb_true_iff,
      holds_sql_or, orb_true_iff, holds_sql_and, andb_true_iff,
      !holds_sql_in, !holds_sql_eq, holds_Some.
    unfold current_user_role, current_user_barangay_id, current_user_municipality_id.
    destruct (current_profile db c) as [q|]; simpl.
    - split.
      + intros [(u & Hu & [= <-])|[[[(r & [= <-] & Hr) Hwhere]|[(r & [= <-] & [= Hr]) (m & Hm & Hqm)]]
                                  |(r & [= <-] & Hadm)]].
        * by left.
        * right. exists q. split; [done|]. right. left. split; [done|].
          destruct Hwhere as [(b & Hb & Hqb)|[Hnull (m & Hm & Hqm)]]; [eauto|].
          right. split; [by destruct (pr_barangay_id p)|eauto].
        * right. exists q. split; [done|]. right. right. eauto.
        * right. exists q. split; [done|]. by left.
      + intros [Hu|(q' & [= <-] & Hwho)]; [left; eauto|].
        right. destruct Hwho as [Hadm|[[Hr Hwhere]|[Hr (m & Hm & Hqm)]]].
        * right. eauto.
        * left. left. split; [eauto|].
          destruct Hwhere as [(b & Hb & Hqb)|[Hnull (m & Hm & Hqm)]]; [eauto|].
          right. rewrite Hnull. eauto.
        * left. right. rewrite Hr. split; eauto.
    - split.
      + intros [(u & Hu & [= <-])|[[[(r & [=] & _) _]|[(r & [=] & _) _]]|(r & [=] & _)]].
        by left.
      + intros [Hu|(q' & [=] & _)]. left. eauto. }
  split; [done|]. intros Hres. rewrite Hspec. split; [|by left].
  intros [Hu|(q & Hq & Hwho)]; [done|]. exfalso.
  assert (pr_role q = resident) as Hr.
  { apply Hres. unfold current_user_role. by rewrite Hq. }
  rewrite Hr in Hwho.
  destruct Hwho as [Hadm|[[Hin _]|[Hin _]]]; [role_cases|role_cases|done].
Qed.

End ProfileReading.
